(** * Attention and Transformer encoder notebooks: a shallow embedding

    The development embeds the numerical core of [Lab12_Transformers2.ipynb]
    (and the copy of [scaled_dot_product] in [Assignment1_6595203.ipynb]):
    [scaled_dot_product], [MultiheadAttention], [EncoderBlock],
    [TransformerEncoder] and [PositionalEncoding].

    Tensors are dense arrays of floats in the source.  Here a tensor is a
    shape together with an indexing function into the real numbers: the shape
    arithmetic (and with it every exception the source can raise) is
    executable, the entries are the real-number idealisation of the float32
    values.  Python exceptions are the [Err] results of an error monad; the
    random draws of [nn.Dropout] are read from an explicit stream. *)

From Stdlib Require Import List Arith Lia Bool Reals Lra FunctionalExtensionality.
Import ListNotations.

(** ** Exceptions *)

Inductive error : Type :=
| RuntimeError        (* torch: shape mismatch, invalid reshape, bad permutation *)
| IndexError          (* dimension or index out of range *)
| ValueError          (* wrong number of values to unpack, bad dropout rate *)
| AssertionError      (* a failed [assert] *)
| ZeroDivisionError.  (* Python integer or float division by zero *)

Inductive result (A : Type) : Type :=
| Ok (a : A)
| Err (e : error).

Arguments Ok {A} a.
Arguments Err {A} e.

Definition bind {A B : Type} (r : result A) (f : A -> result B) : result B :=
  match r with
  | Ok a => f a
  | Err e => Err e
  end.

Notation "x <- c1 ;; c2" := (bind c1 (fun x => c2))
  (at level 61, c1 at next level, right associativity).
Notation "' pat <- c1 ;; c2" := (bind c1 (fun x => match x with pat => c2 end))
  (at level 61, pat pattern, c1 at next level, right associativity).

Definition is_ok {A : Type} (r : result A) : bool :=
  match r with Ok _ => true | Err _ => false end.

(** ** Tensors *)

Record tensor : Type := mkTensor {
  shape : list nat;
  data : list nat -> R
}.

Definition rank (t : tensor) : nat := length (shape t).

Fixpoint numel (sh : list nat) : nat :=
  match sh with
  | [] => 1
  | d :: sh' => d * numel sh'
  end.

(** [sum_n n f] is the sum of [f 0 .. f (n-1)]. *)
Fixpoint sum_n (n : nat) (f : nat -> R) : R :=
  match n with
  | O => 0%R
  | S n' => (sum_n n' f + f n')%R
  end.

(** Index helpers. *)
Fixpoint upd (idx : list nat) (pos : nat) (v : nat) : list nat :=
  match idx, pos with
  | [], _ => []
  | _ :: tl, O => v :: tl
  | i :: tl, S p => i :: upd tl p v
  end.

Fixpoint remove_at (pos : nat) (idx : list nat) : list nat :=
  match idx, pos with
  | [], _ => []
  | _ :: tl, O => tl
  | i :: tl, S p => i :: remove_at p tl
  end.

Fixpoint insert_at (pos : nat) (v : nat) (l : list nat) : list nat :=
  match pos, l with
  | O, _ => v :: l
  | S p, [] => [v]
  | S p, x :: tl => x :: insert_at p v tl
  end.

(** The leading part and the last two entries of a list. *)
Definition split_last2 (l : list nat) : option (list nat * nat * nat) :=
  match rev l with
  | b :: a :: r => Some (rev r, a, b)
  | _ => None
  end.

(** The leading part and the last entry of a list. *)
Definition split_last (l : list nat) : option (list nat * nat) :=
  match rev l with
  | a :: r => Some (rev r, a)
  | _ => None
  end.

(** *** Broadcasting *)

Definition broadcast_dim (x y : nat) : option nat :=
  if x =? y then Some x
  else if x =? 1 then Some y
  else if y =? 1 then Some x
  else None.

(** Shapes are aligned at their last dimension; these are the reversed shapes. *)
Fixpoint broadcast_rev (a b : list nat) : option (list nat) :=
  match a, b with
  | [], _ => Some b
  | _, [] => Some a
  | x :: a', y :: b' =>
      match broadcast_dim x y, broadcast_rev a' b' with
      | Some d, Some r => Some (d :: r)
      | _, _ => None
      end
  end.

Definition broadcast_shapes (a b : list nat) : option (list nat) :=
  match broadcast_rev (rev a) (rev b) with
  | Some r => Some (rev r)
  | None => None
  end.

Fixpoint clamp1 (sh idx : list nat) : list nat :=
  match sh, idx with
  | d :: sh', i :: idx' => (if d =? 1 then 0 else i) :: clamp1 sh' idx'
  | _, _ => []
  end.

(** The index an operand of shape [sh] is read at, for the index [idx] of the
    broadcast result: the trailing [length sh] entries, and 0 along every
    dimension of size 1. *)
Definition bidx (sh idx : list nat) : list nat :=
  clamp1 sh (skipn (length idx - length sh) idx).

Definition map_tensor (f : R -> R) (t : tensor) : tensor :=
  mkTensor (shape t) (fun idx => f (data t idx)).

Definition zip_with (f : R -> R -> R) (a b : tensor) : result tensor :=
  match broadcast_shapes (shape a) (shape b) with
  | Some sh =>
      Ok (mkTensor sh (fun idx =>
            f (data a (bidx (shape a) idx)) (data b (bidx (shape b) idx))))
  | None => Err RuntimeError
  end.

Definition add : tensor -> tensor -> result tensor := zip_with Rplus.
Definition mul : tensor -> tensor -> result tensor := zip_with Rmult.

(** [t / c] and [t * c] for a Python float [c]. *)
Definition div_scalar (t : tensor) (c : R) : tensor := map_tensor (fun x => (x / c)%R) t.
Definition mul_scalar (t : tensor) (c : R) : tensor := map_tensor (fun x => (x * c)%R) t.

(** *** Views *)

(** [t.transpose(-2, -1)] *)
Definition transpose_last2 (t : tensor) : result tensor :=
  match split_last2 (shape t) with
  | Some (batch, n, m) =>
      Ok (mkTensor (batch ++ [m; n]) (fun idx =>
            match split_last2 idx with
            | Some (bi, i, j) => data t (bi ++ [j; i])
            | None => 0%R
            end))
  | None => Err IndexError
  end.

(** [t.shape[i]] *)
Definition shape_at (t : tensor) (i : nat) : result nat :=
  match nth_error (shape t) i with
  | Some d => Ok d
  | None => Err IndexError
  end.

(** [t.unsqueeze(dim)] for [0 <= dim <= rank]. *)
Definition unsqueeze (t : tensor) (dim : nat) : result tensor :=
  if dim <=? rank t
  then Ok (mkTensor (insert_at dim 1 (shape t)) (fun idx => data t (remove_at dim idx)))
  else Err IndexError.

(** [t.squeeze(dim)] on a dimension known to have size 1. *)
Definition squeeze_at (t : tensor) (dim : nat) : tensor :=
  mkTensor (remove_at dim (shape t)) (fun idx => data t (insert_at dim 0 idx)).

(** *** Matrix product, [a @ b] *)

(** Both operands of rank at least 2: a batched matrix product over the last
    two axes, the leading axes broadcast. *)
Definition bmm (a b : tensor) : result tensor :=
  match split_last2 (shape a), split_last2 (shape b) with
  | Some (ba, n, m), Some (bb, m', p) =>
      if m =? m' then
        match broadcast_shapes ba bb with
        | Some batch =>
            Ok (mkTensor (batch ++ [n; p]) (fun idx =>
                  match split_last2 idx with
                  | Some (bi, i, j) =>
                      sum_n m (fun l =>
                        (data a (bidx ba bi ++ [i; l]) * data b (bidx bb bi ++ [l; j]))%R)
                  | None => 0%R
                  end))
        | None => Err RuntimeError
        end
      else Err RuntimeError
  | _, _ => Err RuntimeError
  end.

(** [torch.matmul]: a vector operand is promoted to a matrix and the added
    axis is removed from the result; scalars are refused. *)
Definition matmul (a b : tensor) : result tensor :=
  match rank a, rank b with
  | O, _ | _, O => Err RuntimeError
  | 1, 1 =>
      a' <- unsqueeze a 0 ;;
      b' <- unsqueeze b 1 ;;
      c <- bmm a' b' ;;
      Ok (squeeze_at (squeeze_at c 1) 0)
  | 1, _ =>
      a' <- unsqueeze a 0 ;;
      c <- bmm a' b ;;
      Ok (squeeze_at c (rank c - 2))
  | _, 1 =>
      b' <- unsqueeze b 1 ;;
      c <- bmm a b' ;;
      Ok (squeeze_at c (rank c - 1))
  | _, _ => bmm a b
  end.

(** *** Softmax *)

(** [torch.nn.functional.softmax(t, dim)] for a non-negative [dim]: along axis
    [dim] every entry is its exponential over the sum of the exponentials of
    the entries that differ from it in that coordinate only. *)
Definition softmax (t : tensor) (dim : nat) : result tensor :=
  match nth_error (shape t) dim with
  | Some n =>
      Ok (mkTensor (shape t) (fun idx =>
            (exp (data t idx) / sum_n n (fun j => exp (data t (upd idx dim j))))%R))
  | None => Err IndexError
  end.

(** ** Scaled dot-product attention *)

Module Attention.

(** The first two statements of [scaled_dot_product]:
[[
  score_matrix = q @ k.transpose(-2, -1)
  scaled_score = score_matrix / math.sqrt(k.shape[1])
]] *)
Definition scaled_score (q k : tensor) : result tensor :=
  kt <- transpose_last2 k ;;
  score_matrix <- matmul q kt ;;
  d <- shape_at k 1 ;;
  Ok (div_scalar score_matrix (sqrt (INR d))).

(** [[
def scaled_dot_product(q, k, v, mask=None):
  score_matrix = q @ k.transpose(-2, -1)
  scaled_score = score_matrix / math.sqrt(k.shape[1])
  attention_weight = torch.nn.functional.softmax(scaled_score, dim= 1)
  output = attention_weight @ v
  return output, attention_weight
]]
    The [mask] argument is accepted and never read. *)
Definition scaled_dot_product (q k v : tensor) (mask : option tensor)
  : result (tensor * tensor) :=
  scaled <- scaled_score q k ;;
  attention_weight <- softmax scaled 1 ;;
  output <- matmul attention_weight v ;;
  Ok (output, attention_weight).

End Attention.

(** ** Reshaping, permuting, slicing *)

(** Row-major offset of an index, and the index of an offset. *)
Fixpoint ravel (sh idx : list nat) : nat :=
  match sh, idx with
  | _ :: sh', i :: idx' => i * numel sh' + ravel sh' idx'
  | _, _ => 0
  end.

Fixpoint unravel (sh : list nat) (n : nat) : list nat :=
  match sh with
  | [] => []
  | _ :: sh' => n / numel sh' :: unravel sh' (n mod numel sh')
  end.

(** [t.reshape(newshape)] *)
Definition reshape (t : tensor) (newshape : list nat) : result tensor :=
  if numel (shape t) =? numel newshape
  then Ok (mkTensor newshape (fun idx => data t (unravel (shape t) (ravel newshape idx))))
  else Err RuntimeError.

Fixpoint index_of (j : nat) (perm : list nat) : nat :=
  match perm with
  | [] => 0
  | p :: tl => if p =? j then 0 else S (index_of j tl)
  end.

Definition is_permutation (perm : list nat) (r : nat) : bool :=
  (length perm =? r) && forallb (fun j => existsb (Nat.eqb j) perm) (seq 0 r).

(** [t.permute(perm)]: axis [i] of the result is axis [perm[i]] of [t]. *)
Definition permute (t : tensor) (perm : list nat) : result tensor :=
  if is_permutation perm (rank t)
  then Ok (mkTensor (map (fun p => nth p (shape t) 0) perm)
             (fun idx => data t (map (fun j => nth (index_of j perm) idx 0) (seq 0 (rank t)))))
  else Err RuntimeError.

(** Entries [start .. start+len-1] of the last axis. *)
Definition narrow_last (t : tensor) (batch : list nat) (start len : nat) : tensor :=
  mkTensor (batch ++ [len]) (fun idx =>
    match split_last idx with
    | Some (bi, i) => data t (bi ++ [start + i])
    | None => 0%R
    end).

(** [a, b, c = t.chunk(3, dim=-1)]: pieces of size [ceil(n/3)], the last one
    shorter; fewer than three pieces cannot be unpacked into three names. *)
Definition chunk3_last (t : tensor) : result (tensor * tensor * tensor) :=
  match split_last (shape t) with
  | Some (batch, n) =>
      let split_size := (n + 2) / 3 in
      let count := (n + split_size - 1) / split_size in
      if (split_size =? 0) || (count =? 3)
      then Ok (narrow_last t batch 0 split_size,
               narrow_last t batch split_size split_size,
               narrow_last t batch (2 * split_size) (n - 2 * split_size))
      else Err ValueError
  | None => Err IndexError
  end.

(** [t[:, :stop]] with Python's clamping of the slice bound. *)
Definition slice_dim1_to (t : tensor) (stop : nat) : result tensor :=
  match shape t with
  | d0 :: d1 :: rest => Ok (mkTensor (d0 :: Nat.min stop d1 :: rest) (data t))
  | _ => Err IndexError
  end.

(** Number of entries of [range(start, stop, step)]. *)
Definition range_len (start stop step : nat) : nat :=
  (stop - start + step - 1) / step.

(** [torch.arange(start, stop, step)] as floats. *)
Definition arange (start stop step : nat) : tensor :=
  mkTensor [range_len start stop step] (fun idx =>
    match idx with
    | [i] => INR (start + i * step)
    | _ => 0%R
    end).

Definition zeros (sh : list nat) : tensor := mkTensor sh (fun _ => 0%R).

(** [t[:, start::step] = value] on a matrix [t]: [value] is expanded to the
    shape of the selected columns, which fails unless each of its dimensions
    equals the target's or is 1. *)
Definition setitem_cols (t : tensor) (start step : nat) (value : tensor) : result tensor :=
  match shape t with
  | [rows; cols] =>
      let target := [rows; range_len start cols step] in
      match broadcast_shapes (shape value) target with
      | Some sh =>
          if list_eq_dec Nat.eq_dec sh target
          then Ok (mkTensor [rows; cols] (fun idx =>
                     match idx with
                     | [r; c] =>
                         if (start <=? c) && ((c - start) mod step =? 0)
                         then data value (bidx (shape value) [r; (c - start) / step])
                         else data t idx
                     | _ => data t idx
                     end))
          else Err RuntimeError
      | None => Err RuntimeError
      end
  | _ => Err IndexError
  end.

(** ** Layers *)

(** [nn.Linear]: [y = x W^T + b] on the last axis. *)
Record Linear : Type := mkLinear {
  in_features : nat;
  out_features : nat;
  weight : nat -> nat -> R;   (* weight[j][i], of shape [out_features, in_features] *)
  bias : nat -> R
}.

Definition linear_forward (l : Linear) (x : tensor) : result tensor :=
  match split_last (shape x) with
  | Some (batch, n) =>
      if n =? in_features l
      then Ok (mkTensor (batch ++ [out_features l]) (fun idx =>
                 match split_last idx with
                 | Some (bi, j) =>
                     (sum_n n (fun i => data x (bi ++ [i]) * weight l j i) + bias l j)%R
                 | None => 0%R
                 end))
      else Err RuntimeError
  | None => Err RuntimeError
  end.

(** [nn.LayerNorm(normalized_shape)] over the last axis, with the biased
    variance, learned scale and shift. *)
Record LayerNorm : Type := mkLayerNorm {
  normalized_shape : nat;
  ln_weight : nat -> R;
  ln_bias : nat -> R;
  ln_eps : R
}.

Definition layer_norm_forward (ln : LayerNorm) (x : tensor) : result tensor :=
  match split_last (shape x) with
  | Some (batch, n) =>
      if n =? normalized_shape ln
      then Ok (mkTensor (shape x) (fun idx =>
                 match split_last idx with
                 | Some (bi, j) =>
                     let mean := (sum_n n (fun i => data x (bi ++ [i])) / INR n)%R in
                     let var := (sum_n n (fun i => (data x (bi ++ [i]) - mean) ^ 2) / INR n)%R in
                     ((data x idx - mean) / sqrt (var + ln_eps ln) * ln_weight ln j + ln_bias ln j)%R
                 | None => 0%R
                 end))
      else Err RuntimeError
  | None => Err RuntimeError
  end.

Definition relu : tensor -> tensor := map_tensor (Rmax 0).

(** *** Dropout and the training flag

    A module is in inference mode or in training mode.  In training mode
    every dropout call takes the next draw of a stream of keep/zero decisions;
    the position in the stream is threaded through the forward passes. *)

Inductive mode : Type :=
| Eval
| Train (draw : nat -> list nat -> bool).

Definition M (A : Type) : Type := nat -> result (A * nat).

Definition ret {A : Type} (a : A) : M A := fun n => Ok (a, n).

Definition bindM {A B : Type} (m : M A) (f : A -> M B) : M B :=
  fun n =>
    match m n with
    | Ok (a, n') => f a n'
    | Err e => Err e
    end.

Definition lift {A : Type} (r : result A) : M A :=
  fun n =>
    match r with
    | Ok a => Ok (a, n)
    | Err e => Err e
    end.

Notation "x <~ c1 ;; c2" := (bindM c1 (fun x => c2))
  (at level 61, c1 at next level, right associativity).

(** [F.dropout(x, p, training)]: kept entries are scaled by [1/(1-p)], the
    others are zero; with [p = 1] everything is zero. *)
Definition drop (p : R) (keep : list nat -> bool) (x : tensor) : tensor :=
  mkTensor (shape x) (fun idx =>
    if Req_dec_T p 1 then 0%R
    else if keep idx then (data x idx / (1 - p))%R else 0%R).

Definition dropout (md : mode) (p : R) (x : tensor) : M tensor :=
  fun n =>
    match md with
    | Eval => Ok (x, n)
    | Train draw => Ok (drop p (draw n) x, S n)
    end.

(** The members of an [nn.Sequential]. *)
Inductive layer : Type :=
| LinearL (l : Linear)
| DropoutL (p : R)
| ReLUL
| LayerNormL (ln : LayerNorm).

Definition layer_forward (md : mode) (l : layer) (x : tensor) : M tensor :=
  match l with
  | LinearL lin => lift (linear_forward lin x)
  | DropoutL p => dropout md p x
  | ReLUL => ret (relu x)
  | LayerNormL ln => lift (layer_norm_forward ln x)
  end.

(** [nn.Sequential.forward]: the members in order. *)
Fixpoint sequential_forward (md : mode) (ls : list layer) (x : tensor) : M tensor :=
  match ls with
  | [] => ret x
  | l :: ls' => y <~ layer_forward md l x ;; sequential_forward md ls' y
  end.

(** [nn.Dropout(p)] refuses a rate outside [0, 1]. *)
Definition check_dropout (p : R) : result unit :=
  if Rle_dec 0 p then (if Rle_dec p 1 then Ok tt else Err ValueError) else Err ValueError.

(** ** Multi-head attention *)

Module MultiheadAttention.

Record t : Type := mk {
  embed_dim : nat;
  num_heads : nat;
  head_dim : nat;
  qkv_proj : Linear;
  o_proj : Linear
}.

(** [nn.init.xavier_uniform_(l.weight)]: the draws are uniform on
    [-a, a] with [a = sqrt(3) * sqrt(2.0 / float(fan_in + fan_out))], a
    Python float division; [draws] are the values drawn. *)
Definition xavier_uniform_ (l : Linear) (draws : nat -> nat -> R) : result Linear :=
  if in_features l + out_features l =? 0 then Err ZeroDivisionError
  else Ok (mkLinear (in_features l) (out_features l) draws (bias l)).

(** [l.bias.data.fill_(0)] *)
Definition fill_bias_0 (l : Linear) : Linear :=
  mkLinear (in_features l) (out_features l) (weight l) (fun _ => 0%R).

(** [[
def _reset_parameters(self):
    nn.init.xavier_uniform_(self.qkv_proj.weight)
    self.qkv_proj.bias.data.fill_(0)
    nn.init.xavier_uniform_(self.o_proj.weight)
    self.o_proj.bias.data.fill_(0)
]] *)
Definition reset_parameters (self : t) (w_qkv w_o : nat -> nat -> R) : result t :=
  qkv <- xavier_uniform_ (qkv_proj self) w_qkv ;;
  o <- xavier_uniform_ (o_proj self) w_o ;;
  Ok {| embed_dim := embed_dim self;
        num_heads := num_heads self;
        head_dim := head_dim self;
        qkv_proj := fill_bias_0 qkv;
        o_proj := fill_bias_0 o |}.

(** [nn.Linear(n_in, n_out)] before [_reset_parameters] overwrites its
    default initial weights and bias. *)
Definition new_linear (n_in n_out : nat) : Linear :=
  mkLinear n_in n_out (fun _ _ => 0%R) (fun _ => 0%R).

(** [[
def __init__(self, input_dim, embed_dim, num_heads):
    assert embed_dim % num_heads == 0, "Embedding dimension must be 0 modulo number of heads."
    self.embed_dim = embed_dim
    self.num_heads = num_heads
    self.head_dim = embed_dim // num_heads
    self.qkv_proj = nn.Linear(input_dim, 3 * embed_dim)
    self.o_proj = nn.Linear(embed_dim, embed_dim)
    self._reset_parameters()
]]
    [w_qkv] and [w_o] are the Xavier-uniform draws of [_reset_parameters].
    Python's [%] raises on a zero divisor before the assertion is tested. *)
Definition init (input_dim embed_dim num_heads : nat) (w_qkv w_o : nat -> nat -> R)
  : result t :=
  if num_heads =? 0 then Err ZeroDivisionError
  else if embed_dim mod num_heads =? 0
  then reset_parameters
         {| embed_dim := embed_dim;
            num_heads := num_heads;
            head_dim := embed_dim / num_heads;
            qkv_proj := new_linear input_dim (3 * embed_dim);
            o_proj := new_linear embed_dim embed_dim |}
         w_qkv w_o
  else Err AssertionError.

(** The state a module built by [init input_dim embed_dim num_heads] keeps
    whatever the optimizer does to its weights and biases. *)
Definition configured (self : t) (input_dim embed_dim' num_heads' : nat) : bool :=
  (embed_dim self =? embed_dim') && (num_heads self =? num_heads')
  && negb (num_heads' =? 0) && (embed_dim' mod num_heads' =? 0)
  && negb (embed_dim' =? 0)
  && (head_dim self =? embed_dim' / num_heads')
  && (in_features (qkv_proj self) =? input_dim)
  && (out_features (qkv_proj self) =? 3 * embed_dim')
  && (in_features (o_proj self) =? embed_dim')
  && (out_features (o_proj self) =? embed_dim').

(** [[
def forward(self, x, mask=None, return_attention=False):
    batch_size, seq_length, embed_dim = x.size()
    qkv = self.qkv_proj(x)
    qkv = qkv.reshape(batch_size, seq_length, self.num_heads, 3 * self.head_dim)
    qkv = qkv.permute(0, 2, 1, 3)  # [Batch, Head, SeqLen, Dims]
    q, k, v = qkv.chunk(3, dim=-1)
    values, attention = scaled_dot_product(q, k, v, mask=mask)
    values = values.permute(0, 2, 1, 3)  # [Batch, SeqLen, Head, Dims]
    values = values.reshape(batch_size, seq_length, embed_dim)
    o = self.o_proj(values)
    if return_attention:
        return o, attention
    else:
        return o
]]
    [forward_attention] is the call with [return_attention=True]; note that
    the local [embed_dim] is the last dimension of [x], not [self.embed_dim]. *)
Definition forward_attention (self : t) (x : tensor) (mask : option tensor)
  : result (tensor * tensor) :=
  match shape x with
  | [batch_size; seq_length; embed_dim] =>
      qkv <- linear_forward (qkv_proj self) x ;;
      qkv <- reshape qkv [batch_size; seq_length; num_heads self; 3 * head_dim self] ;;
      qkv <- permute qkv [0; 2; 1; 3] ;;
      '(q, k, v) <- chunk3_last qkv ;;
      '(values, attention) <- Attention.scaled_dot_product q k v mask ;;
      values <- permute values [0; 2; 1; 3] ;;
      values <- reshape values [batch_size; seq_length; embed_dim] ;;
      o <- linear_forward (o_proj self) values ;;
      Ok (o, attention)
  | _ => Err ValueError
  end.

(** The call with [return_attention=False]. *)
Definition forward (self : t) (x : tensor) (mask : option tensor) : result tensor :=
  '(o, _) <- forward_attention self x mask ;;
  Ok o.

End MultiheadAttention.

(** ** Encoder block *)

Module EncoderBlock.

Record t : Type := mk {
  self_attn : MultiheadAttention.t;
  linear_net : list layer;
  norm1 : LayerNorm;
  norm2 : LayerNorm;
  dropout_p : R
}.

(** The random initial parameters of one block. *)
Record params : Type := mkParams {
  w_qkv : nat -> nat -> R;
  w_o : nat -> nat -> R;
  w1 : nat -> nat -> R;
  b1 : nat -> R;
  w2 : nat -> nat -> R;
  b2 : nat -> R
}.

(** [nn.LayerNorm(d)] starts with scale 1, shift 0 and [eps = 1e-5]. *)
Definition new_layer_norm (d : nat) : LayerNorm :=
  mkLayerNorm d (fun _ => 1%R) (fun _ => 0%R) (1 / 100000)%R.

(** [[
def __init__(self, input_dim, num_heads, dim_feedforward, dropout=0.0):
    self.self_attn = MultiheadAttention(input_dim, input_dim, num_heads)
    self.linear_net = nn.Sequential(
        nn.Linear(input_dim, dim_feedforward),
        nn.Dropout(dropout),
        nn.ReLU(inplace=True),
        nn.Linear(dim_feedforward, input_dim),
    )
    self.norm1 = nn.LayerNorm(input_dim)
    self.norm2 = nn.LayerNorm(input_dim)
    self.dropout = nn.Dropout(dropout)
]] *)
Definition init (input_dim num_heads dim_feedforward : nat) (dropout : R) (ps : params)
  : result t :=
  attn <- MultiheadAttention.init input_dim input_dim num_heads (w_qkv ps) (w_o ps) ;;
  _ <- check_dropout dropout ;;
  Ok {| self_attn := attn;
        linear_net := [ LinearL (mkLinear input_dim dim_feedforward (w1 ps) (b1 ps));
                        DropoutL dropout;
                        ReLUL;
                        LinearL (mkLinear dim_feedforward input_dim (w2 ps) (b2 ps)) ];
        norm1 := new_layer_norm input_dim;
        norm2 := new_layer_norm input_dim;
        dropout_p := dropout |}.

(** [[
def forward(self, x, mask=None):
    attn_out = self.self_attn(x, mask=mask)
    x = x + self.dropout(attn_out)
    x = self.norm1(x)
    linear_out = self.linear_net(x)
    x = x + self.dropout(linear_out)
    x = self.norm2(x)
    return x
]] *)
Definition forward (md : mode) (self : t) (x : tensor) (mask : option tensor) : M tensor :=
  attn_out <~ lift (MultiheadAttention.forward (self_attn self) x mask) ;;
  dropped <~ dropout md (dropout_p self) attn_out ;;
  x <~ lift (add x dropped) ;;
  x <~ lift (layer_norm_forward (norm1 self) x) ;;
  linear_out <~ sequential_forward md (linear_net self) x ;;
  dropped <~ dropout md (dropout_p self) linear_out ;;
  x <~ lift (add x dropped) ;;
  x <~ lift (layer_norm_forward (norm2 self) x) ;;
  ret x.

(** A block built by [init input_dim num_heads dim_feedforward _]. *)
Definition configured (self : t) (D H ff : nat) : bool :=
  MultiheadAttention.configured (self_attn self) D D H
  && match linear_net self with
     | [LinearL l1; DropoutL _; ReLUL; LinearL l2] =>
         (in_features l1 =? D) && (out_features l1 =? ff)
         && (in_features l2 =? ff) && (out_features l2 =? D)
     | _ => false
     end
  && (normalized_shape (norm1 self) =? D)
  && (normalized_shape (norm2 self) =? D).

(** The block as the specification words it: two residual, post-norm steps,
    the feed-forward part being [Linear2(Dropout(ReLU(Linear1(x))))]. *)
Definition post_norm_steps (md : mode) (attn : MultiheadAttention.t)
    (linear1 linear2 : Linear) (p_ff p : R) (n1 n2 : LayerNorm)
    (x : tensor) (mask : option tensor) : M tensor :=
  attn_out <~ lift (MultiheadAttention.forward attn x mask) ;;
  dropped <~ dropout md p attn_out ;;
  s <~ lift (add x dropped) ;;
  x <~ lift (layer_norm_forward n1 s) ;;
  h <~ lift (linear_forward linear1 x) ;;
  h <~ dropout md p_ff (relu h) ;;
  ff_out <~ lift (linear_forward linear2 h) ;;
  dropped <~ dropout md p ff_out ;;
  s <~ lift (add x dropped) ;;
  x <~ lift (layer_norm_forward n2 s) ;;
  ret x.

End EncoderBlock.

(** ** Encoder stack *)

Module TransformerEncoder.

Record t : Type := mk { layers : list EncoderBlock.t }.

(** [[
def __init__(self, num_layers, **block_args):
    self.layers = nn.ModuleList([EncoderBlock( **block_args) for _ in range(num_layers)])
]]
    [ps i] are the initial parameters of block [i]. *)
Fixpoint init_layers (input_dim num_heads dim_feedforward : nat) (dropout : R)
  (ps : list EncoderBlock.params) : result (list EncoderBlock.t) :=
  match ps with
  | [] => Ok []
  | p :: ps' =>
      b <- EncoderBlock.init input_dim num_heads dim_feedforward dropout p ;;
      bs <- init_layers input_dim num_heads dim_feedforward dropout ps' ;;
      Ok (b :: bs)
  end.

Definition init (num_layers input_dim num_heads dim_feedforward : nat) (dropout : R)
  (ps : nat -> EncoderBlock.params) : result t :=
  ls <- init_layers input_dim num_heads dim_feedforward dropout (map ps (seq 0 num_layers)) ;;
  Ok (mk ls).

(** [[
def forward(self, x, mask=None):
    for layer in self.layers:
        x = layer(x, mask=mask)
    return x
]] *)
Fixpoint forward_layers (md : mode) (ls : list EncoderBlock.t) (x : tensor)
  (mask : option tensor) : M tensor :=
  match ls with
  | [] => ret x
  | layer :: ls' =>
      x <~ EncoderBlock.forward md layer x mask ;;
      forward_layers md ls' x mask
  end.

Definition forward (md : mode) (self : t) (x : tensor) (mask : option tensor) : M tensor :=
  forward_layers md (layers self) x mask.

(** [[
def get_attention_maps(self, x, mask=None):
    attention_maps = []
    for layer in self.layers:
        _, attn_map = layer.self_attn(x, mask=mask, return_attention=True)
        attention_maps.append(attn_map)
        x = layer(x)
    return attention_maps
]]
    The block itself is called without the mask. *)
Fixpoint attention_maps_loop (md : mode) (ls : list EncoderBlock.t) (x : tensor)
  (mask : option tensor) (attention_maps : list tensor) : M (list tensor) :=
  match ls with
  | [] => ret attention_maps
  | layer :: ls' =>
      r <~ lift (MultiheadAttention.forward_attention (EncoderBlock.self_attn layer) x mask) ;;
      x <~ EncoderBlock.forward md layer x None ;;
      attention_maps_loop md ls' x mask (attention_maps ++ [snd r])
  end.

Definition get_attention_maps (md : mode) (self : t) (x : tensor) (mask : option tensor)
  : M (list tensor) :=
  attention_maps_loop md (layers self) x mask [].

End TransformerEncoder.

(** ** Positional encoding *)

Module PositionalEncoding.

Record t : Type := mk { pe : tensor }.

(** [[
def __init__(self, d_model, max_len=5000):
    pe = torch.zeros(max_len, d_model)
    position = torch.arange(0, max_len, dtype=torch.float).unsqueeze(1)
    div_term = torch.exp(torch.arange(0, d_model, 2).float() * (-math.log(10000.0) / d_model))
    pe[:, 0::2] = torch.sin(position * div_term)
    pe[:, 1::2] = torch.cos(position * div_term)
    pe = pe.unsqueeze(0)
    self.register_buffer("pe", pe, persistent=False)
]] *)
Definition init (d_model max_len : nat) : result t :=
  let pe := zeros [max_len; d_model] in
  position <- unsqueeze (arange 0 max_len 1) 1 ;;
  if d_model =? 0 then Err ZeroDivisionError
  else
    let div_term :=
      map_tensor exp (mul_scalar (arange 0 d_model 2) (- ln 10000 / INR d_model)) in
    angle <- mul position div_term ;;
    pe <- setitem_cols pe 0 2 (map_tensor sin angle) ;;
    angle <- mul position div_term ;;
    pe <- setitem_cols pe 1 2 (map_tensor cos angle) ;;
    pe <- unsqueeze pe 0 ;;
    Ok (mk pe).

(** [[
def forward(self, x):
    x = x + self.pe[:, : x.size(1)]
    return x
]] *)
Definition forward (self : t) (x : tensor) : result tensor :=
  seq_length <- shape_at x 1 ;;
  rows <- slice_dim1_to (pe self) seq_length ;;
  add x rows.

(** The angle [pos * div_term[j]] the table takes the sine and cosine of. *)
Definition angle (d pos j : nat) : R :=
  (INR pos * exp (INR (2 * j) * (- ln 10000 / INR d)))%R.

End PositionalEncoding.

(** ** The assignment's copy of the attention function *)

Module Assignment1.

(** [[
def scaled_dot_product(q, k, v, mask=None):
  score_matrix = q @ k.transpose(-2, -1)
  scaled_score = score_matrix / math.sqrt(k.shape[1])
  attention_weight = F.softmax(scaled_score, dim= 1)
  output = attention_weight @ v
  return output
]] *)
Definition scaled_dot_product (q k v : tensor) (mask : option tensor) : result tensor :=
  kt <- transpose_last2 k ;;
  score_matrix <- matmul q kt ;;
  d <- shape_at k 1 ;;
  let scaled_score := div_scalar score_matrix (sqrt (INR d)) in
  attention_weight <- softmax scaled_score 1 ;;
  output <- matmul attention_weight v ;;
  Ok output.

End Assignment1.

(** ** The sequence-reversal dataset *)

Module ReverseDataset.

(** An integer tensor: the entries of [torch.randint] are non-negative. *)
Record itensor : Type := mkITensor {
  ishape : list nat;
  idata : list nat -> nat
}.

Record t : Type := mk {
  num_categories : nat;
  seq_len : nat;
  size : nat;
  data : itensor
}.

(** [[
def __init__(self, num_categories, seq_len, size):
    self.num_categories = num_categories
    self.seq_len = seq_len
    self.size = size
    self.data = torch.randint(self.num_categories, size=(self.size, self.seq_len))
]]
    [draws i j] is the value drawn for position [j] of sequence [i];
    [torch.randint(high, ...)] refuses an empty range [0, high). *)
Definition init (num_categories seq_len size : nat) (draws : nat -> nat -> nat) : result t :=
  if num_categories =? 0 then Err RuntimeError
  else Ok {| num_categories := num_categories;
             seq_len := seq_len;
             size := size;
             data := mkITensor [size; seq_len] (fun idx =>
                       match idx with
                       | [i; j] => draws i j
                       | _ => 0
                       end) |}.

(** [[
def __len__(self):
    return self.size
]] *)
Definition len (self : t) : nat := size self.

(** [t[idx]] for a non-negative [idx]: the sub-tensor at [idx] of the first axis. *)
Definition select0 (a : itensor) (idx : nat) : result itensor :=
  match ishape a with
  | n :: rest =>
      if idx <? n then Ok (mkITensor rest (fun tl => idata a (idx :: tl)))
      else Err IndexError
  | [] => Err IndexError
  end.

(** [torch.flip(t, dims=(0,))]: the first axis in reverse order. *)
Definition flip0 (a : itensor) : result itensor :=
  match ishape a with
  | n :: rest =>
      Ok (mkITensor (n :: rest) (fun idx =>
            match idx with
            | i :: tl => idata a ((n - 1 - i) :: tl)
            | [] => 0
            end))
  | [] => Err IndexError
  end.

(** [[
def __getitem__(self, idx):
    inp_data = self.data[idx]
    labels = torch.flip(inp_data, dims=(0,))
    return inp_data, labels
]] *)
Definition getitem (self : t) (idx : nat) : result (itensor * itensor) :=
  inp_data <- select0 (data self) idx ;;
  labels <- flip0 inp_data ;;
  Ok (inp_data, labels).

End ReverseDataset.

(** ** The predictor: input net, positional encoding, encoder, output net *)

Module TransformerPredictor.

Record t : Type := mk {
  input_net : list layer;
  positional_encoding : PositionalEncoding.t;
  transformer : TransformerEncoder.t;
  output_net : list layer
}.

(** The random initial parameters of the linear layers and of the blocks. *)
Record params : Type := mkParams {
  w_in : nat -> nat -> R;
  b_in : nat -> R;
  blocks : nat -> EncoderBlock.params;
  w_out1 : nat -> nat -> R;
  b_out1 : nat -> R;
  w_out2 : nat -> nat -> R;
  b_out2 : nat -> R
}.

(** The default [max_len] of [PositionalEncoding]. *)
Definition default_max_len : nat := 5000.

(** [[
def __init__(self, input_dim, model_dim, num_classes, num_heads, num_layers,
             dropout=0.0, input_dropout=0.0):
    self.input_net = nn.Sequential(
        nn.Dropout(input_dropout), nn.Linear(input_dim, model_dim)
    )
    self.positional_encoding = PositionalEncoding(d_model=model_dim)
    self.transformer = TransformerEncoder(
        num_layers=num_layers,
        input_dim=model_dim,
        dim_feedforward=2 * model_dim,
        num_heads=num_heads,
        dropout=dropout,
    )
    self.output_net = nn.Sequential(
        nn.Linear(model_dim, model_dim),
        nn.LayerNorm(model_dim),
        nn.ReLU(inplace=True),
        nn.Dropout(dropout),
        nn.Linear(model_dim, num_classes),
    )
]] *)
Definition init (input_dim model_dim num_classes num_heads num_layers : nat)
    (dropout input_dropout : R) (ps : params) : result t :=
  _ <- check_dropout input_dropout ;;
  let input_net :=
    [DropoutL input_dropout; LinearL (mkLinear input_dim model_dim (w_in ps) (b_in ps))] in
  positional_encoding <- PositionalEncoding.init model_dim default_max_len ;;
  transformer <- TransformerEncoder.init num_layers model_dim num_heads (2 * model_dim)
                   dropout (blocks ps) ;;
  _ <- check_dropout dropout ;;
  let output_net :=
    [LinearL (mkLinear model_dim model_dim (w_out1 ps) (b_out1 ps));
     LayerNormL (EncoderBlock.new_layer_norm model_dim);
     ReLUL;
     DropoutL dropout;
     LinearL (mkLinear model_dim num_classes (w_out2 ps) (b_out2 ps))] in
  Ok {| input_net := input_net;
        positional_encoding := positional_encoding;
        transformer := transformer;
        output_net := output_net |}.

(** [[
def forward(self, x, mask=None, add_positional_encoding=True):
    x = self.input_net(x)
    if add_positional_encoding:
        x = self.positional_encoding(x)
    x = self.transformer(x, mask=mask)
    x = self.output_net(x)
    return x
]] *)
Definition forward (md : mode) (self : t) (x : tensor) (mask : option tensor)
    (add_positional_encoding : bool) : M tensor :=
  x <~ sequential_forward md (input_net self) x ;;
  x <~ (if add_positional_encoding
        then lift (PositionalEncoding.forward (positional_encoding self) x)
        else ret x) ;;
  x <~ TransformerEncoder.forward md (transformer self) x mask ;;
  x <~ sequential_forward md (output_net self) x ;;
  ret x.

End TransformerPredictor.

(** ** Sample inputs and modules *)

Module Samples.

(** One query, two keys, everything zero; the mask excludes the second key. *)
Definition mask_second_key : tensor :=
  mkTensor [1; 2] (fun idx => match idx with [0; 0] => 1%R | _ => 0%R end).

Definition ones (sh : list nat) : tensor := mkTensor sh (fun _ => 1%R).

Definition zero_weights : nat -> nat -> R := fun _ _ => 0%R.

(** What [MultiheadAttention(1, 2, 1)] and [MultiheadAttention(2, 2, 1)] build. *)
Definition attention_1_2 : MultiheadAttention.t :=
  MultiheadAttention.mk 2 1 2
    (mkLinear 1 6 zero_weights (fun _ => 0%R)) (mkLinear 2 2 zero_weights (fun _ => 0%R)).

Definition attention_2_2 : MultiheadAttention.t :=
  MultiheadAttention.mk 2 1 2
    (mkLinear 2 6 zero_weights (fun _ => 0%R)) (mkLinear 2 2 zero_weights (fun _ => 0%R)).

(** A block with one head of width 2 and a hidden width of 4. *)
Definition sample_linear1 : Linear := mkLinear 2 4 (fun _ _ => 1%R) (fun _ => 0%R).
Definition sample_linear2 : Linear := mkLinear 4 2 (fun _ _ => 1%R) (fun _ => 0%R).

Definition sample_block : EncoderBlock.t :=
  {| EncoderBlock.self_attn :=
       MultiheadAttention.mk 2 1 2
         (mkLinear 2 6 (fun _ _ => 1%R) (fun _ => 0%R))
         (mkLinear 2 2 (fun _ _ => 1%R) (fun _ => 0%R));
     EncoderBlock.linear_net :=
       [LinearL sample_linear1; DropoutL (1 / 2); ReLUL; LinearL sample_linear2];
     EncoderBlock.norm1 := EncoderBlock.new_layer_norm 2;
     EncoderBlock.norm2 := EncoderBlock.new_layer_norm 2;
     EncoderBlock.dropout_p := (1 / 2)%R |}.

(** Two blocks of width 2 in inference mode. *)
Definition sample_encoder : TransformerEncoder.t :=
  TransformerEncoder.mk [sample_block; sample_block].


End Samples.

Module MoreSamples.

(** What [MultiheadAttention(4, 4, 2)] builds from all-one draws. *)
Definition attention_two_heads : MultiheadAttention.t :=
  MultiheadAttention.mk 4 2 2
    (mkLinear 4 12 (fun _ _ => 1%R) (fun _ => 0%R))
    (mkLinear 4 4 (fun _ _ => 1%R) (fun _ => 0%R)).

Definition one_params : EncoderBlock.params :=
  EncoderBlock.mkParams (fun _ _ => 1%R) (fun _ _ => 1%R)
    (fun _ _ => 1%R) (fun _ => 0%R) (fun _ _ => 1%R) (fun _ => 0%R).

(** Which blocks of a stack are built for width [D], [H] heads and a hidden
    width of [ff]. *)
Definition all_configured (ls : list EncoderBlock.t) (D H ff : nat) : bool :=
  forallb (fun l => EncoderBlock.configured l D H ff) ls.

(** Draws for a dataset of 1000 sequences of 16 categories out of 10. *)
Definition sample_draws : nat -> nat -> nat := fun i j => (i + j) mod 10.

Definition sample_dataset : ReverseDataset.t :=
  ReverseDataset.mk 10 16 1000
    (ReverseDataset.mkITensor [1000; 16] (fun idx =>
       match idx with
       | [i; j] => sample_draws i j
       | _ => 0
       end)).

(** A predictor built by [TransformerPredictor.init input_dim model_dim
    num_classes num_heads _]. *)
Definition predictor_configured (self : TransformerPredictor.t)
    (input_dim model_dim num_classes H : nat) : bool :=
  match TransformerPredictor.input_net self with
  | [DropoutL _; LinearL l] => (in_features l =? input_dim) && (out_features l =? model_dim)
  | _ => false
  end
  && match shape (PositionalEncoding.pe (TransformerPredictor.positional_encoding self)) with
     | [one; L; d] =>
         (one =? 1) && (L =? TransformerPredictor.default_max_len) && (d =? model_dim)
     | _ => false
     end
  && all_configured (TransformerEncoder.layers (TransformerPredictor.transformer self))
       model_dim H (2 * model_dim)
  && match TransformerPredictor.output_net self with
     | [LinearL l1; LayerNormL ln; ReLUL; DropoutL _; LinearL l2] =>
         (in_features l1 =? model_dim) && (out_features l1 =? model_dim)
         && (normalized_shape ln =? model_dim)
         && (in_features l2 =? model_dim) && (out_features l2 =? num_classes)
     | _ => false
     end.

Definition one_predictor_params : TransformerPredictor.params :=
  TransformerPredictor.mkParams (fun _ _ => 1%R) (fun _ => 0%R) (fun _ => one_params)
    (fun _ _ => 1%R) (fun _ => 0%R) (fun _ _ => 1%R) (fun _ => 0%R).

(** A predictor for 10 input features, model width 8, 10 classes, 4 heads
    and one layer, as the training cell builds it (with a narrower model). *)
Definition sample_block8 : EncoderBlock.t :=
  {| EncoderBlock.self_attn :=
       MultiheadAttention.mk 8 4 2
         (mkLinear 8 24 (fun _ _ => 1%R) (fun _ => 0%R))
         (mkLinear 8 8 (fun _ _ => 1%R) (fun _ => 0%R));
     EncoderBlock.linear_net :=
       [LinearL (mkLinear 8 16 (fun _ _ => 1%R) (fun _ => 0%R)); DropoutL 0; ReLUL;
        LinearL (mkLinear 16 8 (fun _ _ => 1%R) (fun _ => 0%R))];
     EncoderBlock.norm1 := EncoderBlock.new_layer_norm 8;
     EncoderBlock.norm2 := EncoderBlock.new_layer_norm 8;
     EncoderBlock.dropout_p := 0%R |}.

Definition sample_predictor : TransformerPredictor.t :=
  {| TransformerPredictor.input_net :=
       [DropoutL 0; LinearL (mkLinear 10 8 (fun _ _ => 1%R) (fun _ => 0%R))];
     TransformerPredictor.positional_encoding :=
       match PositionalEncoding.init 8 TransformerPredictor.default_max_len with
       | Ok enc => enc
       | Err _ => PositionalEncoding.mk (zeros [])
       end;
     TransformerPredictor.transformer := TransformerEncoder.mk [sample_block8];
     TransformerPredictor.output_net :=
       [LinearL (mkLinear 8 8 (fun _ _ => 1%R) (fun _ => 0%R));
        LayerNormL (EncoderBlock.new_layer_norm 8);
        ReLUL;
        DropoutL 0;
        LinearL (mkLinear 8 10 (fun _ _ => 1%R) (fun _ => 0%R))] |}.

End MoreSamples.

(** * Properties *)

(** ** Sums *)

Lemma sum_n_ext (n : nat) (f g : nat -> R) :
  (forall i, i < n -> f i = g i) -> sum_n n f = sum_n n g.
Proof.
  induction n as [|n IH]; intros H; simpl.
  - reflexivity.
  - rewrite IH by (intros; apply H; lia). rewrite H by lia. reflexivity.
Qed.

Lemma sum_n_scal (n : nat) (f : nat -> R) (c : R) :
  sum_n n (fun i => (f i * c)%R) = (sum_n n f * c)%R.
Proof.
  induction n as [|n IH]; simpl.
  - ring.
  - rewrite IH. ring.
Qed.

Lemma sum_n_nonneg (n : nat) (f : nat -> R) :
  (forall i, i < n -> (0 <= f i)%R) -> (0 <= sum_n n f)%R.
Proof.
  induction n as [|n IH]; intros H; simpl.
  - lra.
  - assert (0 <= sum_n n f)%R by (apply IH; intros; apply H; lia).
    assert (0 <= f n)%R by (apply H; lia). lra.
Qed.

Lemma sum_n_exp_pos (n : nat) (f : nat -> R) :
  0 < n -> (0 < sum_n n (fun i => exp (f i)))%R.
Proof.
  intros Hn. destruct n as [|n]; [lia|]. simpl.
  assert (0 <= sum_n n (fun i => exp (f i)))%R
    by (apply sum_n_nonneg; intros; left; apply exp_pos).
  pose proof (exp_pos (f n)). lra.
Qed.

(** A softmax row: non-negative entries that add up to 1. *)
Lemma softmax_row (n : nat) (f : nat -> R) :
  0 < n ->
  (forall j, 0 <= exp (f j) / sum_n n (fun i => exp (f i)))%R /\
  sum_n n (fun j => (exp (f j) / sum_n n (fun i => exp (f i)))%R) = 1%R.
Proof.
  intros Hn. pose proof (sum_n_exp_pos n f Hn) as Hpos. split.
  - intros j. apply Rlt_le, Rdiv_lt_0_compat; [apply exp_pos | exact Hpos].
  - unfold Rdiv. rewrite sum_n_scal. apply Rinv_r. lra.
Qed.

(** ** Scaled dot-product attention *)

Module AttentionFacts.
Import Attention.

(** The mask never reaches the computation. *)
Lemma scaled_dot_product_mask_irrelevant (q k v : tensor) (mask : option tensor) :
  scaled_dot_product q k v mask = scaled_dot_product q k v None.
Proof. reflexivity. Qed.



End AttentionFacts.

Module AttentionBatched.
Import Attention.

Lemma clamp_index (d i : nat) : i < d -> (if d =? 1 then 0 else i) = i.
Proof. intros H. destruct (Nat.eqb_spec d 1); [lia | reflexivity]. Qed.

(** On the [Batch, Head, SeqLen, Dims] tensors of [MultiheadAttention.forward]
    position 1 of the shape is the head count: the dot products are divided
    by [sqrt num_heads]. *)
Lemma scaled_score_4d (q k : tensor) (B H Tq Tk d : nat) :
  shape q = [B; H; Tq; d] -> shape k = [B; H; Tk; d] ->
  exists s, scaled_score q k = Ok s /\ shape s = [B; H; Tq; Tk] /\
    forall b h i j, b < B -> h < H ->
      data s [b; h; i; j] =
      (sum_n d (fun l => data q [b; h; i; l] * data k [b; h; j; l]) / sqrt (INR H))%R.
Proof.
  destruct q as [shq dq], k as [shk dk]; simpl; intros -> ->.
  unfold scaled_score, transpose_last2, matmul, bmm, shape_at, broadcast_shapes; cbn.
  unfold broadcast_dim. rewrite !Nat.eqb_refl; cbn.
  eexists; split; [reflexivity|]. split; [reflexivity|].
  intros b h i j Hb Hh; cbn. rewrite !clamp_index by assumption. reflexivity.
Qed.

(** ... and axis 1 of the scores is the head axis: the weights are
    normalised across the heads, not across the keys. *)
Lemma scaled_dot_product_4d_weights (q k v : tensor) (B H Tq Tk d dv : nat) :
  shape q = [B; H; Tq; d] -> shape k = [B; H; Tk; d] -> shape v = [B; H; Tk; dv] ->
  0 < H ->
  exists output w,
    scaled_dot_product q k v None = Ok (output, w) /\
    shape w = [B; H; Tq; Tk] /\ shape output = [B; H; Tq; dv] /\
    forall b i j, sum_n H (fun h => data w [b; h; i; j]) = 1%R.
Proof.
  intros Hq Hk Hv HH.
  destruct (scaled_score_4d q k B H Tq Tk d Hq Hk) as (s & Hs & Hsh & _).
  unfold scaled_dot_product. rewrite Hs. cbn [bind].
  destruct s as [shs ds]; simpl in Hsh; subst shs.
  destruct v as [shv dvv]; simpl in Hv; subst shv.
  unfold softmax, matmul, bmm, broadcast_shapes; cbn.
  unfold broadcast_dim. rewrite !Nat.eqb_refl; cbn.
  eexists; eexists; split; [reflexivity|]. split; [reflexivity|]. split; [reflexivity|].
  intros b i j; cbn.
  apply (softmax_row H (fun h => ds [b; h; i; j]) HH).
Qed.

End AttentionBatched.

Module AttentionClaims.
Import Attention Samples.

(** C1: the weight of a position the mask excludes should be below 1e-6.
    [scaled_dot_product] never reads its mask: with one all-zero query and two
    all-zero keys, the second of which the mask excludes, the excluded key
    still receives the weight 1/2. *)
Theorem scaled_dot_product_ignores_mask :
  exists output w,
    scaled_dot_product (zeros [1; 1]) (zeros [2; 1]) (zeros [2; 1]) (Some mask_second_key)
      = Ok (output, w) /\
    data mask_second_key [0; 1] = 0%R /\
    data w [0; 1] = (1 / 2)%R /\
    ~ Rlt (data w [0; 1]) (1 / 1000000)%R.
Proof.
  eexists; eexists; split; [reflexivity|]. split; [reflexivity|].
  assert (E : (exp ((0 + 0 * 0) / sqrt 1) /
               (0 + exp ((0 + 0 * 0) / sqrt 1) + exp ((0 + 0 * 0) / sqrt 1)) = 1 / 2)%R).
  { replace ((0 + 0 * 0) / sqrt 1)%R with 0%R by (rewrite sqrt_1; lra).
    rewrite exp_0. lra. }
  cbn. rewrite E. split; [reflexivity | lra].
Qed.

(** C2: without a mask every row of the weights over the key positions should
    add up to 1, also for the [Batch, Head, SeqLen, Dims] tensors of
    multi-head attention.  The softmax runs along axis 1, the head axis of
    such tensors: for one batch, two heads, one position and all-zero
    [q], [k], [v], the single weight of each row is 1/2. *)
Theorem scaled_dot_product_batched_rows_not_normalised :
  exists output w,
    scaled_dot_product (zeros [1; 2; 1; 1]) (zeros [1; 2; 1; 1]) (zeros [1; 2; 1; 1]) None
      = Ok (output, w) /\
    shape w = [1; 2; 1; 1] /\
    sum_n 1 (fun j => data w [0; 0; 0; j]) = (1 / 2)%R /\
    sum_n 1 (fun j => data w [0; 1; 0; j]) = (1 / 2)%R.
Proof.
  eexists; eexists; split; [reflexivity|]. split; [reflexivity|].
  assert (E : (0 + exp ((0 + 0 * 0) / sqrt 2) /
               (0 + exp ((0 + 0 * 0) / sqrt 2) + exp ((0 + 0 * 0) / sqrt 2)) = 1 / 2)%R).
  { replace ((0 + 0 * 0) / sqrt 2)%R with 0%R by (unfold Rdiv; ring).
    rewrite exp_0. lra. }
  cbn. split; exact E.
Qed.

(** C3: the raw scores should be divided by [sqrt d_k], [d_k] the last
    dimension of [q] and [k].  The divisor is [sqrt (k.shape[1])]: for the
    all-ones tensors of shape [1, 1, 1, 4] (one head of dimension 4) the
    dot product 4 is divided by [sqrt 1], not by [sqrt 4]. *)
Theorem scaled_score_divides_by_sqrt_of_axis_1 :
  exists s,
    scaled_score (ones [1; 1; 1; 4]) (ones [1; 1; 1; 4]) = Ok s /\
    data s [0; 0; 0; 0] = 4%R /\
    Rdiv (sum_n 4 (fun l => Rmult (data (ones [1; 1; 1; 4]) [0; 0; 0; l])
                                  (data (ones [1; 1; 1; 4]) [0; 0; 0; l])))
         (sqrt (INR 4)) = 2%R.
Proof.
  eexists; split; [reflexivity|]. split.
  - cbn. rewrite sqrt_1. lra.
  - cbn. replace (1 + 1 + 1 + 1)%R with (2 * 2)%R by ring.
    rewrite sqrt_square by lra. lra.
Qed.

End AttentionClaims.

(** ** Shapes of the tensor operations *)

Lemma split_last_app (batch : list nat) (n : nat) :
  split_last (batch ++ [n]) = Some (batch, n).
Proof.
  unfold split_last. rewrite rev_app_distr. simpl. now rewrite rev_involutive.
Qed.

Lemma linear_forward_ok (l : Linear) (x : tensor) (batch : list nat) (n : nat) :
  shape x = batch ++ [n] -> n = in_features l ->
  exists y, linear_forward l x = Ok y /\ shape y = batch ++ [out_features l].
Proof.
  intros Hs Hn. unfold linear_forward. rewrite Hs, split_last_app.
  rewrite (proj2 (Nat.eqb_eq _ _) Hn). eexists; split; reflexivity.
Qed.

Lemma linear_forward_err (l : Linear) (x : tensor) (batch : list nat) (n : nat) :
  shape x = batch ++ [n] -> n <> in_features l ->
  linear_forward l x = Err RuntimeError.
Proof.
  intros Hs Hn. unfold linear_forward. rewrite Hs, split_last_app.
  now rewrite (proj2 (Nat.eqb_neq _ _) Hn).
Qed.

Lemma layer_norm_forward_ok (ln : LayerNorm) (x : tensor) (batch : list nat) (n : nat) :
  shape x = batch ++ [n] -> n = normalized_shape ln ->
  exists y, layer_norm_forward ln x = Ok y /\ shape y = batch ++ [n].
Proof.
  intros Hs Hn. unfold layer_norm_forward. rewrite Hs, split_last_app.
  rewrite (proj2 (Nat.eqb_eq _ _) Hn). eexists; split; [reflexivity|]. simpl. congruence.
Qed.

Lemma reshape_ok (t : tensor) (sh : list nat) :
  numel (shape t) = numel sh ->
  exists t', reshape t sh = Ok t' /\ shape t' = sh.
Proof.
  intros H. unfold reshape. rewrite (proj2 (Nat.eqb_eq _ _) H).
  eexists; split; reflexivity.
Qed.

Lemma reshape_err (t : tensor) (sh : list nat) :
  numel (shape t) <> numel sh -> reshape t sh = Err RuntimeError.
Proof.
  intros H. unfold reshape. now rewrite (proj2 (Nat.eqb_neq _ _) H).
Qed.

Lemma permute_0213 (t : tensor) (a b c d : nat) :
  shape t = [a; b; c; d] ->
  exists t', permute t [0; 2; 1; 3] = Ok t' /\ shape t' = [a; c; b; d].
Proof.
  intros H. unfold permute, rank. rewrite H. cbn.
  eexists; split; reflexivity.
Qed.

Lemma chunk3_last_ok (t : tensor) (batch : list nat) (hd : nat) :
  shape t = batch ++ [3 * hd] ->
  exists q k v, chunk3_last t = Ok (q, k, v) /\
    shape q = batch ++ [hd] /\ shape k = batch ++ [hd] /\ shape v = batch ++ [hd].
Proof.
  intros H. unfold chunk3_last. rewrite H, split_last_app.
  assert (Hss : (3 * hd + 2) / 3 = hd).
  { symmetry. apply (Nat.div_unique (3 * hd + 2) 3 hd 2); lia. }
  rewrite Hss.
  assert (Hc : ((hd =? 0) || ((3 * hd + hd - 1) / hd =? 3)) = true).
  { destruct hd as [|h]; [reflexivity|]. apply orb_true_iff; right.
    apply Nat.eqb_eq. symmetry.
    apply (Nat.div_unique (3 * S h + S h - 1) (S h) 3 h); lia. }
  rewrite Hc. do 3 eexists. split; [reflexivity|].
  unfold narrow_last; cbn [shape]. repeat split.
  f_equal. f_equal. lia.
Qed.

Lemma add_same_shape (a b : tensor) :
  shape a = shape b -> exists c, add a b = Ok c /\ shape c = shape a.
Proof.
  intros H. unfold add, zip_with, broadcast_shapes. rewrite <- H.
  assert (E : forall l, broadcast_rev l l = Some l).
  { induction l as [|x l IH]; [reflexivity|]. simpl.
    unfold broadcast_dim. now rewrite Nat.eqb_refl, IH. }
  rewrite E, rev_involutive. eexists; split; reflexivity.
Qed.

(** ** Multi-head attention *)

Module MultiheadAttentionFacts.
Import MultiheadAttention Samples.

Lemma configured_spec (self : t) (input_dim E H : nat) :
  configured self input_dim E H = true ->
  embed_dim self = E /\ num_heads self = H /\ H <> 0 /\ E = H * head_dim self /\
  in_features (qkv_proj self) = input_dim /\ out_features (qkv_proj self) = 3 * E /\
  in_features (o_proj self) = E /\ out_features (o_proj self) = E.
Proof.
  unfold configured. rewrite !andb_true_iff, !negb_true_iff, !Nat.eqb_eq, !Nat.eqb_neq.
  intros (((((((((HE & HH) & H0) & Hmod) & _) & Hhd) & Hqi) & Hqo) & Hoi) & Hoo).
  repeat split; try assumption.
  rewrite Hhd. apply Nat.Div0.div_exact; assumption.
Qed.

Lemma mha_init_configured (input_dim E H : nat) (w_qkv w_o : nat -> nat -> R) (self : t) :
  init input_dim E H w_qkv w_o = Ok self -> configured self input_dim E H = true.
Proof.
  unfold init, reset_parameters, xavier_uniform_, new_linear.
  cbn [qkv_proj o_proj in_features out_features embed_dim num_heads head_dim].
  destruct (Nat.eqb_spec H 0) as [|H0]; [discriminate|].
  destruct (Nat.eqb_spec (E mod H) 0) as [Hm|]; [|discriminate].
  destruct (input_dim + 3 * E =? 0); [discriminate|]. cbn [bind].
  destruct (Nat.eqb_spec (E + E) 0) as [|HE]; [discriminate|]. cbn [bind].
  intros [= <-]. unfold configured, fill_bias_0;
    cbn [embed_dim num_heads head_dim qkv_proj o_proj in_features out_features].
  rewrite !Nat.eqb_refl, Hm.
  rewrite (proj2 (Nat.eqb_neq _ _) H0), (proj2 (Nat.eqb_neq E 0)) by lia. reflexivity.
Qed.

(** The pass up to the point where the heads are glued together again: the
    per-head values come back as [Batch, SeqLen, Head, Dims]. *)
Lemma forward_attention_heads (self : t) (x : tensor) (mask : option tensor)
    (input_dim E H B T : nat) :
  configured self input_dim E H = true -> shape x = [B; T; input_dim] ->
  exists values attention,
    shape values = [B; T; H; head_dim self] /\ shape attention = [B; H; T; T] /\
    forward_attention self x mask =
      (values' <- reshape values [B; T; input_dim] ;;
       o <- linear_forward (o_proj self) values' ;;
       Ok (o, attention)).
Proof.
  intros Hc Hx.
  destruct (configured_spec _ _ _ _ Hc) as (HE & HH & H0 & Hmul & Hqi & Hqo & Hoi & Hoo).
  unfold forward_attention. rewrite Hx.
  destruct (linear_forward_ok (qkv_proj self) x [B; T] input_dim Hx (eq_sym Hqi))
    as (qkv & -> & Hs1). cbn [bind]. rewrite Hqo in Hs1.
  destruct (reshape_ok qkv [B; T; num_heads self; 3 * head_dim self])
    as (qkv2 & -> & Hs2).
  { rewrite Hs1, HH. cbn [numel app]. rewrite Hmul. ring. }
  cbn [bind]. rewrite HH in Hs2.
  destruct (permute_0213 _ _ _ _ _ Hs2) as (qkv3 & -> & Hs3). cbn [bind].
  destruct (chunk3_last_ok qkv3 [B; H; T] (head_dim self) Hs3)
    as (q & k & v & -> & Hq & Hk & Hv). cbn [bind].
  rewrite AttentionFacts.scaled_dot_product_mask_irrelevant.
  destruct (AttentionBatched.scaled_dot_product_4d_weights q k v B H T T
              (head_dim self) (head_dim self) Hq Hk Hv)
    as (values & attention & -> & Hsw & Hso & _); [lia|]. cbn [bind].
  destruct (permute_0213 _ _ _ _ _ Hso) as (values2 & -> & Hs4). cbn [bind].
  exists values2, attention. repeat split; assumption.
Qed.

(** Input width equal to the embedding width: the pass succeeds and keeps the
    shape of its input. *)
Lemma forward_attention_shape (self : t) (x : tensor) (mask : option tensor)
    (E H B T : nat) :
  configured self E E H = true -> shape x = [B; T; E] ->
  exists o attention,
    forward_attention self x mask = Ok (o, attention) /\
    shape o = [B; T; E] /\ shape attention = [B; H; T; T].
Proof.
  intros Hc Hx.
  destruct (forward_attention_heads self x mask _ _ _ _ _ Hc Hx) as (values & attention & Hv & Ha & ->).
  destruct (configured_spec _ _ _ _ Hc) as (HE & HH & H0 & Hmul & Hqi & Hqo & Hoi & Hoo).
  destruct (reshape_ok values [B; T; E]) as (values' & -> & Hs).
  { rewrite Hv. cbn [numel]. rewrite Hmul. ring. }
  cbn [bind].
  destruct (linear_forward_ok (o_proj self) values' [B; T] E Hs (eq_sym Hoi))
    as (o & -> & Hso). cbn [bind].
  exists o, attention. rewrite Hoo in Hso. repeat split; assumption.
Qed.

Lemma mha_forward_shape (self : t) (x : tensor) (mask : option tensor) (E H B T : nat) :
  configured self E E H = true -> shape x = [B; T; E] ->
  exists o, forward self x mask = Ok o /\ shape o = [B; T; E].
Proof.
  intros Hc Hx. unfold forward.
  destruct (forward_attention_shape self x mask _ _ _ _ Hc Hx) as (o & a & -> & Ho & _).
  exists o. split; [reflexivity | assumption].
Qed.

(** The mask is handed to [scaled_dot_product] only. *)
Lemma forward_attention_mask_irrelevant (self : t) (x : tensor) (mask : option tensor) :
  forward_attention self x mask = forward_attention self x None.
Proof. reflexivity. Qed.

Lemma mha_forward_mask_irrelevant (self : t) (x : tensor) (mask : option tensor) :
  forward self x mask = forward self x None.
Proof. reflexivity. Qed.

(** A module built with [input_dim <> embed_dim] cannot be called: the pass
    raises at [values.reshape(batch_size, seq_length, embed_dim)] when the
    input is not empty and at [self.o_proj] otherwise. *)
Lemma forward_attention_raises (self : t) (x : tensor) (mask : option tensor)
    (input_dim E H B T : nat) :
  configured self input_dim E H = true ->
  input_dim <> E ->
  shape x = [B; T; input_dim] ->
  forward_attention self x mask = Err RuntimeError.
Proof.
  intros Hc Hne Hx.
  destruct (forward_attention_heads self x mask _ _ _ _ _ Hc Hx)
    as (values & attention & Hv & Ha & ->).
  destruct (configured_spec _ _ _ _ Hc) as (HE & HH & H0 & Hmul & Hqi & Hqo & Hoi & Hoo).
  destruct (Nat.eq_dec (numel (shape values)) (numel [B; T; input_dim])) as [Heq|Hneq].
  - destruct (reshape_ok values _ Heq) as (values' & -> & Hs). cbn [bind].
    rewrite (linear_forward_err (o_proj self) values' [B; T] input_dim Hs); [reflexivity|].
    congruence.
  - rewrite (reshape_err _ _ Hneq). reflexivity.
Qed.

(** An input the pass accepts has three axes, the last of the width the
    module was built for. *)
Lemma forward_attention_input_shape (self : t) (x o a : tensor) (mask : option tensor)
    (input_dim E H : nat) :
  configured self input_dim E H = true ->
  forward_attention self x mask = Ok (o, a) ->
  exists B T, shape x = [B; T; input_dim].
Proof.
  intros Hc. unfold forward_attention.
  destruct (shape x) as [|B [|T [|D [|? ?]]]] eqn:Hx; try discriminate.
  destruct (Nat.eq_dec D input_dim) as [->|Hne]; [intros _; now exists B, T|].
  destruct (configured_spec _ _ _ _ Hc) as (_ & _ & _ & _ & Hqi & _).
  rewrite (linear_forward_err (qkv_proj self) x [B; T] D Hx) by congruence.
  discriminate.
Qed.

End MultiheadAttentionFacts.

Module MultiheadAttentionClaims.
Import MultiheadAttention.

(** C4: with [embed_dim % num_heads == 0] every input of shape
    [B, T, input_dim] should come back with shape [B, T, embed_dim].  The pass
    reshapes the head outputs to the width of [x] instead of
    [self.embed_dim]: a module built with [input_dim = 3], [embed_dim = 2],
    [num_heads = 1] raises on an input of shape [1, 1, 3]. *)
Theorem forward_fails_on_wider_input :
  exists self,
    init 3 2 1 Samples.zero_weights Samples.zero_weights
      = Ok self /\
    2 mod 1 = 0 /\
    forward self (zeros [1; 1; 3]) None = Err RuntimeError.
Proof.
  eexists. split; [reflexivity|]. split; reflexivity.
Qed.

(** The weights multi-head attention hands back are normalised across the
    heads: for two heads of width 1 and an all-zero input of one position,
    whatever the projection weights, the single-key row of each head holds
    1/2.  (The scores of head [h] pair row [3h] of the projection with row
    [3h+1]; they are divided by [sqrt 2], the square root of the head count.) *)
Lemma forward_attention_rows_not_normalised (w_qkv w_o : nat -> nat -> R) :
  exists self o w,
    init 2 2 2 w_qkv w_o = Ok self /\
    forward_attention self (zeros [1; 1; 2]) None = Ok (o, w) /\
    shape w = [1; 2; 1; 1] /\
    sum_n 1 (fun j => data w [0; 0; 0; j]) = (1 / 2)%R /\
    sum_n 1 (fun j => data w [0; 1; 0; j]) = (1 / 2)%R.
Proof.
  eexists; eexists; eexists. split; [reflexivity|]. split; [reflexivity|].
  split; [reflexivity|]. cbn.
  repeat match goal with
         | |- context [exp ?e] =>
             lazymatch e with
             | 0%R => fail
             | _ => replace e with 0%R by (unfold Rdiv; ring)
             end
         end.
  rewrite exp_0. split; lra.
Qed.

(** C6, as the code has it: construction raises whenever [embed_dim] is not
    exactly divisible by [num_heads] (a zero head count divides nothing: [%]
    raises [ZeroDivisionError]; otherwise the assertion fails), and for every
    dividing pair with [embed_dim >= 1] it returns a module with the requested
    configuration. *)
Theorem init_checks_divisibility (input_dim E H : nat) (w_qkv w_o : nat -> nat -> R) :
  (H <> 0 /\ E mod H = 0 -> 1 <= E ->
     exists self, init input_dim E H w_qkv w_o = Ok self /\
                  configured self input_dim E H = true /\
                  head_dim self * H = E) /\
  (~ (H <> 0 /\ E mod H = 0) ->
     init input_dim E H w_qkv w_o
       = Err (if H =? 0 then ZeroDivisionError else AssertionError)).
Proof.
  split.
  - intros [H0 Hm] HE.
    assert (Hinit : exists self, init input_dim E H w_qkv w_o = Ok self /\
                                 head_dim self = E / H).
    { unfold init, reset_parameters, xavier_uniform_, new_linear.
      cbn [qkv_proj o_proj in_features out_features embed_dim num_heads head_dim].
      rewrite (proj2 (Nat.eqb_neq _ _) H0), (proj2 (Nat.eqb_eq _ _) Hm).
      rewrite (proj2 (Nat.eqb_neq (input_dim + 3 * E) 0)) by lia. cbn [bind].
      rewrite (proj2 (Nat.eqb_neq (E + E) 0)) by lia. cbn [bind].
      eexists. split; reflexivity. }
    destruct Hinit as (self & Hinit & Hhd). exists self. split; [exact Hinit|]. split.
    + exact (MultiheadAttentionFacts.mha_init_configured input_dim E H w_qkv w_o self Hinit).
    + rewrite Hhd. pose proof (proj2 (Nat.Div0.div_exact E H) Hm). lia.
  - intros Hn. unfold init. destruct (Nat.eqb_spec H 0) as [|H0]; [reflexivity|].
    destruct (Nat.eqb_spec (E mod H) 0) as [Hm|]; [|reflexivity].
    exfalso. apply Hn. split; assumption.
Qed.

Lemma init_checks_divisibility_witness :
  (exists self, init 4 6 3 Samples.zero_weights Samples.zero_weights = Ok self /\
                configured self 4 6 3 = true /\ head_dim self * 3 = 6) /\
  init 4 6 4 Samples.zero_weights Samples.zero_weights = Err AssertionError /\
  init 4 6 0 Samples.zero_weights Samples.zero_weights = Err ZeroDivisionError.
Proof.
  split; [|split].
  - apply (proj1 (init_checks_divisibility 4 6 3 _ _)); [split; [lia | reflexivity] | lia].
  - apply (proj2 (init_checks_divisibility 4 6 4 Samples.zero_weights Samples.zero_weights)).
    intros [_ Hm]. discriminate Hm.
  - apply (proj2 (init_checks_divisibility 4 6 0 Samples.zero_weights Samples.zero_weights)).
    intros [H0 _]. apply H0. reflexivity.
Defined.

(** C6 as stated fails for a zero embedding width: 1 divides 0 and the
    assertion passes, but the Xavier initialisation of the 0 x 0 output
    projection divides by [fan_in + fan_out = 0]. *)
Lemma init_zero_embed_dim_raises :
  1 <> 0 /\ 0 mod 1 = 0 /\
  init 4 0 1 Samples.zero_weights Samples.zero_weights = Err ZeroDivisionError.
Proof. repeat split. discriminate. Qed.

(** C5: the pass succeeds only on inputs whose last dimension is the
    configured [embed_dim].  A module built with [input_dim <> embed_dim]
    raises a shape error on every input of shape [B, T, input_dim], with or
    without [return_attention]; and whenever a call returns, the input had
    shape [B, T, embed_dim] and the module was built with
    [input_dim = embed_dim]. *)
Theorem forward_needs_embed_width (self : t) (x : tensor) (mask : option tensor)
    (input_dim E H : nat) :
  configured self input_dim E H = true ->
  (forall B T, input_dim <> E -> shape x = [B; T; input_dim] ->
     forward self x mask = Err RuntimeError /\
     forward_attention self x mask = Err RuntimeError) /\
  (forall o, forward self x mask = Ok o ->
     input_dim = E /\ exists B T, shape x = [B; T; E]).
Proof.
  intros Hc. split.
  - intros B T Hne Hx.
    pose proof (MultiheadAttentionFacts.forward_attention_raises
                  self x mask input_dim E H B T Hc Hne Hx) as Hfa.
    split; [|exact Hfa]. unfold forward. rewrite Hfa. reflexivity.
  - intros o Ho. unfold forward in Ho.
    destruct (forward_attention self x mask) as [[o' a]|e] eqn:Hfa; [|discriminate].
    destruct (MultiheadAttentionFacts.forward_attention_input_shape
                self x o' a mask input_dim E H Hc Hfa) as (B & T & Hx).
    destruct (Nat.eq_dec input_dim E) as [->|Hne].
    + split; [reflexivity|]. now exists B, T.
    + rewrite (MultiheadAttentionFacts.forward_attention_raises
                 self x mask input_dim E H B T Hc Hne Hx) in Hfa.
      discriminate.
Qed.

Lemma forward_needs_embed_width_witness :
  init 1 2 1 Samples.zero_weights Samples.zero_weights = Ok Samples.attention_1_2 /\
  forward Samples.attention_1_2 (zeros [1; 1; 1]) None = Err RuntimeError /\
  init 2 2 1 Samples.zero_weights Samples.zero_weights = Ok Samples.attention_2_2 /\
  exists o, forward Samples.attention_2_2 (zeros [4; 3; 2]) None = Ok o /\
            exists B T, shape (zeros [4; 3; 2]) = [B; T; 2].
Proof.
  split; [reflexivity|]. split; [|split; [reflexivity|]].
  - apply (proj1 (forward_needs_embed_width Samples.attention_1_2 (zeros [1; 1; 1]) None
                    1 2 1 eq_refl) 1 1).
    + lia.
    + reflexivity.
  - assert (Hrun : is_ok (forward Samples.attention_2_2 (zeros [4; 3; 2]) None) = true)
      by (vm_compute; reflexivity).
    destruct (forward Samples.attention_2_2 (zeros [4; 3; 2]) None) as [o|e] eqn:Ho;
      [|discriminate Hrun].
    exists o. split; [reflexivity|].
    apply (proj2 (forward_needs_embed_width Samples.attention_2_2 (zeros [4; 3; 2]) None
                    2 2 1 eq_refl) o Ho).
Defined.

End MultiheadAttentionClaims.

(** ** Encoder block *)

Module EncoderBlockFacts.
Import EncoderBlock.

Lemma Rmax_0_scale (x c : R) : (0 <= c)%R -> Rmax 0 (x * c) = (Rmax 0 x * c)%R.
Proof.
  intros Hc. unfold Rmax.
  destruct (Rle_dec 0 (x * c)) as [H1|H1], (Rle_dec 0 x) as [H2|H2].
  - reflexivity.
  - assert (x * c <= 0)%R by nra. nra.
  - exfalso. apply H1. nra.
  - ring.
Qed.

(** Dropout scales by a non-negative factor, so it commutes with ReLU. *)
Lemma relu_drop (p : R) (keep : list nat -> bool) (x : tensor) :
  (p <= 1)%R -> relu (drop p keep x) = drop p keep (relu x).
Proof.
  intros Hp. unfold relu, drop, map_tensor; cbn [shape data]. f_equal.
  apply functional_extensionality; intros idx.
  destruct (Req_dec_T p 1) as [|Hne].
  - apply Rmax_left. lra.
  - destruct (keep idx).
    + unfold Rdiv. apply Rmax_0_scale. left. apply Rinv_0_lt_compat. lra.
    + apply Rmax_left. lra.
Qed.

Lemma dropout_ok (md : mode) (p : R) (x : tensor) (n : nat) :
  exists y n', dropout md p x n = Ok (y, n') /\ shape y = shape x.
Proof.
  unfold dropout. destruct md; eexists; eexists; split; reflexivity.
Qed.

Lemma bindM_ok {A B : Type} (m : M A) (f : A -> M B) (n n' : nat) (a : A) :
  m n = Ok (a, n') -> bindM m f n = f a n'.
Proof. intros H. unfold bindM. now rewrite H. Qed.

Lemma lift_ok {A : Type} (r : result A) (a : A) (n : nat) :
  r = Ok a -> lift r n = Ok (a, n).
Proof. intros ->. reflexivity. Qed.

Lemma linear_net_shape (md : mode) (l1 l2 : Linear) (p : R) (x : tensor)
    (batch : list nat) (n : nat) :
  shape x = batch ++ [in_features l1] -> out_features l1 = in_features l2 ->
  exists y n', sequential_forward md [LinearL l1; DropoutL p; ReLUL; LinearL l2] x n
                 = Ok (y, n') /\
               shape y = batch ++ [out_features l2].
Proof.
  intros Hx H12. cbn [sequential_forward layer_forward].
  destruct (linear_forward_ok l1 x batch _ Hx eq_refl) as (h & Hh & Hsh).
  rewrite (bindM_ok _ _ n n h (lift_ok _ _ _ Hh)).
  destruct (dropout_ok md p h n) as (h1 & n1 & Hd & Hsd).
  rewrite (bindM_ok _ _ n n1 h1 Hd).
  rewrite (bindM_ok _ _ n1 n1 (relu h1) eq_refl).
  destruct (linear_forward_ok l2 (relu h1) batch (out_features l1)) as (y & Hy & Hsy).
  { cbn [relu map_tensor shape]. congruence. }
  { assumption. }
  rewrite (bindM_ok _ _ n1 n1 y (lift_ok _ _ _ Hy)).
  exists y, n1. split; [reflexivity | assumption].
Qed.

(** Shape preservation of a configured block. *)
Lemma block_forward_shape (md : mode) (self : t) (x : tensor) (mask : option tensor)
    (D H ff B T n : nat) :
  configured self D H ff = true -> shape x = [B; T; D] ->
  exists y n', forward md self x mask n = Ok (y, n') /\ shape y = [B; T; D].
Proof.
  unfold configured. rewrite !andb_true_iff. intros (((Ha & Hnet) & Hn1) & Hn2) Hx.
  apply Nat.eqb_eq in Hn1, Hn2.
  destruct (linear_net self) as [|[l1| | |] [|[|pf| |] [|[| | |] [|[l2| | |] [|]]]]] eqn:Enet;
    try discriminate Hnet.
  rewrite !andb_true_iff, !Nat.eqb_eq in Hnet.
  destruct Hnet as (((Hi1 & Ho1) & Hi2) & Ho2).
  unfold forward. rewrite Enet.
  destruct (MultiheadAttentionFacts.mha_forward_shape _ x mask D H B T Ha Hx) as (a & Hfa & Hsa).
  rewrite (bindM_ok _ _ n n a (lift_ok _ _ _ Hfa)).
  destruct (dropout_ok md (dropout_p self) a n) as (d & n1 & Hd & Hsd).
  rewrite (bindM_ok _ _ n n1 d Hd).
  destruct (add_same_shape x d) as (s & Hs & Hss); [congruence|].
  rewrite (bindM_ok _ _ n1 n1 s (lift_ok _ _ _ Hs)).
  destruct (layer_norm_forward_ok (norm1 self) s [B; T] D) as (x1 & Hx1 & Hsx1);
    [simpl; congruence | congruence |].
  rewrite (bindM_ok _ _ n1 n1 x1 (lift_ok _ _ _ Hx1)).
  destruct (linear_net_shape md l1 l2 pf x1 [B; T] n1) as (lo & n2 & Hlo & Hslo);
    [rewrite Hi1; exact Hsx1 | congruence |].
  rewrite (bindM_ok _ _ n1 n2 lo Hlo).
  destruct (dropout_ok md (dropout_p self) lo n2) as (d2 & n3 & Hd2 & Hsd2).
  rewrite (bindM_ok _ _ n2 n3 d2 Hd2).
  destruct (add_same_shape x1 d2) as (s2 & Hs2 & Hss2);
    [rewrite Hsx1, Hsd2, Hslo, Ho2; reflexivity|].
  rewrite (bindM_ok _ _ n3 n3 s2 (lift_ok _ _ _ Hs2)).
  destruct (layer_norm_forward_ok (norm2 self) s2 [B; T] D) as (y & Hy & Hsy);
    [rewrite Hss2; exact Hsx1 | congruence |].
  rewrite (bindM_ok _ _ n3 n3 y (lift_ok _ _ _ Hy)).
  exists y, n3. split; [reflexivity | assumption].
Qed.

(** The mask only travels to the attention. *)
Lemma block_forward_mask_irrelevant (md : mode) (self : t) (x : tensor) (mask : option tensor) :
  forward md self x mask = forward md self x None.
Proof. reflexivity. Qed.

(** What [init] builds is configured, its feed-forward net lists Dropout
    before ReLU, and its dropout rate passed the check of [nn.Dropout]. *)
Lemma block_init_configured (D H ff : nat) (p : R) (ps : params) (self : t) :
  init D H ff p ps = Ok self ->
  configured self D H ff = true /\
  (0 <= p <= 1)%R /\
  dropout_p self = p /\
  exists l1 l2, linear_net self = [LinearL l1; DropoutL p; ReLUL; LinearL l2].
Proof.
  unfold init.
  destruct (MultiheadAttention.init D D H (w_qkv ps) (w_o ps)) as [attn|e] eqn:Ea;
    [|discriminate].
  cbn [bind]. unfold check_dropout.
  destruct (Rle_dec 0 p) as [H0|]; [|discriminate].
  destruct (Rle_dec p 1) as [H1|]; [|discriminate].
  cbn [bind]. intros [= <-].
  split; [|split; [lra | split; [reflexivity | eexists; eexists; reflexivity]]].
  unfold configured; cbn [self_attn linear_net norm1 norm2 new_layer_norm
    in_features out_features normalized_shape].
  rewrite (MultiheadAttentionFacts.mha_init_configured _ _ _ _ _ _ Ea), !Nat.eqb_refl.
  reflexivity.
Qed.

End EncoderBlockFacts.

Module EncoderBlockClaims.
Import EncoderBlock EncoderBlockFacts Samples.

Ltac split_results :=
  repeat (rewrite ?relu_drop by lra;
          match goal with
          | |- context [match ?r with Ok _ => _ | Err _ => _ end] =>
              lazymatch r with
              | match _ with Ok _ => _ | Err _ => _ end => fail
              | _ => destruct r as [[? ?]|?] || destruct r as [?|?]; cbv beta iota
              end
          end);
  try reflexivity.

(** C8: the pass of a block is the two residual, post-norm steps of the
    specification, with the feed-forward part [Linear2(Dropout(ReLU(Linear1(x))))]
    (the source lists Dropout before ReLU; for a rate [nn.Dropout] accepts the
    two orders agree, in training on the same draw), and an input of shape
    [B, T, D] comes back with shape [B, T, D]. *)
Theorem forward_is_post_norm_and_keeps_shape
    (md : mode) (self : t) (x : tensor) (mask : option tensor)
    (l1 l2 : Linear) (pf : R) (D H ff B T n : nat) :
  configured self D H ff = true ->
  linear_net self = [LinearL l1; DropoutL pf; ReLUL; LinearL l2] ->
  (0 <= pf <= 1)%R ->
  shape x = [B; T; D] ->
  forward md self x mask n =
    post_norm_steps md (self_attn self) l1 l2 pf (dropout_p self)
      (norm1 self) (norm2 self) x mask n /\
  exists y n', forward md self x mask n = Ok (y, n') /\ shape y = [B; T; D].
Proof.
  intros Hc Enet Hp Hx. split.
  - unfold forward, post_norm_steps. rewrite Enet.
    cbn [sequential_forward layer_forward].
    destruct md as [|draw]; unfold bindM, lift, ret, dropout; split_results.
  - apply (block_forward_shape md self x mask D H ff B T n Hc Hx).
Qed.

Lemma forward_is_post_norm_and_keeps_shape_witness :
  forward (Train (fun _ _ => true)) sample_block (zeros [1; 3; 2]) None 0 =
    post_norm_steps (Train (fun _ _ => true)) (self_attn sample_block)
      sample_linear1 sample_linear2 (1 / 2) (dropout_p sample_block)
      (norm1 sample_block) (norm2 sample_block) (zeros [1; 3; 2]) None 0 /\
  exists y n', forward (Train (fun _ _ => true)) sample_block (zeros [1; 3; 2]) None 0
                 = Ok (y, n') /\ shape y = [1; 3; 2].
Proof.
  apply (forward_is_post_norm_and_keeps_shape (Train (fun _ _ => true)) sample_block
           (zeros [1; 3; 2]) None sample_linear1 sample_linear2 (1 / 2) 2 1 4 1 3 0).
  - reflexivity.
  - reflexivity.
  - lra.
  - reflexivity.
Defined.

End EncoderBlockClaims.

(** ** Encoder stack *)

Module TransformerEncoderFacts.
Import TransformerEncoder.

Lemma bindM_inv {A B : Type} (m : M A) (f : A -> M B) (n n' : nat) (b : B) :
  bindM m f n = Ok (b, n') ->
  exists a n1, m n = Ok (a, n1) /\ f a n1 = Ok (b, n').
Proof.
  unfold bindM. destruct (m n) as [[a n1]|e]; [|discriminate].
  intros H. exists a, n1. split; [reflexivity | exact H].
Qed.

(** The blocks run in order, each on the output of the one before. *)
Lemma forward_layers_app (md : mode) (ls1 ls2 : list EncoderBlock.t) (x : tensor)
    (mask : option tensor) (n : nat) :
  forward_layers md (ls1 ++ ls2) x mask n =
  bindM (forward_layers md ls1 x mask) (fun y => forward_layers md ls2 y mask) n.
Proof.
  revert x n. induction ls1 as [|l ls1 IH]; intros x n.
  - reflexivity.
  - cbn [app forward_layers]. unfold bindM.
    destruct (EncoderBlock.forward md l x mask n) as [[x1 n1]|e]; [|reflexivity].
    apply IH.
Qed.

(** A block that succeeds has computed its attention weights. *)
Lemma block_forward_attention (md : mode) (layer : EncoderBlock.t) (x y : tensor)
    (mask : option tensor) (n n' : nat) :
  EncoderBlock.forward md layer x mask n = Ok (y, n') ->
  exists o w,
    MultiheadAttention.forward_attention (EncoderBlock.self_attn layer) x mask = Ok (o, w).
Proof.
  unfold EncoderBlock.forward. intros H.
  apply bindM_inv in H. destruct H as (a & n1 & Ha & _).
  unfold lift, MultiheadAttention.forward in Ha.
  destruct (MultiheadAttention.forward_attention (EncoderBlock.self_attn layer) x mask)
    as [[o w]|e]; [|discriminate].
  exists o, w. reflexivity.
Qed.

(** The loop of [get_attention_maps], started with the maps collected so far. *)
Lemma attention_maps_loop_spec (md : mode) (mask : option tensor)
    (ls : list EncoderBlock.t) :
  forall (x y : tensor) (n n' : nat) (acc : list tensor),
    forward_layers md ls x mask n = Ok (y, n') ->
    exists maps,
      attention_maps_loop md ls x mask acc n = Ok (acc ++ maps, n') /\
      length maps = length ls /\
      forall i layer, nth_error ls i = Some layer ->
        exists xi ni o w,
          forward_layers md (firstn i ls) x mask n = Ok (xi, ni) /\
          MultiheadAttention.forward_attention (EncoderBlock.self_attn layer) xi mask
            = Ok (o, w) /\
          nth_error maps i = Some w.
Proof.
  induction ls as [|l ls IH]; intros x y n n' acc Hf.
  - cbn in Hf. injection Hf as <- <-. exists []. cbn. rewrite app_nil_r.
    split; [reflexivity|]. split; [reflexivity|].
    intros [|i] layer Hl; discriminate Hl.
  - cbn [forward_layers] in Hf. apply bindM_inv in Hf.
    destruct Hf as (x1 & n1 & Hl & Hrest).
    destruct (block_forward_attention md l x x1 mask n n1 Hl) as (o & w & Hw).
    destruct (IH x1 y n1 n' (acc ++ [w]) Hrest) as (maps & Hloop & Hlen & Hidx).
    exists (w :: maps). split; [|split].
    + cbn [attention_maps_loop]. unfold bindM at 1. unfold lift. rewrite Hw.
      unfold bindM at 1.
      rewrite <- (EncoderBlockFacts.block_forward_mask_irrelevant md l x mask), Hl.
      cbn [snd]. rewrite Hloop, <- app_assoc. reflexivity.
    + cbn. now rewrite Hlen.
    + intros [|i] layer Hnth.
      * injection Hnth as <-. exists x, n, o, w. repeat split; assumption.
      * destruct (Hidx i layer Hnth) as (xi & ni & oi & wi & Hfi & Hai & Hmi).
        exists xi, ni, oi, wi. split; [|split; assumption].
        cbn [firstn forward_layers]. unfold bindM. rewrite Hl. exact Hfi.
Qed.

(** Conversely the diagnostic pass only returns when [forward] does. *)
Lemma attention_maps_loop_forward (md : mode) (mask : option tensor)
    (ls : list EncoderBlock.t) :
  forall (x : tensor) (n n' : nat) (acc maps : list tensor),
    attention_maps_loop md ls x mask acc n = Ok (maps, n') ->
    exists y, forward_layers md ls x mask n = Ok (y, n').
Proof.
  induction ls as [|l ls IH]; intros x n n' acc maps Hloop.
  - cbn in Hloop. injection Hloop as _ <-. exists x. reflexivity.
  - cbn [attention_maps_loop] in Hloop.
    apply bindM_inv in Hloop. destruct Hloop as (r & n0 & Hr & Hloop).
    assert (n0 = n) as ->.
    { unfold lift in Hr.
      destruct (MultiheadAttention.forward_attention _ x mask); [|discriminate].
      now injection Hr. }
    apply bindM_inv in Hloop. destruct Hloop as (x1 & n1 & Hl & Hrest).
    destruct (IH x1 n1 n' _ maps Hrest) as (y & Hy).
    exists y. cbn [forward_layers]. unfold bindM.
    rewrite (EncoderBlockFacts.block_forward_mask_irrelevant md l x mask), Hl.
    exact Hy.
Qed.

End TransformerEncoderFacts.

Module TransformerEncoderClaims.
Import TransformerEncoder TransformerEncoderFacts Samples.

(** C7: [forward] runs the blocks in order, each on the output of the block
    before it, and whenever it succeeds [get_attention_maps] returns one
    attention-weight tensor per block: the weights the block's self-attention
    computes on the intermediate value [forward] reaches in front of that
    block.  The diagnostic pass ends at the same position of the dropout
    stream, so in inference mode (and in training mode on the same draws) it
    advances through the same intermediate values. *)
Theorem get_attention_maps_follows_forward (md : mode) (self : t) (x y : tensor)
    (mask : option tensor) (n n' : nat) :
  forward md self x mask n = Ok (y, n') ->
  (forall ls1 ls2, layers self = ls1 ++ ls2 ->
     exists xm nm, forward_layers md ls1 x mask n = Ok (xm, nm) /\
                   forward_layers md ls2 xm mask nm = Ok (y, n')) /\
  exists maps,
    get_attention_maps md self x mask n = Ok (maps, n') /\
    length maps = length (layers self) /\
    forall i layer, nth_error (layers self) i = Some layer ->
      exists xi ni o w,
        forward_layers md (firstn i (layers self)) x mask n = Ok (xi, ni) /\
        MultiheadAttention.forward_attention (EncoderBlock.self_attn layer) xi mask
          = Ok (o, w) /\
        nth_error maps i = Some w.
Proof.
  unfold forward, get_attention_maps. intros Hf. split.
  - intros ls1 ls2 Hls. rewrite Hls, forward_layers_app in Hf.
    apply bindM_inv in Hf. destruct Hf as (xm & nm & H1 & H2).
    exists xm, nm. split; assumption.
  - destruct (attention_maps_loop_spec md mask (layers self) x y n n' [] Hf)
      as (maps & Hloop & Hlen & Hidx).
    exists maps. repeat split; assumption.
Qed.

Lemma get_attention_maps_follows_forward_witness :
  exists y maps,
    forward Eval sample_encoder (zeros [1; 3; 2]) (Some (zeros [3; 3])) 0 = Ok (y, 0) /\
    get_attention_maps Eval sample_encoder (zeros [1; 3; 2]) (Some (zeros [3; 3])) 0
      = Ok (maps, 0) /\
    length maps = 2.
Proof.
  assert (Hrun : match forward Eval sample_encoder (zeros [1; 3; 2]) (Some (zeros [3; 3])) 0
                 with Ok (_, n) => n =? 0 | Err _ => false end = true).
  { vm_compute. reflexivity. }
  destruct (forward Eval sample_encoder (zeros [1; 3; 2]) (Some (zeros [3; 3])) 0)
    as [[y n]|e] eqn:E; [|discriminate Hrun].
  apply Nat.eqb_eq in Hrun. subst n.
  destruct (get_attention_maps_follows_forward Eval sample_encoder (zeros [1; 3; 2]) y
              (Some (zeros [3; 3])) 0 0 E) as [_ (maps & Hm & Hlen & _)].
  exists y, maps. split; [reflexivity|]. split; [exact Hm | exact Hlen].
Defined.

End TransformerEncoderClaims.

(** ** Positional encoding *)

Module PositionalEncodingFacts.
Import PositionalEncoding.

Lemma range_len_step1 (n : nat) : range_len 0 n 1 = n.
Proof. unfold range_len. rewrite Nat.div_1_r. lia. Qed.

Lemma range_len_even_columns (d : nat) : range_len 0 d 2 = (d + 1) / 2.
Proof. unfold range_len. f_equal. lia. Qed.

Lemma range_len_odd_columns (d : nat) : d <> 0 -> range_len 1 d 2 = d / 2.
Proof. intros H. unfold range_len. f_equal. lia. Qed.

(** [position]: the column of the row numbers. *)
Lemma position_ok (L : nat) :
  exists p, unsqueeze (arange 0 L 1) 1 = Ok p /\ shape p = [L; 1] /\
            forall r z, data p [r; z] = INR r.
Proof.
  unfold unsqueeze, rank, arange; cbn [shape data length Nat.leb insert_at].
  eexists; split; [reflexivity|]. cbn [shape data remove_at]. split.
  - now rewrite range_len_step1.
  - intros r z. f_equal. lia.
Qed.

(** A column times a row: the outer product. *)
Lemma mul_col_row (a b : tensor) (L c : nat) :
  shape a = [L; 1] -> shape b = [c] ->
  exists m, mul a b = Ok m /\ shape m = [L; c] /\
    forall r j, data m [r; j] =
      Rmult (data a [if L =? 1 then 0 else r; 0]) (data b [if c =? 1 then 0 else j]).
Proof.
  intros Ha Hb. unfold mul, zip_with, broadcast_shapes. rewrite Ha, Hb.
  cbn [rev app broadcast_rev]. unfold broadcast_dim.
  assert (E : (if 1 =? c then Some 1 else if 1 =? 1 then Some c
               else if c =? 1 then Some 1 else None) = Some c).
  { destruct (Nat.eqb_spec 1 c) as [<-|]; reflexivity. }
  rewrite E. cbn [rev app]. eexists; split; [reflexivity|]. split; [reflexivity|].
  intros r j. cbn. reflexivity.
Qed.

Lemma broadcast_shapes_rows (L k m : nat) :
  broadcast_shapes [L; k] [L; m] =
  match broadcast_dim k m with Some c => Some [L; c] | None => None end.
Proof.
  unfold broadcast_shapes. cbn [rev app broadcast_rev].
  destruct (broadcast_dim k m); [|reflexivity].
  unfold broadcast_dim. now rewrite Nat.eqb_refl.
Qed.

(** Assigning a block of [k] columns to the columns [start::step]: accepted
    when [k] is the number of selected columns, or 1. *)
Lemma setitem_cols_ok (t value : tensor) (start step L d k : nat) :
  shape t = [L; d] -> shape value = [L; k] ->
  k = range_len start d step \/ k = 1 ->
  exists t', setitem_cols t start step value = Ok t' /\ shape t' = [L; d] /\
    forall r c, data t' [r; c] =
      if (start <=? c) && ((c - start) mod step =? 0)
      then data value [if L =? 1 then 0 else r; if k =? 1 then 0 else (c - start) / step]
      else data t [r; c].
Proof.
  intros Ht Hv Hk. unfold setitem_cols. rewrite Ht, Hv, broadcast_shapes_rows.
  assert (E : broadcast_dim k (range_len start d step) = Some (range_len start d step)).
  { unfold broadcast_dim. destruct Hk as [<- | ->].
    - now rewrite Nat.eqb_refl.
    - destruct (Nat.eqb_spec 1 (range_len start d step)) as [<-|]; reflexivity. }
  rewrite E.
  destruct (list_eq_dec Nat.eq_dec [L; range_len start d step] [L; range_len start d step])
    as [_|Hne]; [|contradiction].
  eexists; split; [reflexivity|]. split; [reflexivity|].
  intros r c. cbn [data bidx clamp1 length Nat.sub skipn]. reflexivity.
Qed.

Lemma setitem_cols_err (t value : tensor) (start step L d k : nat) :
  shape t = [L; d] -> shape value = [L; k] ->
  k <> range_len start d step -> k <> 1 ->
  setitem_cols t start step value = Err RuntimeError.
Proof.
  intros Ht Hv Hk H1. unfold setitem_cols. rewrite Ht, Hv, broadcast_shapes_rows.
  unfold broadcast_dim.
  rewrite (proj2 (Nat.eqb_neq _ _) Hk), (proj2 (Nat.eqb_neq _ _) H1).
  destruct (Nat.eqb_spec (range_len start d step) 1) as [E1|]; [|reflexivity].
  destruct (list_eq_dec Nat.eq_dec [L; k] [L; range_len start d step]) as [E|]; [|reflexivity].
  injection E as E. contradiction.
Qed.

(** The table of an even, non-zero width: column [c] holds the sine (even [c])
    or the cosine (odd [c]) of the angle of the pair [c / 2]. *)
Lemma init_even (d L : nat) :
  d <> 0 -> Nat.even d = true ->
  exists self, init d L = Ok self /\ shape (pe self) = [1; L; d] /\
    forall pos c, pos < L -> c < d ->
      data (pe self) [0; pos; c] =
      if Nat.even c then sin (angle d pos (c / 2)) else cos (angle d pos (c / 2)).
Proof.
  intros Hd Hev. unfold init.
  destruct (position_ok L) as (p & -> & Hps & Hpd). cbn [bind].
  rewrite (proj2 (Nat.eqb_neq _ _) Hd).
  set (div_term := map_tensor exp (mul_scalar (arange 0 d 2) (- ln 10000 / INR d))).
  assert (Hhalf : range_len 0 d 2 = d / 2).
  { rewrite range_len_even_columns.
    apply Nat.even_spec in Hev. destruct Hev as [h ->].
    rewrite (Nat.mul_comm 2 h), Nat.div_mul by lia.
    symmetry. apply (Nat.div_unique (h * 2 + 1) 2 h 1); lia. }
  destruct (mul_col_row p div_term L (d / 2) Hps) as (m & -> & Hms & Hmd).
  { unfold div_term. cbn [map_tensor mul_scalar arange shape]. now rewrite Hhalf. }
  cbn [bind].
  destruct (setitem_cols_ok (zeros [L; d]) (map_tensor sin m) 0 2 L d (d / 2))
    as (pe1 & -> & Hs1 & Hd1); [reflexivity | exact Hms | left; now rewrite Hhalf |].
  cbn [bind].
  destruct (setitem_cols_ok pe1 (map_tensor cos m) 1 2 L d (d / 2))
    as (pe2 & -> & Hs2 & Hd2);
    [exact Hs1 | exact Hms | left; now rewrite range_len_odd_columns |].
  cbn [bind]. unfold unsqueeze, rank. rewrite Hs2. cbn [length Nat.leb bind].
  eexists; split; [reflexivity|]. cbn [pe shape data insert_at remove_at].
  split; [reflexivity|].
  intros pos c Hpos Hc.
  assert (Hentry : forall j, j < d / 2 ->
            data m [if L =? 1 then 0 else pos; if d / 2 =? 1 then 0 else j] = angle d pos j).
  { intros j Hj.
    rewrite Hmd, !(AttentionBatched.clamp_index L pos Hpos),
      !(AttentionBatched.clamp_index (d / 2) j Hj).
    rewrite Hpd. unfold div_term, angle.
    cbn [map_tensor mul_scalar arange data]. do 3 f_equal. f_equal. lia. }
  assert (Hpair : c / 2 < d / 2).
  { apply Nat.even_spec in Hev. destruct Hev as [h ->].
    rewrite (Nat.mul_comm 2 h), Nat.div_mul by lia.
    apply Nat.Div0.div_lt_upper_bound. lia. }
  rewrite Hd2, Hd1. cbn [map_tensor data zeros].
  rewrite Nat.sub_0_r. change (0 <=? c) with true. cbn [andb].
  destruct (Nat.even c) eqn:Ec.
  - apply Nat.even_spec in Ec. destruct Ec as [h ->].
    assert (E1 : ((1 <=? 2 * h) && ((2 * h - 1) mod 2 =? 0)) = false).
    { apply andb_false_iff. destruct h as [|h]; [left; reflexivity|]. right.
      apply Nat.eqb_neq. replace (2 * S h - 1) with (1 + h * 2) by lia.
      rewrite Nat.Div0.mod_add. discriminate. }
    rewrite E1.
    assert (E2 : ((2 * h) mod 2 =? 0) = true).
    { apply Nat.eqb_eq. rewrite Nat.mul_comm. apply Nat.Div0.mod_mul. }
    rewrite E2. f_equal. apply Hentry. exact Hpair.
  - assert (Hodd : Nat.odd c = true) by (rewrite <- Nat.negb_even, Ec; reflexivity).
    apply Nat.odd_spec in Hodd. destruct Hodd as [h ->].
    assert (E1 : ((1 <=? 2 * h + 1) && ((2 * h + 1 - 1) mod 2 =? 0)) = true).
    { apply andb_true_iff. split; [apply Nat.leb_le; lia|].
      apply Nat.eqb_eq. replace (2 * h + 1 - 1) with (h * 2) by lia.
      apply Nat.Div0.mod_mul. }
    rewrite E1. f_equal.
    replace ((2 * h + 1 - 1) / 2) with ((2 * h + 1) / 2).
    + apply Hentry. exact Hpair.
    + replace (2 * h + 1 - 1) with (h * 2) by lia. rewrite Nat.div_mul by lia.
      symmetry. apply (Nat.div_unique (2 * h + 1) 2 h 1); lia.
Qed.

(** The angle is [pos / 10000^(2j/d)]. *)
Lemma angle_power (d pos j : nat) :
  d <> 0 -> angle d pos j = (INR pos / Rpower 10000 (INR (2 * j) / INR d))%R.
Proof.
  intros Hd. unfold angle, Rpower, Rdiv at 2. rewrite <- exp_Ropp.
  do 2 f_equal. field. now apply not_0_INR.
Qed.

Lemma setitem_cols_shape (t value t' : tensor) (start step : nat) :
  setitem_cols t start step value = Ok t' -> shape t' = shape t.
Proof.
  unfold setitem_cols. destruct (shape t) as [|r [|c [|? ?]]]; try discriminate.
  destruct (broadcast_shapes (shape value) [r; range_len start c step]); [|discriminate].
  destruct (list_eq_dec Nat.eq_dec _ _); [|discriminate].
  intros [= <-]. reflexivity.
Qed.

(** Whenever the constructor succeeds the buffer has shape [1, max_len, d_model]. *)
Lemma init_shape (d L : nat) (self : t) :
  init d L = Ok self -> shape (pe self) = [1; L; d].
Proof.
  unfold init. destruct (position_ok L) as (p & -> & _ & _). cbn [bind].
  destruct (d =? 0); [discriminate|].
  destruct (mul p _) as [m|]; [|discriminate]. cbn [bind].
  destruct (setitem_cols (zeros [L; d]) 0 2 _) as [pe1|] eqn:E1; [|discriminate].
  cbn [bind].
  destruct (setitem_cols pe1 1 2 _) as [pe2|] eqn:E2; [|discriminate].
  cbn [bind]. unfold unsqueeze. cbn [Nat.leb bind]. intros [= <-].
  cbn [pe shape insert_at].
  apply setitem_cols_shape in E1, E2. rewrite E2, E1. reflexivity.
Qed.

(** An odd width of 3 or more is refused: the cosine block has one column
    more than the odd columns of the table. *)
Lemma init_odd_raises (d L : nat) :
  Nat.even d = false -> 3 <= d -> init d L = Err RuntimeError.
Proof.
  intros Hodd Hd. unfold init.
  destruct (position_ok L) as (p & -> & Hps & _). cbn [bind].
  rewrite (proj2 (Nat.eqb_neq d 0)) by lia.
  set (div_term := map_tensor exp (mul_scalar (arange 0 d 2) (- ln 10000 / INR d))).
  destruct (mul_col_row p div_term L (range_len 0 d 2) Hps eq_refl) as (m & -> & Hms & _).
  cbn [bind].
  destruct (setitem_cols_ok (zeros [L; d]) (map_tensor sin m) 0 2 L d (range_len 0 d 2))
    as (pe1 & -> & Hs1 & _); [reflexivity | exact Hms | left; reflexivity |].
  cbn [bind].
  assert (Hk : range_len 0 d 2 = d / 2 + 1).
  { rewrite range_len_even_columns.
    assert (Ho : Nat.odd d = true) by (rewrite <- Nat.negb_even, Hodd; reflexivity).
    apply Nat.odd_spec in Ho. destruct Ho as [h ->].
    replace (2 * h + 1 + 1) with ((h + 1) * 2) by lia. rewrite Nat.div_mul by lia.
    f_equal. apply (Nat.div_unique (2 * h + 1) 2 h 1); lia. }
  rewrite (setitem_cols_err pe1 (map_tensor cos m) 1 2 L d (range_len 0 d 2) Hs1 Hms).
  - reflexivity.
  - rewrite range_len_odd_columns by lia. lia.
  - rewrite Hk. assert (1 <= d / 2) by (apply Nat.div_le_lower_bound; lia). lia.
Qed.

Lemma init_zero_width (L : nat) : init 0 L = Err ZeroDivisionError.
Proof.
  unfold init. destruct (position_ok L) as (p & -> & _ & _). reflexivity.
Qed.

(** [x + self.pe[:, :T]] for an input of the width of the table: the two
    sequence lengths are broadcast against each other. *)
Lemma forward_broadcast (self : t) (x : tensor) (B T L d : nat) :
  shape (pe self) = [1; L; d] -> shape x = [B; T; d] ->
  forward self x =
  match broadcast_dim T (Nat.min T L) with
  | Some c =>
      Ok (mkTensor [B; c; d] (fun idx =>
            Rplus (data x (bidx [B; T; d] idx))
                  (data (pe self) (bidx [1; Nat.min T L; d] idx))))
  | None => Err RuntimeError
  end.
Proof.
  intros Hpe Hx. unfold forward, shape_at, slice_dim1_to. rewrite Hx, Hpe.
  cbn [nth_error bind]. unfold add, zip_with, broadcast_shapes.
  cbn [shape data]. rewrite Hx. cbn [rev app broadcast_rev].
  assert (E1 : broadcast_dim d d = Some d)
    by (unfold broadcast_dim; now rewrite Nat.eqb_refl).
  assert (E2 : broadcast_dim B 1 = Some B).
  { unfold broadcast_dim. destruct (Nat.eqb_spec B 1) as [->|]; reflexivity. }
  rewrite E1, E2. destruct (broadcast_dim T (Nat.min T L)); reflexivity.
Qed.

End PositionalEncodingFacts.

Module PositionalEncodingClaims.
Import PositionalEncoding PositionalEncodingFacts.

(** C10: the table of a constructed module holds, for every position below
    [max_len] and every pair index [i] with [2i+1 < d_model],
    [sin(pos / 10000^(2i/d_model))] in column [2i] and
    [cos(pos / 10000^(2i/d_model))] in column [2i+1]; and for an input of
    sequence length [T <= max_len] the pass returns the input plus the first
    [T] rows of the table. *)
Theorem table_entries_and_forward (d L : nat) (self : t) :
  init d L = Ok self ->
  (forall pos i, pos < L -> 2 * i + 1 < d ->
     data (pe self) [0; pos; 2 * i]
       = sin (INR pos / Rpower 10000 (INR (2 * i) / INR d)) /\
     data (pe self) [0; pos; 2 * i + 1]
       = cos (INR pos / Rpower 10000 (INR (2 * i) / INR d))) /\
  (forall x B T, shape x = [B; T; d] -> T <= L ->
     exists y, forward self x = Ok y /\ shape y = [B; T; d] /\
       forall b t j, b < B -> t < T -> j < d ->
         data y [b; t; j] = Rplus (data x [b; t; j]) (data (pe self) [0; t; j])).
Proof.
  intros Hinit. split.
  - intros pos i Hpos Hi.
    assert (Hev : Nat.even d = true).
    { destruct (Nat.even d) eqn:E; [reflexivity|].
      rewrite (init_odd_raises d L E) in Hinit; [discriminate|].
      destruct d as [|[|[|d]]]; try lia. discriminate E. }
    destruct (init_even d L ltac:(lia) Hev) as (self' & Hinit' & _ & Hdata).
    rewrite Hinit in Hinit'. injection Hinit' as <-.
    rewrite <- !angle_power by lia. split.
    + rewrite (Hdata pos (2 * i)) by lia.
      rewrite Nat.even_mul. cbn [Nat.even orb].
      rewrite (Nat.mul_comm 2 i), Nat.div_mul by lia. reflexivity.
    + rewrite (Hdata pos (2 * i + 1)) by lia.
      rewrite Nat.even_add, Nat.even_mul. cbn [Nat.even orb Bool.eqb].
      replace ((2 * i + 1) / 2) with i; [reflexivity|].
      apply (Nat.div_unique (2 * i + 1) 2 i 1); lia.
  - intros x B T Hx HT.
    rewrite (forward_broadcast self x B T L d (init_shape d L self Hinit) Hx).
    rewrite Nat.min_l by exact HT.
    unfold broadcast_dim. rewrite Nat.eqb_refl.
    eexists; split; [reflexivity|]. split; [reflexivity|].
    intros b t j Hb Ht Hj. cbn.
    rewrite (AttentionBatched.clamp_index B b Hb), !(AttentionBatched.clamp_index T t Ht),
      !(AttentionBatched.clamp_index d j Hj).
    reflexivity.
Qed.

(** C9, as the code has it: a sequence longer than [max_len] makes the
    addition of the sliced table fail, unless the table has a single row or
    the input a single position, in which case the two lengths broadcast;
    a sequence of length at most [max_len] is always accepted. *)
Theorem forward_length_limit (d L : nat) (self : t) (x : tensor) (B T : nat) :
  init d L = Ok self ->
  shape x = [B; T; d] ->
  (T <= L -> exists y, forward self x = Ok y /\ shape y = [B; T; d]) /\
  (L < T -> L <> 1 -> T <> 1 -> forward self x = Err RuntimeError).
Proof.
  intros Hinit Hx.
  rewrite (forward_broadcast self x B T L d (init_shape d L self Hinit) Hx).
  unfold broadcast_dim. split.
  - intros HT. rewrite Nat.min_l by exact HT. rewrite Nat.eqb_refl.
    eexists; split; reflexivity.
  - intros HT HL HT1. rewrite Nat.min_r by lia.
    rewrite (proj2 (Nat.eqb_neq T L)) by lia.
    rewrite (proj2 (Nat.eqb_neq T 1) HT1), (proj2 (Nat.eqb_neq L 1) HL).
    reflexivity.
Qed.

(** C9 as stated fails: a table built with [max_len = 1] accepts an input
    of sequence length 2 and adds its only row to both positions. *)
Lemma forward_beyond_single_row_table_returns :
  exists self y,
    init 2 1 = Ok self /\ 1 < 2 /\
    forward self (zeros [1; 2; 2]) = Ok y /\ shape y = [1; 2; 2] /\
    data y [0; 1; 0] = Rplus (data (zeros [1; 2; 2]) [0; 1; 0]) (data (pe self) [0; 0; 0]).
Proof.
  destruct (init_even 2 1 ltac:(lia) eq_refl) as (self & Hinit & Hs & _).
  pose proof (forward_broadcast self (zeros [1; 2; 2]) 1 2 1 2 Hs eq_refl) as Hf.
  cbn in Hf.
  eexists; eexists. split; [exact Hinit|]. split; [lia|].
  split; [exact Hf|]. split; reflexivity.
Qed.

Lemma table_entries_and_forward_witness :
  exists self, init 4 3 = Ok self /\
    data (pe self) [0; 2; 2] = sin (INR 2 / Rpower 10000 (INR (2 * 1) / INR 4)) /\
    data (pe self) [0; 2; 3] = cos (INR 2 / Rpower 10000 (INR (2 * 1) / INR 4)) /\
    exists y, forward self (zeros [2; 3; 4]) = Ok y /\ shape y = [2; 3; 4].
Proof.
  assert (Hrun : is_ok (init 4 3) = true) by (vm_compute; reflexivity).
  destruct (init 4 3) as [self|e] eqn:E; [|discriminate Hrun].
  destruct (table_entries_and_forward 4 3 self E) as [Htable Hforward].
  exists self. split; [reflexivity|].
  destruct (Htable 2 1 ltac:(lia) ltac:(lia)) as [Hsin Hcos].
  split; [exact Hsin|]. split; [exact Hcos|].
  destruct (Hforward (zeros [2; 3; 4]) 2 3 eq_refl ltac:(lia)) as (y & Hy & Hsy & _).
  exists y. split; assumption.
Defined.

Lemma forward_length_limit_witness :
  exists self, init 2 3 = Ok self /\
    (exists y, forward self (zeros [1; 2; 2]) = Ok y /\ shape y = [1; 2; 2]) /\
    forward self (zeros [1; 5; 2]) = Err RuntimeError.
Proof.
  assert (Hrun : is_ok (init 2 3) = true) by (vm_compute; reflexivity).
  destruct (init 2 3) as [self|e] eqn:E; [|discriminate Hrun].
  exists self. split; [reflexivity|]. split.
  - apply (proj1 (forward_length_limit 2 3 self (zeros [1; 2; 2]) 1 2 E eq_refl)). lia.
  - apply (proj2 (forward_length_limit 2 3 self (zeros [1; 5; 2]) 1 5 E eq_refl)); lia.
Defined.

End PositionalEncodingClaims.

(** * Further properties of the notebooks' code *)

(** ** Attention on matrices and on batched tensors *)

Module AttentionExtras.

(** The scaled score of query row [i] against key row [j] of two matrices. *)
Definition matrix_score (q k : tensor) (d i j : nat) : R :=
  (sum_n d (fun l => data q [i; l] * data k [j; l]) / sqrt (INR d))%R.

(** X1: on matrices [q : Tq x d], [k : Tk x d], [v : Tk x dv] (at least one key,
    [d >= 1]) both copies of the function compute [softmax(q k^T / sqrt d) v]:
    the weight of key [j] for query [i] is the exponential of their scaled
    score over the sum for all keys, every row of weights is a probability
    distribution, and the output rows are the matching averages of the rows
    of [v]; the mask makes no difference. *)
Theorem attention_on_matrices (q k v : tensor) (mask : option tensor) (Tq Tk d dv : nat) :
  shape q = [Tq; d] -> shape k = [Tk; d] -> shape v = [Tk; dv] -> 0 < Tk -> 0 < d ->
  exists output w,
    Attention.scaled_dot_product q k v mask = Ok (output, w) /\
    Assignment1.scaled_dot_product q k v mask = Ok output /\
    shape w = [Tq; Tk] /\ shape output = [Tq; dv] /\
    forall i,
      (forall j, data w [i; j] =
         (exp (matrix_score q k d i j)
          / sum_n Tk (fun j' => exp (matrix_score q k d i j')))%R) /\
      (forall j, 0 <= data w [i; j])%R /\
      sum_n Tk (fun j => data w [i; j]) = 1%R /\
      forall c, data output [i; c] = sum_n Tk (fun j => data w [i; j] * data v [j; c])%R.
Proof.
  destruct q as [shq dq], k as [shk dk], v as [shv dv']; cbn [shape].
  intros -> -> -> HT _.
  unfold Attention.scaled_dot_product, Attention.scaled_score,
    Assignment1.scaled_dot_product, transpose_last2, matmul, bmm, shape_at, softmax; cbn.
  repeat (rewrite Nat.eqb_refl; cbn).
  eexists; eexists. split; [reflexivity|]. split; [reflexivity|].
  split; [reflexivity|]. split; [reflexivity|].
  intros i; cbn. unfold matrix_score; cbn [data].
  destruct (softmax_row Tk
              (fun j => (sum_n d (fun l => dq [i; l] * dk [j; l]) / sqrt (INR d))%R) HT)
    as [Hpos Hsum].
  split; [reflexivity|]. split; [exact Hpos|]. split; [exact Hsum|].
  intros c; reflexivity.
Qed.

Lemma attention_on_matrices_witness :
  exists output w,
    Attention.scaled_dot_product (zeros [3; 2]) (zeros [4; 2]) (zeros [4; 5]) None
      = Ok (output, w) /\
    shape w = [3; 4] /\ shape output = [3; 5] /\
    sum_n 4 (fun j => data w [1; j]) = 1%R.
Proof.
  destruct (attention_on_matrices (zeros [3; 2]) (zeros [4; 2]) (zeros [4; 5]) None
              3 4 2 5 eq_refl eq_refl eq_refl ltac:(lia) ltac:(lia))
    as (output & w & Hr & _ & Hw & Ho & Hrows).
  exists output, w. split; [exact Hr|]. split; [exact Hw|]. split; [exact Ho|].
  apply (Hrows 1).
Defined.

(** X2: matrices are accepted exactly when [q] and [k] have the same width and
    [k] and [v] the same number of rows; any other pair of shapes raises a
    shape error, in both copies of the function. *)
Theorem attention_matrix_shape_check (q k v : tensor) (mask : option tensor)
    (Tq Tk Tv d d' dv : nat) :
  shape q = [Tq; d] -> shape k = [Tk; d'] -> shape v = [Tv; dv] ->
  (d = d' /\ Tk = Tv ->
     exists output w, Attention.scaled_dot_product q k v mask = Ok (output, w) /\
                      shape output = [Tq; dv] /\ shape w = [Tq; Tk]) /\
  (~ (d = d' /\ Tk = Tv) ->
     Attention.scaled_dot_product q k v mask = Err RuntimeError /\
     Assignment1.scaled_dot_product q k v mask = Err RuntimeError).
Proof.
  destruct q as [shq dq], k as [shk dk], v as [shv dv']; cbn [shape].
  intros -> -> ->.
  unfold Attention.scaled_dot_product, Attention.scaled_score,
    Assignment1.scaled_dot_product, transpose_last2, matmul, bmm, shape_at, softmax; cbn.
  split.
  - intros [<- <-]. repeat (rewrite Nat.eqb_refl; cbn).
    eexists; eexists. split; [reflexivity|]. split; reflexivity.
  - intros Hn. destruct (Nat.eqb_spec d d') as [Hd|Hd]; cbn; [|split; reflexivity].
    destruct (Nat.eqb_spec Tk Tv) as [HT|HT]; cbn; [|split; reflexivity].
    exfalso. apply Hn. split; assumption.
Qed.

Lemma attention_matrix_shape_check_witness :
  (exists output w,
     Attention.scaled_dot_product (zeros [3; 2]) (zeros [4; 2]) (zeros [4; 5]) None
       = Ok (output, w) /\ shape output = [3; 5] /\ shape w = [3; 4]) /\
  Attention.scaled_dot_product (zeros [3; 2]) (zeros [4; 3]) (zeros [4; 5]) None
    = Err RuntimeError /\
  Attention.scaled_dot_product (zeros [3; 2]) (zeros [4; 2]) (zeros [3; 5]) None
    = Err RuntimeError.
Proof.
  split; [|split].
  - apply (proj1 (attention_matrix_shape_check (zeros [3; 2]) (zeros [4; 2]) (zeros [4; 5])
                    None 3 4 4 2 2 5 eq_refl eq_refl eq_refl)).
    split; reflexivity.
  - apply (proj2 (attention_matrix_shape_check (zeros [3; 2]) (zeros [4; 3]) (zeros [4; 5])
                    None 3 4 4 2 3 5 eq_refl eq_refl eq_refl)).
    intros [Hd _]. discriminate Hd.
  - apply (proj2 (attention_matrix_shape_check (zeros [3; 2]) (zeros [4; 2]) (zeros [3; 5])
                    None 3 4 3 2 2 5 eq_refl eq_refl eq_refl)).
    intros [_ HT]. discriminate HT.
Defined.

(** The scaled score of head [h] of batch element [b], as the function
    computes it on [Batch, Head, SeqLen, Dims] tensors. *)
Definition head_score (q k : tensor) (H d b h i j : nat) : R :=
  (sum_n d (fun l => data q [b; h; i; l] * data k [b; h; j; l]) / sqrt (INR H))%R.

(** X3: on [Batch, Head, SeqLen, Dims] tensors, the ones multi-head attention
    passes in, axis 1 is the head axis: the dot products are divided by the
    square root of the head count and the softmax normalises across the
    heads, so that for every batch element, query and key the weights of the
    heads add up to 1. *)
Theorem attention_on_head_tensors (q k v : tensor) (mask : option tensor)
    (B H Tq Tk d dv : nat) :
  shape q = [B; H; Tq; d] -> shape k = [B; H; Tk; d] -> shape v = [B; H; Tk; dv] ->
  0 < H ->
  exists output w,
    Attention.scaled_dot_product q k v mask = Ok (output, w) /\
    shape w = [B; H; Tq; Tk] /\ shape output = [B; H; Tq; dv] /\
    (forall b h i j, b < B -> h < H ->
       data w [b; h; i; j] =
         (exp (head_score q k H d b h i j)
          / sum_n H (fun h' => exp (head_score q k H d b h' i j)))%R) /\
    (forall b i j, sum_n H (fun h => data w [b; h; i; j]) = 1%R).
Proof.
  destruct q as [shq dq], k as [shk dk], v as [shv dv']; cbn [shape].
  intros -> -> -> HH.
  unfold Attention.scaled_dot_product, Attention.scaled_score,
    transpose_last2, matmul, bmm, shape_at, softmax, broadcast_shapes; cbn.
  repeat (progress (unfold broadcast_dim; rewrite ?Nat.eqb_refl; cbn)).
  eexists; eexists. split; [reflexivity|]. split; [reflexivity|]. split; [reflexivity|].
  cbn. split.
  - intros b h i j Hb Hh. unfold head_score; cbn [data].
    rewrite !(AttentionBatched.clamp_index B b Hb), !(AttentionBatched.clamp_index H h Hh).
    f_equal. apply sum_n_ext. intros h' Hh'.
    rewrite !(AttentionBatched.clamp_index H h' Hh'). reflexivity.
  - intros b i j.
    apply (softmax_row H
             (fun h => Rdiv (sum_n d (fun l =>
                          Rmult (dq [if B =? 1 then 0 else b; if H =? 1 then 0 else h; i; l])
                                (dk [if B =? 1 then 0 else b; if H =? 1 then 0 else h; j; l])))
                        (sqrt (INR H))) HH).
Qed.

Lemma attention_on_head_tensors_witness :
  exists output w,
    Attention.scaled_dot_product (zeros [2; 3; 4; 5]) (zeros [2; 3; 6; 5])
      (zeros [2; 3; 6; 7]) None = Ok (output, w) /\
    shape w = [2; 3; 4; 6] /\ shape output = [2; 3; 4; 7] /\
    sum_n 3 (fun h => data w [1; h; 2; 5]) = 1%R.
Proof.
  destruct (attention_on_head_tensors (zeros [2; 3; 4; 5]) (zeros [2; 3; 6; 5])
              (zeros [2; 3; 6; 7]) None 2 3 4 6 5 7 eq_refl eq_refl eq_refl ltac:(lia))
    as (output & w & Hr & Hw & Ho & _ & Hsum).
  exists output, w. split; [exact Hr|]. split; [exact Hw|]. split; [exact Ho|].
  apply (Hsum 1 2 5).
Defined.

(** The scaled score of query [i] against key [j] of batch element [b], as
    the function computes it on [Batch, SeqLen, Dims] tensors. *)
Definition batch_score (q k : tensor) (Tk d b i j : nat) : R :=
  (sum_n d (fun l => data q [b; i; l] * data k [b; j; l]) / sqrt (INR Tk))%R.

(** X4: on [Batch, SeqLen, Dims] tensors axis 1 is the query axis of the scores
    and the key length of [k]: the dot products are divided by the square
    root of the number of keys and the softmax normalises across the
    queries, so that for every batch element and key the weights of the
    queries add up to 1. *)
Theorem attention_on_batches (q k v : tensor) (mask : option tensor)
    (B Tq Tk d dv : nat) :
  shape q = [B; Tq; d] -> shape k = [B; Tk; d] -> shape v = [B; Tk; dv] ->
  0 < Tq ->
  exists output w,
    Attention.scaled_dot_product q k v mask = Ok (output, w) /\
    shape w = [B; Tq; Tk] /\ shape output = [B; Tq; dv] /\
    (forall b i j, b < B ->
       data w [b; i; j] =
         (exp (batch_score q k Tk d b i j)
          / sum_n Tq (fun i' => exp (batch_score q k Tk d b i' j)))%R) /\
    (forall b j, sum_n Tq (fun i => data w [b; i; j]) = 1%R).
Proof.
  destruct q as [shq dq], k as [shk dk], v as [shv dv']; cbn [shape].
  intros -> -> -> HT.
  unfold Attention.scaled_dot_product, Attention.scaled_score,
    transpose_last2, matmul, bmm, shape_at, softmax, broadcast_shapes; cbn.
  repeat (progress (unfold broadcast_dim; rewrite ?Nat.eqb_refl; cbn)).
  eexists; eexists. split; [reflexivity|]. split; [reflexivity|]. split; [reflexivity|].
  cbn. split.
  - intros b i j Hb. unfold batch_score; cbn [data].
    rewrite !(AttentionBatched.clamp_index B b Hb). reflexivity.
  - intros b j.
    apply (softmax_row Tq
             (fun i => Rdiv (sum_n d (fun l =>
                          Rmult (dq [if B =? 1 then 0 else b; i; l])
                                (dk [if B =? 1 then 0 else b; j; l])))
                        (sqrt (INR Tk))) HT).
Qed.

Lemma attention_on_batches_witness :
  exists output w,
    Attention.scaled_dot_product (zeros [2; 4; 5]) (zeros [2; 6; 5]) (zeros [2; 6; 7]) None
      = Ok (output, w) /\
    shape w = [2; 4; 6] /\ shape output = [2; 4; 7] /\
    sum_n 4 (fun i => data w [1; i; 5]) = 1%R.
Proof.
  destruct (attention_on_batches (zeros [2; 4; 5]) (zeros [2; 6; 5]) (zeros [2; 6; 7]) None
              2 4 6 5 7 eq_refl eq_refl eq_refl ltac:(lia))
    as (output & w & Hr & Hw & Ho & _ & Hsum).
  exists output, w. split; [exact Hr|]. split; [exact Hw|]. split; [exact Ho|].
  apply (Hsum 1 5).
Defined.




End AttentionExtras.

(** ** Multi-head attention: accepted inputs and what the weights add up to *)

Module MultiheadAttentionExtras.
Import MultiheadAttention.

(** Weights on [Batch, Head, SeqLen, Dims] tensors: non-negative, and 1 in
    total across the heads. *)
Lemma weights_over_heads (q k v : tensor) (mask : option tensor) (B H Tq Tk d dv : nat) :
  shape q = [B; H; Tq; d] -> shape k = [B; H; Tk; d] -> shape v = [B; H; Tk; dv] ->
  0 < H ->
  exists output w,
    Attention.scaled_dot_product q k v mask = Ok (output, w) /\
    shape w = [B; H; Tq; Tk] /\ shape output = [B; H; Tq; dv] /\
    (forall b h i j, 0 <= data w [b; h; i; j])%R /\
    (forall b i j, sum_n H (fun h => data w [b; h; i; j]) = 1%R).
Proof.
  destruct q as [shq dq], k as [shk dk], v as [shv dv']; cbn [shape].
  intros -> -> -> HH.
  unfold Attention.scaled_dot_product, Attention.scaled_score,
    transpose_last2, matmul, bmm, shape_at, softmax, broadcast_shapes; cbn.
  repeat (progress (unfold broadcast_dim; rewrite ?Nat.eqb_refl; cbn)).
  eexists; eexists. split; [reflexivity|]. split; [reflexivity|]. split; [reflexivity|].
  cbn. split.
  - intros b h i j.
    apply (proj1 (softmax_row H
             (fun h => Rdiv (sum_n d (fun l =>
                          Rmult (dq [if B =? 1 then 0 else b; if H =? 1 then 0 else h; i; l])
                                (dk [if B =? 1 then 0 else b; if H =? 1 then 0 else h; j; l])))
                        (sqrt (INR H))) HH) h).
  - intros b i j.
    apply (proj2 (softmax_row H
             (fun h => Rdiv (sum_n d (fun l =>
                          Rmult (dq [if B =? 1 then 0 else b; if H =? 1 then 0 else h; i; l])
                                (dk [if B =? 1 then 0 else b; if H =? 1 then 0 else h; j; l])))
                        (sqrt (INR H))) HH)).
Qed.

(** The pass on an input of the configured width, with what is known of the
    weights it hands back. *)
Lemma forward_attention_weights (self : t) (x : tensor) (mask : option tensor)
    (E H B T : nat) :
  configured self E E H = true -> shape x = [B; T; E] ->
  exists o w,
    forward_attention self x mask = Ok (o, w) /\
    shape o = [B; T; E] /\ shape w = [B; H; T; T] /\
    (forall b h i j, 0 <= data w [b; h; i; j])%R /\
    (forall b i j, sum_n H (fun h => data w [b; h; i; j]) = 1%R).
Proof.
  intros Hc Hx.
  destruct (MultiheadAttentionFacts.configured_spec _ _ _ _ Hc)
    as (HE & HH & H0 & Hmul & Hqi & Hqo & Hoi & Hoo).
  unfold forward_attention. rewrite Hx.
  destruct (linear_forward_ok (qkv_proj self) x [B; T] E Hx (eq_sym Hqi))
    as (qkv & -> & Hs1). cbn [bind]. rewrite Hqo in Hs1.
  destruct (reshape_ok qkv [B; T; num_heads self; 3 * head_dim self])
    as (qkv2 & -> & Hs2).
  { rewrite Hs1, HH. cbn [numel app]. rewrite Hmul. ring. }
  cbn [bind]. rewrite HH in Hs2.
  destruct (permute_0213 _ _ _ _ _ Hs2) as (qkv3 & -> & Hs3). cbn [bind].
  destruct (chunk3_last_ok qkv3 [B; H; T] (head_dim self) Hs3)
    as (q & k & v & -> & Hq & Hk & Hv). cbn [bind].
  destruct (weights_over_heads q k v mask B H T T (head_dim self) (head_dim self) Hq Hk Hv)
    as (values & w & -> & Hsw & Hso & Hpos & Hsum); [lia|]. cbn [bind].
  destruct (permute_0213 _ _ _ _ _ Hso) as (values2 & -> & Hs4). cbn [bind].
  destruct (reshape_ok values2 [B; T; E]) as (values3 & -> & Hs5).
  { rewrite Hs4. cbn [numel]. rewrite Hmul. ring. }
  cbn [bind].
  destruct (linear_forward_ok (o_proj self) values3 [B; T] E Hs5 (eq_sym Hoi))
    as (o & -> & Hso'). cbn [bind].
  exists o, w. rewrite Hoo in Hso'. repeat split; assumption.
Qed.

(** X6: a configured module with [input_dim = embed_dim = E] accepts exactly the
    inputs of shape [B, T, E]: they come back with the same shape, together
    with weights of shape [B, num_heads, T, T]; anything that does not have
    three axes fails at the unpacking of [x.size()], and a three-axis input
    of another width raises a shape error. *)
Theorem forward_accepts_exactly_embed_width (self : t) (x : tensor) (mask : option tensor)
    (E H : nat) :
  configured self E E H = true ->
  (forall B T, shape x = [B; T; E] ->
     exists o w, forward_attention self x mask = Ok (o, w) /\
                 forward self x mask = Ok o /\
                 shape o = [B; T; E] /\ shape w = [B; H; T; T]) /\
  (length (shape x) <> 3 ->
     forward self x mask = Err ValueError /\
     forward_attention self x mask = Err ValueError) /\
  (forall B T D, shape x = [B; T; D] -> D <> E ->
     forward self x mask = Err RuntimeError /\
     forward_attention self x mask = Err RuntimeError).
Proof.
  intros Hc. split; [|split].
  - intros B T Hx.
    destruct (forward_attention_weights self x mask E H B T Hc Hx)
      as (o & w & Hf & Ho & Hw & _).
    exists o, w. split; [exact Hf|]. split; [|split; assumption].
    unfold forward. rewrite Hf. reflexivity.
  - intros Hlen. unfold forward, forward_attention.
    destruct (shape x) as [|a [|b [|c [|d l]]]]; cbn in Hlen; try (split; reflexivity).
    contradiction.
  - intros B T D Hx HD.
    destruct (MultiheadAttentionFacts.configured_spec _ _ _ _ Hc)
      as (_ & _ & _ & _ & Hqi & _).
    unfold forward, forward_attention. rewrite Hx.
    rewrite (linear_forward_err (qkv_proj self) x [B; T] D Hx) by congruence.
    split; reflexivity.
Qed.

Lemma forward_accepts_exactly_embed_width_witness :
  (exists o w, forward_attention Samples.attention_2_2 (zeros [4; 3; 2]) None = Ok (o, w) /\
               forward Samples.attention_2_2 (zeros [4; 3; 2]) None = Ok o /\
               shape o = [4; 3; 2] /\ shape w = [4; 1; 3; 3]) /\
  forward Samples.attention_2_2 (zeros [3; 2]) None = Err ValueError /\
  forward Samples.attention_2_2 (zeros [4; 3; 5]) None = Err RuntimeError.
Proof.
  split; [|split].
  - apply (proj1 (forward_accepts_exactly_embed_width Samples.attention_2_2
                    (zeros [4; 3; 2]) None 2 1 eq_refl) 4 3 eq_refl).
  - apply (proj1 (proj2 (forward_accepts_exactly_embed_width Samples.attention_2_2
                           (zeros [3; 2]) None 2 1 eq_refl))).
    cbn. lia.
  - apply (proj2 (proj2 (forward_accepts_exactly_embed_width Samples.attention_2_2
                           (zeros [4; 3; 5]) None 2 1 eq_refl)) 4 3 5 eq_refl).
    lia.
Defined.

(** X7: the attention weights multi-head attention returns are non-negative and
    add up to 1 across the heads, for every batch element, query position
    and key position (not across the key positions of a query). *)
Theorem forward_attention_normalised_over_heads (self : t) (x : tensor)
    (mask : option tensor) (E H B T : nat) :
  configured self E E H = true -> shape x = [B; T; E] ->
  exists o w,
    forward_attention self x mask = Ok (o, w) /\
    shape w = [B; H; T; T] /\
    (forall b h i j, 0 <= data w [b; h; i; j])%R /\
    (forall b i j, sum_n H (fun h => data w [b; h; i; j]) = 1%R).
Proof.
  intros Hc Hx.
  destruct (forward_attention_weights self x mask E H B T Hc Hx)
    as (o & w & Hf & _ & Hw & Hpos & Hsum).
  exists o, w. repeat split; assumption.
Qed.

Lemma forward_attention_normalised_over_heads_witness :
  exists o w,
    forward_attention MoreSamples.attention_two_heads (zeros [2; 3; 4]) None = Ok (o, w) /\
    shape w = [2; 2; 3; 3] /\
    sum_n 2 (fun h => data w [1; h; 2; 0]) = 1%R.
Proof.
  destruct (forward_attention_normalised_over_heads MoreSamples.attention_two_heads
              (zeros [2; 3; 4]) None 4 2 2 3 eq_refl eq_refl)
    as (o & w & Hf & Hw & _ & Hsum).
  exists o, w. split; [exact Hf|]. split; [exact Hw|]. apply (Hsum 1 2 0).
Defined.

End MultiheadAttentionExtras.

(** ** Multi-head attention: which columns of the projection feed which head *)

Module MultiheadAttentionLayout.
Import MultiheadAttention.

(** Entry [c] of the joint projection [qkv_proj(x)] at position [t] of
    sequence [b]. *)
Definition qkv_entry (self : t) (x : tensor) (b t c : nat) : R :=
  (sum_n (in_features (qkv_proj self))
     (fun i => data x [b; t; i] * weight (qkv_proj self) c i)
   + bias (qkv_proj self) c)%R.

(** Head [h] owns the [3 * head_dim] consecutive columns that start at
    [h * (3 * head_dim)]: its query, then its key, then its value. *)
Definition head_query (self : t) (x : tensor) (b h t l : nat) : R :=
  qkv_entry self x b t (h * (3 * head_dim self) + l).

Definition head_key (self : t) (x : tensor) (b h t l : nat) : R :=
  qkv_entry self x b t (h * (3 * head_dim self) + (head_dim self + l)).

Definition head_value (self : t) (x : tensor) (b h t l : nat) : R :=
  qkv_entry self x b t (h * (3 * head_dim self) + (2 * head_dim self + l)).

Definition head_pair_score (self : t) (x : tensor) (b h i j : nat) : R :=
  (sum_n (head_dim self) (fun l => head_query self x b h i l * head_key self x b h j l)
   / sqrt (INR (num_heads self)))%R.

Lemma linear_forward_data (l : Linear) (x y : tensor) :
  linear_forward l x = Ok y ->
  forall bi j, data y (bi ++ [j]) =
    (sum_n (in_features l) (fun i => data x (bi ++ [i]) * weight l j i) + bias l j)%R.
Proof.
  unfold linear_forward. destruct (split_last (shape x)) as [[batch n]|]; [|discriminate].
  destruct (Nat.eqb_spec n (in_features l)) as [->|]; [|discriminate].
  intros [= <-] bi j. cbn [data]. rewrite split_last_app. reflexivity.
Qed.

Lemma reshape_data (a : tensor) (sh : list nat) (y : tensor) :
  reshape a sh = Ok y ->
  forall idx, data y idx = data a (unravel (shape a) (ravel sh idx)).
Proof.
  unfold reshape. destruct (numel (shape a) =? numel sh); [|discriminate].
  intros [= <-] idx. reflexivity.
Qed.

Lemma permute_0213_data (a : tensor) (d0 d1 d2 d3 : nat) (y : tensor) :
  shape a = [d0; d1; d2; d3] -> permute a [0; 2; 1; 3] = Ok y ->
  forall i j k l, data y [i; j; k; l] = data a [i; k; j; l].
Proof.
  intros Hs. unfold permute, rank. rewrite Hs. cbn.
  intros [= <-] i j k l. reflexivity.
Qed.

Lemma chunk3_last_data (a : tensor) (batch : list nat) (hd : nat) (q k v : tensor) :
  shape a = batch ++ [3 * hd] -> chunk3_last a = Ok (q, k, v) ->
  forall bi l,
    data q (bi ++ [l]) = data a (bi ++ [l]) /\
    data k (bi ++ [l]) = data a (bi ++ [hd + l]) /\
    data v (bi ++ [l]) = data a (bi ++ [2 * hd + l]).
Proof.
  intros Hs. unfold chunk3_last. rewrite Hs, split_last_app.
  assert (Hss : (3 * hd + 2) / 3 = hd).
  { symmetry. apply (Nat.div_unique (3 * hd + 2) 3 hd 2); lia. }
  rewrite Hss.
  destruct ((hd =? 0) || ((3 * hd + hd - 1) / hd =? 3)); [|discriminate].
  intros [= <- <- <-] bi l. unfold narrow_last. cbn [data].
  rewrite split_last_app. repeat split.
Qed.

(** Splitting the last axis of [B, T, H * C] into [H, C]: entry [h, c] is
    column [h * C + c]. *)
Lemma reshape_split_index (B T H C W b t h c : nat) :
  W = H * C -> t < T -> h < H -> c < C ->
  unravel [B; T; W] (ravel [B; T; H; C] [b; t; h; c]) = [b; t; h * C + c].
Proof.
  intros -> Ht Hh Hc. cbn [unravel ravel numel].
  rewrite !Nat.mul_1_r, Nat.add_0_r, Nat.div_1_r.
  set (r := h * C + c).
  assert (Hr : r < H * C) by (unfold r; nia).
  assert (E1 : (b * (T * (H * C)) + (t * (H * C) + r)) / (T * (H * C)) = b).
  { symmetry. apply (Nat.div_unique _ _ b (t * (H * C) + r)); nia. }
  assert (E2 : (b * (T * (H * C)) + (t * (H * C) + r)) mod (T * (H * C))
               = t * (H * C) + r).
  { symmetry. apply (Nat.mod_unique _ _ b (t * (H * C) + r)); nia. }
  assert (E3 : (t * (H * C) + r) / (H * C) = t).
  { symmetry. apply (Nat.div_unique _ _ t r); nia. }
  assert (E4 : (t * (H * C) + r) mod (H * C) = r).
  { symmetry. apply (Nat.mod_unique _ _ t r); nia. }
  rewrite E1, E2, E3, E4. reflexivity.
Qed.

(** Merging the axes [H, C] of [B, T, H, C] into one: column [e] is entry
    [e / C, e mod C]. *)
Lemma reshape_merge_index (B T H C W b t e : nat) :
  W = H * C -> t < T -> e < W ->
  unravel [B; T; H; C] (ravel [B; T; W] [b; t; e]) = [b; t; e / C; e mod C].
Proof.
  intros -> Ht He. cbn [unravel ravel numel].
  rewrite !Nat.mul_1_r, Nat.add_0_r, Nat.div_1_r.
  assert (E1 : (b * (T * (H * C)) + (t * (H * C) + e)) / (T * (H * C)) = b).
  { symmetry. apply (Nat.div_unique _ _ b (t * (H * C) + e)); nia. }
  assert (E2 : (b * (T * (H * C)) + (t * (H * C) + e)) mod (T * (H * C))
               = t * (H * C) + e).
  { symmetry. apply (Nat.mod_unique _ _ b (t * (H * C) + e)); nia. }
  assert (E3 : (t * (H * C) + e) / (H * C) = t).
  { symmetry. apply (Nat.div_unique _ _ t e); nia. }
  assert (E4 : (t * (H * C) + e) mod (H * C) = e).
  { symmetry. apply (Nat.mod_unique _ _ t e); nia. }
  rewrite E1, E2, E3, E4. reflexivity.
Qed.

(** The attention function on [Batch, Head, SeqLen, Dims] tensors, entry by
    entry. *)
Lemma attention_4d_data (q k v : tensor) (mask : option tensor) (B H Tq Tk d dv : nat) :
  shape q = [B; H; Tq; d] -> shape k = [B; H; Tk; d] -> shape v = [B; H; Tk; dv] ->
  exists output w,
    Attention.scaled_dot_product q k v mask = Ok (output, w) /\
    shape w = [B; H; Tq; Tk] /\ shape output = [B; H; Tq; dv] /\
    (forall b h i j, b < B -> h < H ->
       data w [b; h; i; j] =
         Rdiv (exp (Rdiv (sum_n d (fun l => Rmult (data q [b; h; i; l]) (data k [b; h; j; l])))
                         (sqrt (INR H))))
              (sum_n H (fun h' =>
                 exp (Rdiv (sum_n d (fun l =>
                              Rmult (data q [b; h'; i; l]) (data k [b; h'; j; l])))
                           (sqrt (INR H)))))) /\
    (forall b h i l, b < B -> h < H ->
       data output [b; h; i; l] =
         sum_n Tk (fun j => Rmult (data w [b; h; i; j]) (data v [b; h; j; l]))).
Proof.
  destruct q as [shq dq], k as [shk dk], v as [shv dv']; cbn [shape].
  intros -> -> ->.
  unfold Attention.scaled_dot_product, Attention.scaled_score,
    transpose_last2, matmul, bmm, shape_at, softmax, broadcast_shapes; cbn.
  repeat (progress (unfold broadcast_dim; rewrite ?Nat.eqb_refl; cbn)).
  eexists; eexists. split; [reflexivity|]. split; [reflexivity|]. split; [reflexivity|].
  cbn. split.
  - intros b h i j Hb Hh.
    rewrite !(AttentionBatched.clamp_index B b Hb), !(AttentionBatched.clamp_index H h Hh).
    f_equal. apply sum_n_ext. intros h' Hh'.
    rewrite !(AttentionBatched.clamp_index H h' Hh'). reflexivity.
  - intros b h i l Hb Hh.
    rewrite !(AttentionBatched.clamp_index B b Hb), !(AttentionBatched.clamp_index H h Hh).
    reflexivity.
Qed.

(** X21: the pass, entry by entry.  Head [h] reads columns
    [h * 3 * head_dim ..] of the joint projection as its query, the next
    [head_dim] columns as its key and the next as its value; the weight of
    head [h] for query [i] and key [j] is the exponential of its scaled score
    over the sum for all heads; and the output is [o_proj] applied to the
    heads' weighted value sums laid side by side (column [e] comes from head
    [e / head_dim]). *)
Theorem forward_head_layout (self : t) (x : tensor) (mask : option tensor)
    (E H B T : nat) :
  configured self E E H = true -> shape x = [B; T; E] ->
  exists o w,
    forward_attention self x mask = Ok (o, w) /\
    (forall b h i j, b < B -> h < H -> i < T -> j < T ->
       data w [b; h; i; j] =
         Rdiv (exp (head_pair_score self x b h i j))
              (sum_n H (fun h' => exp (head_pair_score self x b h' i j)))) /\
    (forall b t c, b < B -> t < T ->
       data o [b; t; c] =
         Rplus (sum_n E (fun e =>
                  Rmult (sum_n T (fun j =>
                           Rmult (data w [b; e / head_dim self; t; j])
                                 (head_value self x b (e / head_dim self) j
                                    (e mod head_dim self))))
                        (weight (o_proj self) c e)))
               (bias (o_proj self) c)).
Proof.
  intros Hc Hx.
  destruct (MultiheadAttentionFacts.configured_spec _ _ _ _ Hc)
    as (HE & HH & H0 & Hmul & Hqi & Hqo & Hoi & Hoo).
  unfold forward_attention. rewrite Hx.
  set (hd := head_dim self) in *.
  destruct (linear_forward_ok (qkv_proj self) x [B; T] E Hx (eq_sym Hqi))
    as (qkv & E1 & Hs1).
  pose proof (linear_forward_data _ _ _ E1) as D1.
  rewrite E1. cbn [bind]. rewrite Hqo in Hs1. cbn [app] in Hs1.
  destruct (reshape_ok qkv [B; T; num_heads self; 3 * hd]) as (qkv2 & E2 & Hs2).
  { rewrite Hs1, HH. cbn [numel]. rewrite Hmul. ring. }
  pose proof (reshape_data _ _ _ E2) as D2.
  rewrite E2. cbn [bind]. rewrite HH in Hs2, D2. rewrite Hs1 in D2.
  destruct (permute_0213 _ _ _ _ _ Hs2) as (qkv3 & E3 & Hs3).
  pose proof (permute_0213_data _ _ _ _ _ _ Hs2 E3) as D3.
  rewrite E3. cbn [bind].
  destruct (chunk3_last_ok qkv3 [B; H; T] hd Hs3) as (q & k & v & E4 & Hq & Hk & Hv).
  pose proof (chunk3_last_data qkv3 [B; H; T] hd q k v Hs3 E4) as D4.
  rewrite E4. cbn [bind].
  destruct (attention_4d_data q k v mask B H T T hd hd Hq Hk Hv)
    as (values & w & E5 & Hsw & Hso & Dw & Dv).
  rewrite E5. cbn [bind].
  destruct (permute_0213 _ _ _ _ _ Hso) as (values2 & E6 & Hs6).
  pose proof (permute_0213_data _ _ _ _ _ _ Hso E6) as D6.
  rewrite E6. cbn [bind].
  destruct (reshape_ok values2 [B; T; E]) as (values3 & E7 & Hs7).
  { rewrite Hs6. cbn [numel]. rewrite Hmul. ring. }
  pose proof (reshape_data _ _ _ E7) as D7. rewrite Hs6 in D7.
  rewrite E7. cbn [bind].
  destruct (linear_forward_ok (o_proj self) values3 [B; T] E Hs7 (eq_sym Hoi))
    as (o & E8 & Hs8).
  pose proof (linear_forward_data _ _ _ E8) as D8.
  rewrite E8. cbn [bind].
  (* the three slices of the projection, per head *)
  assert (Hcol : forall b h t c, t < T -> h < H -> c < 3 * hd ->
            data qkv3 [b; h; t; c] = qkv_entry self x b t (h * (3 * hd) + c)).
  { intros b h t c Ht Hh Hcc.
    rewrite D3, D2.
    rewrite (reshape_split_index B T H (3 * hd) (3 * E) b t h c); try assumption.
    - apply (D1 [b; t] (h * (3 * hd) + c)).
    - rewrite Hmul. ring. }
  assert (Hqd : forall b h t l, t < T -> h < H -> l < hd ->
            data q [b; h; t; l] = head_query self x b h t l).
  { intros b h t l Ht Hh Hl. destruct (D4 [b; h; t] l) as (Eq & _ & _). cbn [app] in Eq. rewrite Eq.
    apply (Hcol b h t l Ht Hh). lia. }
  assert (Hkd : forall b h t l, t < T -> h < H -> l < hd ->
            data k [b; h; t; l] = head_key self x b h t l).
  { intros b h t l Ht Hh Hl. destruct (D4 [b; h; t] l) as (_ & Eq & _). cbn [app] in Eq. rewrite Eq.
    apply (Hcol b h t (hd + l) Ht Hh). lia. }
  assert (Hvd : forall b h t l, t < T -> h < H -> l < hd ->
            data v [b; h; t; l] = head_value self x b h t l).
  { intros b h t l Ht Hh Hl. destruct (D4 [b; h; t] l) as (_ & _ & Eq). cbn [app] in Eq. rewrite Eq.
    apply (Hcol b h t (2 * hd + l) Ht Hh). lia. }
  assert (Hscore : forall b h i j, i < T -> j < T -> h < H ->
            Rdiv (sum_n hd (fun l => Rmult (data q [b; h; i; l]) (data k [b; h; j; l])))
                 (sqrt (INR H))
            = head_pair_score self x b h i j).
  { intros b h i j Hi Hj Hh. unfold head_pair_score. fold hd. rewrite HH.
    f_equal. apply sum_n_ext. intros l Hl.
    rewrite (Hqd b h i l Hi Hh Hl), (Hkd b h j l Hj Hh Hl). reflexivity. }
  exists o, w. split; [reflexivity|]. split.
  - intros b h i j Hb Hh Hi Hj.
    rewrite (Dw b h i j Hb Hh), (Hscore b h i j Hi Hj Hh).
    f_equal. apply sum_n_ext. intros h' Hh'.
    rewrite (Hscore b h' i j Hi Hj Hh'). reflexivity.
  - intros b t c Hb Ht.
    pose proof (D8 [b; t] c) as Eo. cbn [app] in Eo. rewrite Eo, Hoi. f_equal.
    apply sum_n_ext. intros e He. f_equal.
    assert (Hhd : hd <> 0) by nia.
    assert (Heh : e / hd < H).
    { apply Nat.Div0.div_lt_upper_bound. rewrite Nat.mul_comm, <- Hmul. exact He. }
    assert (Hel : e mod hd < hd) by (apply Nat.mod_upper_bound; exact Hhd).
    cbn [app].
    rewrite D7, (reshape_merge_index B T H hd E b t e Hmul Ht He), D6.
    rewrite (Dv b (e / hd) t (e mod hd) Hb Heh).
    apply sum_n_ext. intros j Hj.
    rewrite (Hvd b (e / hd) j (e mod hd) Hj Heh Hel). reflexivity.
Qed.

Lemma forward_head_layout_witness :
  exists o w,
    forward_attention MoreSamples.attention_two_heads (Samples.ones [2; 3; 4]) None
      = Ok (o, w) /\
    data w [1; 1; 2; 0] =
      Rdiv (exp (head_pair_score MoreSamples.attention_two_heads (Samples.ones [2; 3; 4])
                   1 1 2 0))
           (sum_n 2 (fun h' =>
              exp (head_pair_score MoreSamples.attention_two_heads (Samples.ones [2; 3; 4])
                     1 h' 2 0))).
Proof.
  destruct (forward_head_layout MoreSamples.attention_two_heads (Samples.ones [2; 3; 4])
              None 4 2 2 3 eq_refl eq_refl) as (o & w & Hf & Hw & _).
  exists o, w. split; [exact Hf|]. apply (Hw 1 1 2 0); lia.
Defined.

End MultiheadAttentionLayout.

(** ** Encoder block: construction and normalised outputs *)

Module EncoderBlockExtras.
Import EncoderBlock.

Lemma check_dropout_ok (p : R) : (0 <= p <= 1)%R -> check_dropout p = Ok tt.
Proof.
  intros [H0 H1]. unfold check_dropout.
  destruct (Rle_dec 0 p); [|contradiction]. destruct (Rle_dec p 1); [reflexivity|contradiction].
Qed.

Lemma check_dropout_err (p : R) : ~ (0 <= p <= 1)%R -> check_dropout p = Err ValueError.
Proof.
  intros Hn. unfold check_dropout.
  destruct (Rle_dec 0 p); [|reflexivity]. destruct (Rle_dec p 1); [|reflexivity].
  exfalso. apply Hn. split; assumption.
Qed.

Lemma attention_init_ok (input_dim E H : nat) (w_qkv w_o : nat -> nat -> R) :
  H <> 0 -> E mod H = 0 -> 1 <= E ->
  exists attn, MultiheadAttention.init input_dim E H w_qkv w_o = Ok attn.
Proof.
  intros H0 Hm HE.
  unfold MultiheadAttention.init, MultiheadAttention.reset_parameters,
    MultiheadAttention.xavier_uniform_, MultiheadAttention.new_linear.
  cbn [MultiheadAttention.qkv_proj MultiheadAttention.o_proj in_features out_features].
  rewrite (proj2 (Nat.eqb_neq _ _) H0), (proj2 (Nat.eqb_eq _ _) Hm).
  rewrite (proj2 (Nat.eqb_neq (input_dim + 3 * E) 0)) by lia. cbn [bind].
  rewrite (proj2 (Nat.eqb_neq (E + E) 0)) by lia. cbn [bind].
  eexists. reflexivity.
Qed.

Lemma attention_init_err (input_dim E H : nat) (w_qkv w_o : nat -> nat -> R) :
  H = 0 \/ E mod H <> 0 ->
  MultiheadAttention.init input_dim E H w_qkv w_o
    = Err (if H =? 0 then ZeroDivisionError else AssertionError).
Proof.
  intros Hbad. unfold MultiheadAttention.init.
  destruct (Nat.eqb_spec H 0) as [|H0]; [reflexivity|].
  destruct (Nat.eqb_spec (E mod H) 0) as [Hm|]; [|reflexivity].
  destruct Hbad; contradiction.
Qed.

Lemma attention_init_zero_width (input_dim H : nat) (w_qkv w_o : nat -> nat -> R) :
  H <> 0 -> MultiheadAttention.init input_dim 0 H w_qkv w_o = Err ZeroDivisionError.
Proof.
  intros H0.
  unfold MultiheadAttention.init, MultiheadAttention.reset_parameters,
    MultiheadAttention.xavier_uniform_, MultiheadAttention.new_linear.
  cbn [MultiheadAttention.qkv_proj MultiheadAttention.o_proj in_features out_features].
  rewrite (proj2 (Nat.eqb_neq _ _) H0), Nat.Div0.mod_0_l. cbn [Nat.eqb].
  destruct (input_dim + 3 * 0 =? 0); reflexivity.
Qed.

(** X8: construction of a block checks the head count before the dropout rate:
    a head count that does not divide the width raises whatever the rate is
    ([ZeroDivisionError] for no heads, else [AssertionError]); with a
    dividing head count and a width of at least 1, a rate outside [0, 1]
    raises [ValueError]; otherwise the block is built, with the requested
    dimensions and rate and the feed-forward net Linear, Dropout, ReLU,
    Linear. *)
Theorem block_init_outcome (D H ff : nat) (p : R) (ps : params) :
  (H = 0 \/ D mod H <> 0 ->
     init D H ff p ps = Err (if H =? 0 then ZeroDivisionError else AssertionError)) /\
  (H <> 0 -> D mod H = 0 -> 1 <= D -> ~ (0 <= p <= 1)%R ->
     init D H ff p ps = Err ValueError) /\
  (H <> 0 -> D mod H = 0 -> 1 <= D -> (0 <= p <= 1)%R ->
     exists self l1 l2,
       init D H ff p ps = Ok self /\
       configured self D H ff = true /\
       dropout_p self = p /\
       linear_net self = [LinearL l1; DropoutL p; ReLUL; LinearL l2] /\
       norm1 self = new_layer_norm D /\ norm2 self = new_layer_norm D).
Proof.
  split; [|split].
  - intros Hbad. unfold init. rewrite (attention_init_err D D H _ _ Hbad). reflexivity.
  - intros H0 Hm HD Hp. unfold init.
    destruct (attention_init_ok D D H (w_qkv ps) (w_o ps) H0 Hm HD) as (attn & ->).
    cbn [bind]. rewrite (check_dropout_err p Hp). reflexivity.
  - intros H0 Hm HD Hp.
    assert (Hinit : exists self, init D H ff p ps = Ok self /\
              dropout_p self = p /\
              (exists l1 l2, linear_net self = [LinearL l1; DropoutL p; ReLUL; LinearL l2]) /\
              norm1 self = new_layer_norm D /\ norm2 self = new_layer_norm D).
    { unfold init.
      destruct (attention_init_ok D D H (w_qkv ps) (w_o ps) H0 Hm HD) as (attn & ->).
      cbn [bind]. rewrite (check_dropout_ok p Hp). cbn [bind].
      eexists. split; [reflexivity|]. cbn [dropout_p linear_net norm1 norm2].
      split; [reflexivity|]. split; [|split; reflexivity].
      eexists; eexists; reflexivity. }
    destruct Hinit as (self & Hinit & Hdp & (l1 & l2 & Hnet) & Hn1 & Hn2).
    exists self, l1, l2. split; [exact Hinit|].
    split; [|repeat split; assumption].
    apply (EncoderBlockFacts.block_init_configured D H ff p ps self Hinit).
Qed.

Lemma block_init_outcome_witness :
  init 6 4 8 (1 / 2) MoreSamples.one_params = Err AssertionError /\
  init 6 3 8 2 MoreSamples.one_params = Err ValueError /\
  exists self, init 6 3 8 (1 / 2) MoreSamples.one_params = Ok self /\
               configured self 6 3 8 = true.
Proof.
  split; [|split].
  - apply (proj1 (block_init_outcome 6 4 8 (1 / 2) MoreSamples.one_params)).
    right. cbn. discriminate.
  - apply (proj1 (proj2 (block_init_outcome 6 3 8 2 MoreSamples.one_params)));
      [lia | reflexivity | lia | lra].
  - destruct (proj2 (proj2 (block_init_outcome 6 3 8 (1 / 2) MoreSamples.one_params)))
      as (self & l1 & l2 & Hinit & Hc & _); [lia | reflexivity | lia | lra |].
    exists self. split; assumption.
Defined.

Lemma sum_n_plus (n : nat) (f g : nat -> R) :
  sum_n n (fun i => (f i + g i)%R) = (sum_n n f + sum_n n g)%R.
Proof.
  induction n as [|n IH]; simpl; [ring|]. rewrite IH. ring.
Qed.

Lemma sum_n_const (n : nat) (c : R) : sum_n n (fun _ => c) = (INR n * c)%R.
Proof.
  induction n as [|n IH]; [simpl; ring|].
  cbn [sum_n]. rewrite IH, S_INR. ring.
Qed.

(** One row through a layer norm with scale 1 and shift 0: the entries add
    up to 0 and their squares to at most the number of entries. *)
Lemma normalised_row (n : nat) (f : nat -> R) (eps : R) :
  0 < n -> (0 < eps)%R ->
  let mean := (sum_n n f / INR n)%R in
  let var := (sum_n n (fun i => (f i - mean) ^ 2) / INR n)%R in
  let g := fun j => ((f j - mean) / sqrt (var + eps) * 1 + 0)%R in
  sum_n n g = 0%R /\ (sum_n n (fun j => g j ^ 2) <= INR n)%R.
Proof.
  intros Hn Heps mean var g.
  assert (HnR : (0 < INR n)%R) by (apply lt_0_INR; exact Hn).
  assert (Hsq : (0 <= sum_n n (fun i => (f i - mean) ^ 2))%R).
  { apply sum_n_nonneg. intros i _. apply pow2_ge_0. }
  assert (Hvar : (0 <= var)%R).
  { unfold var. apply Rmult_le_pos; [exact Hsq|]. left. apply Rinv_0_lt_compat. exact HnR. }
  assert (Hc : (0 < sqrt (var + eps))%R) by (apply sqrt_lt_R0; lra).
  assert (Hcc : (sqrt (var + eps) * sqrt (var + eps) = var + eps)%R)
    by (apply sqrt_sqrt; lra).
  split.
  - unfold g.
    rewrite (sum_n_ext n _ (fun j => ((f j + - mean) * / sqrt (var + eps))%R))
      by (intros; unfold Rdiv; ring).
    rewrite sum_n_scal, sum_n_plus, sum_n_const.
    replace (sum_n n f + INR n * - mean)%R with 0%R; [ring|].
    unfold mean. field. lra.
  - unfold g.
    rewrite (sum_n_ext n _ (fun j => ((f j - mean) ^ 2 * / (var + eps))%R)).
    + rewrite sum_n_scal.
      replace (sum_n n (fun i => ((f i - mean) ^ 2)%R)) with (INR n * var)%R
        by (unfold var; field; lra).
      apply Rmult_le_reg_r with (var + eps)%R; [lra|].
      rewrite Rmult_assoc, Rinv_l by lra. nra.
    + intros j _.
      replace (/ (var + eps))%R with (/ (sqrt (var + eps) * sqrt (var + eps)))%R
        by (now rewrite Hcc).
      field. lra.
Qed.

(** X9: a freshly built block (scale 1 and shift 0 in its second layer norm)
    returns, at every position of every sequence, features that add up to 0
    and whose squares add up to at most their number: zero mean and a mean
    square of at most 1 over the feature axis, in inference and in training
    mode. *)
Theorem fresh_block_output_normalised (md : mode) (self : t) (x : tensor)
    (mask : option tensor) (D H ff B T n : nat) :
  configured self D H ff = true ->
  norm2 self = new_layer_norm D ->
  shape x = [B; T; D] ->
  exists y n',
    forward md self x mask n = Ok (y, n') /\ shape y = [B; T; D] /\
    forall b t,
      sum_n D (fun j => data y [b; t; j]) = 0%R /\
      (sum_n D (fun j => data y [b; t; j] ^ 2) <= INR D)%R.
Proof.
  intros Hc Hnorm Hx.
  assert (HD : 0 < D).
  { destruct (Nat.eqb_spec D 0) as [HD0|]; [exfalso|lia].
    unfold configured, MultiheadAttention.configured in Hc.
    repeat (apply andb_prop in Hc; destruct Hc as [Hc ?]).
    match goal with
    | Hz : negb (D =? 0) = true |- _ => rewrite HD0 in Hz; discriminate Hz
    end. }
  destruct (EncoderBlockFacts.block_forward_shape md self x mask D H ff B T n Hc Hx)
    as (y & n' & Hf & Hsy).
  exists y, n'. split; [exact Hf|]. split; [exact Hsy|].
  unfold forward in Hf.
  do 7 (apply TransformerEncoderFacts.bindM_inv in Hf;
        destruct Hf as (? & ? & _ & Hf)).
  rewrite Hnorm in Hf.
  match type of Hf with context [layer_norm_forward _ ?s] => rename s into s2 end.
  apply TransformerEncoderFacts.bindM_inv in Hf.
  destruct Hf as (y0 & n0 & Hln & Hret).
  unfold ret in Hret. injection Hret as -> ->.
  unfold lift in Hln.
  destruct (layer_norm_forward (new_layer_norm D) s2) as [y1|] eqn:E; [|discriminate].
  injection Hln as -> _.
  unfold layer_norm_forward in E.
  destruct (split_last (shape s2)) as [[batch m]|]; [|discriminate].
  cbn [new_layer_norm normalized_shape] in E.
  destruct (Nat.eqb_spec m D) as [Hm|]; [|discriminate].
  rewrite Hm in E. injection E as <-. cbn [shape] in Hsy. cbn [data].
  intros b t. cbn.
  apply (normalised_row D (fun i => data s2 [b; t; i]) (1 / 100000) HD). lra.
Qed.

Lemma fresh_block_output_normalised_witness :
  exists y n',
    forward (Train (fun _ _ => true)) Samples.sample_block (zeros [1; 3; 2]) None 0
      = Ok (y, n') /\ shape y = [1; 3; 2] /\
    sum_n 2 (fun j => data y [0; 1; j]) = 0%R.
Proof.
  destruct (fresh_block_output_normalised (Train (fun _ _ => true)) Samples.sample_block
              (zeros [1; 3; 2]) None 2 1 4 1 3 0 eq_refl eq_refl eq_refl)
    as (y & n' & Hf & Hs & Hrows).
  exists y, n'. split; [exact Hf|]. split; [exact Hs|]. apply (Hrows 0 1).
Defined.

End EncoderBlockExtras.

(** ** Encoder stack: shapes and construction *)

Module TransformerEncoderExtras.
Import TransformerEncoder MoreSamples.

Lemma stack_shapes (md : mode) (mask : option tensor) (D H ff B T : nat)
    (ls : list EncoderBlock.t) :
  forall (x : tensor) (n : nat) (acc : list tensor),
    all_configured ls D H ff = true -> shape x = [B; T; D] ->
    exists y n' maps,
      forward_layers md ls x mask n = Ok (y, n') /\ shape y = [B; T; D] /\
      attention_maps_loop md ls x mask acc n = Ok (acc ++ maps, n') /\
      length maps = length ls /\
      Forall (fun w => shape w = [B; H; T; T]) maps.
Proof.
  induction ls as [|l ls IH]; intros x n acc Hall Hx.
  - exists x, n, []. cbn. rewrite app_nil_r. repeat split; try assumption. constructor.
  - cbn [all_configured forallb] in Hall. apply andb_prop in Hall. destruct Hall as [Hl Hls].
    assert (Ha : MultiheadAttention.configured (EncoderBlock.self_attn l) D D H = true).
    { pose proof Hl as Hl'. unfold EncoderBlock.configured in Hl'.
      do 3 (apply andb_prop in Hl'; destruct Hl' as [Hl' _]). exact Hl'. }
    destruct (MultiheadAttentionFacts.forward_attention_shape _ x mask D H B T Ha Hx)
      as (o & w & Hfa & _ & Hsw).
    destruct (EncoderBlockFacts.block_forward_shape md l x mask D H ff B T n Hl Hx)
      as (x1 & n1 & Hf & Hs1).
    destruct (IH x1 n1 (acc ++ [w]) Hls Hs1) as (y & n' & maps & Hfl & Hsy & Hloop & Hlen & Hsh).
    exists y, n', (w :: maps). split; [|split; [exact Hsy|split; [|split]]].
    + cbn [forward_layers]. unfold bindM. rewrite Hf. exact Hfl.
    + cbn [attention_maps_loop]. unfold bindM at 1. unfold lift. rewrite Hfa.
      unfold bindM at 1.
      rewrite <- (EncoderBlockFacts.block_forward_mask_irrelevant md l x mask), Hf.
      cbn [snd]. rewrite Hloop, <- app_assoc. reflexivity.
    + cbn. now rewrite Hlen.
    + constructor; assumption.
Qed.

(** X10: a stack of blocks that are all built for width [D] and [H] heads maps
    an input of shape [B, T, D] to an output of the same shape, and its
    diagnostic pass returns one attention tensor of shape [B, H, T, T] per
    block, in inference and in training mode and whatever the mask. *)
Theorem stack_keeps_shape (md : mode) (self : t) (x : tensor) (mask : option tensor)
    (D H ff B T n : nat) :
  all_configured (layers self) D H ff = true -> shape x = [B; T; D] ->
  exists y n' maps,
    forward md self x mask n = Ok (y, n') /\ shape y = [B; T; D] /\
    get_attention_maps md self x mask n = Ok (maps, n') /\
    length maps = length (layers self) /\
    Forall (fun w => shape w = [B; H; T; T]) maps.
Proof.
  intros Hall Hx. unfold forward, get_attention_maps.
  apply (stack_shapes md mask D H ff B T (layers self) x n [] Hall Hx).
Qed.

Lemma stack_keeps_shape_witness :
  exists y n' maps,
    forward Eval Samples.sample_encoder (zeros [5; 3; 2]) None 0 = Ok (y, n') /\
    shape y = [5; 3; 2] /\
    get_attention_maps Eval Samples.sample_encoder (zeros [5; 3; 2]) None 0 = Ok (maps, n') /\
    length maps = 2.
Proof.
  destruct (stack_keeps_shape Eval Samples.sample_encoder (zeros [5; 3; 2]) None
              2 1 4 5 3 0 eq_refl eq_refl)
    as (y & n' & maps & Hf & Hs & Hm & Hlen & _).
  exists y, n', maps. repeat split; assumption.
Defined.

Lemma block_init_ok (D H ff : nat) (p : R) (ps : EncoderBlock.params) :
  H <> 0 -> D mod H = 0 -> 1 <= D -> (0 <= p <= 1)%R ->
  exists b, EncoderBlock.init D H ff p ps = Ok b /\
            EncoderBlock.configured b D H ff = true.
Proof.
  intros H0 Hm HD Hp.
  assert (Hinit : exists b, EncoderBlock.init D H ff p ps = Ok b).
  { unfold EncoderBlock.init.
    destruct (EncoderBlockExtras.attention_init_ok D D H
                (EncoderBlock.w_qkv ps) (EncoderBlock.w_o ps) H0 Hm HD) as (attn & ->).
    cbn [bind]. rewrite (EncoderBlockExtras.check_dropout_ok p Hp). cbn [bind].
    eexists. reflexivity. }
  destruct Hinit as (b & Hb). exists b. split; [exact Hb|].
  apply (EncoderBlockFacts.block_init_configured D H ff p ps b Hb).
Qed.

Lemma block_init_err (D H ff : nat) (p : R) (ps : EncoderBlock.params) :
  ~ (H <> 0 /\ D mod H = 0 /\ 1 <= D /\ (0 <= p <= 1)%R) ->
  exists e, EncoderBlock.init D H ff p ps = Err e.
Proof.
  intros Hbad. unfold EncoderBlock.init.
  destruct (Nat.eq_dec H 0) as [H0|H0].
  { rewrite (EncoderBlockExtras.attention_init_err D D H _ _ (or_introl H0)).
    eexists. reflexivity. }
  destruct (Nat.eq_dec (D mod H) 0) as [Hm|Hm].
  2:{ rewrite (EncoderBlockExtras.attention_init_err D D H _ _ (or_intror Hm)).
      eexists. reflexivity. }
  destruct (Nat.eq_dec D 0) as [->|HD].
  { rewrite (EncoderBlockExtras.attention_init_zero_width 0 H _ _ H0).
    eexists. reflexivity. }
  destruct (EncoderBlockExtras.attention_init_ok D D H
              (EncoderBlock.w_qkv ps) (EncoderBlock.w_o ps) H0 Hm) as (attn & ->); [lia|].
  cbn [bind]. rewrite EncoderBlockExtras.check_dropout_err.
  - eexists. reflexivity.
  - intros Hp. apply Hbad. repeat split; try assumption; try lia; apply Hp.
Qed.

Lemma init_layers_ok (D H ff : nat) (p : R) (pss : list EncoderBlock.params) :
  H <> 0 -> D mod H = 0 -> 1 <= D -> (0 <= p <= 1)%R ->
  exists ls, init_layers D H ff p pss = Ok ls /\
             length ls = length pss /\ all_configured ls D H ff = true.
Proof.
  intros H0 Hm HD Hp. induction pss as [|ps pss IH].
  - exists []. repeat split.
  - destruct (block_init_ok D H ff p ps H0 Hm HD Hp) as (b & Hb & Hc).
    destruct IH as (ls & Hls & Hlen & Hall).
    exists (b :: ls). cbn [init_layers]. rewrite Hb. cbn [bind]. rewrite Hls. cbn [bind].
    split; [reflexivity|]. split; [cbn; now rewrite Hlen|].
    cbn [all_configured forallb]. rewrite Hc. exact Hall.
Qed.

(** X11: the constructor of the stack builds [num_layers] blocks, each with the
    given block arguments: with valid block arguments, or with no layers at
    all, it returns a stack of exactly [num_layers] configured blocks; with
    at least one layer and invalid block arguments (a head count that does
    not divide the width, a zero width, a dropout rate outside [0, 1]) it
    raises. *)
Theorem init_builds_num_layers (N D H ff : nat) (p : R)
    (ps : nat -> EncoderBlock.params) :
  (N = 0 \/ (H <> 0 /\ D mod H = 0 /\ 1 <= D /\ (0 <= p <= 1)%R) ->
     exists self, init N D H ff p ps = Ok self /\
                  length (layers self) = N /\
                  all_configured (layers self) D H ff = true) /\
  (0 < N -> ~ (H <> 0 /\ D mod H = 0 /\ 1 <= D /\ (0 <= p <= 1)%R) ->
     exists e, init N D H ff p ps = Err e).
Proof.
  unfold init. split.
  - intros [->|(H0 & Hm & HD & Hp)].
    + exists (mk []). repeat split.
    + destruct (init_layers_ok D H ff p (map ps (seq 0 N)) H0 Hm HD Hp)
        as (ls & -> & Hlen & Hall).
      exists (mk ls). cbn [bind layers]. split; [reflexivity|]. split; [|exact Hall].
      now rewrite Hlen, length_map, length_seq.
  - intros HN Hbad. destruct N as [|N]; [lia|].
    cbn [seq map init_layers].
    destruct (block_init_err D H ff p (ps 0) Hbad) as (e & ->).
    exists e. reflexivity.
Qed.

Lemma init_builds_num_layers_witness :
  (exists self, init 3 6 3 8 (1 / 2) (fun _ => one_params) = Ok self /\
                length (layers self) = 3 /\ all_configured (layers self) 6 3 8 = true) /\
  (exists self, init 0 6 4 8 2 (fun _ => one_params) = Ok self /\
                length (layers self) = 0) /\
  exists e, init 3 6 4 8 (1 / 2) (fun _ => one_params) = Err e.
Proof.
  split; [|split].
  - apply (proj1 (init_builds_num_layers 3 6 3 8 (1 / 2) (fun _ => one_params))).
    right. repeat split; try lia; lra.
  - destruct (proj1 (init_builds_num_layers 0 6 4 8 2 (fun _ => one_params)))
      as (self & Hi & Hl & _); [left; reflexivity|].
    exists self. split; assumption.
  - apply (proj2 (init_builds_num_layers 3 6 4 8 (1 / 2) (fun _ => one_params))); [lia|].
    intros (_ & Hm & _). cbn in Hm. discriminate Hm.
Defined.

End TransformerEncoderExtras.

(** ** Positional encoding: construction, the table, input widths *)

Module PositionalEncodingExtras.
Import PositionalEncoding PositionalEncodingFacts.

(** Entry [c] of the row of position [pos] of the table. *)
Definition table_entry (self : t) (pos c : nat) : R := data (pe self) [0; pos; c].

(** X12: construction by width: a zero width divides by zero, an odd width of 3
    or more raises a shape error (the cosine block has one column too many),
    an even width of 2 or more builds a table of shape [1, max_len, d_model],
    for any [max_len]. *)
Theorem init_outcome_by_width (d L : nat) :
  (d = 0 -> init d L = Err ZeroDivisionError) /\
  (Nat.even d = false -> 3 <= d -> init d L = Err RuntimeError) /\
  (Nat.even d = true -> 2 <= d ->
     exists self, init d L = Ok self /\ shape (pe self) = [1; L; d]).
Proof.
  split; [|split].
  - intros ->. apply init_zero_width.
  - apply init_odd_raises.
  - intros Hev Hd. destruct (init_even d L ltac:(lia) Hev) as (self & Hinit & Hs & _).
    exists self. split; assumption.
Qed.

Lemma init_outcome_by_width_witness :
  init 0 7 = Err ZeroDivisionError /\
  init 5 7 = Err RuntimeError /\
  exists self, init 6 7 = Ok self /\ shape (pe self) = [1; 7; 6].
Proof.
  split; [|split].
  - apply (proj1 (init_outcome_by_width 0 7)). reflexivity.
  - apply (proj1 (proj2 (init_outcome_by_width 5 7))); [reflexivity | lia].
  - apply (proj2 (proj2 (init_outcome_by_width 6 7))); [reflexivity | lia].
Defined.

(** The entries of the table of a constructed module of width 2 or more. *)
Lemma table_data (d L : nat) (self : t) :
  init d L = Ok self -> 2 <= d ->
  Nat.even d = true /\
  forall pos c, pos < L -> c < d ->
    data (pe self) [0; pos; c] =
    if Nat.even c then sin (angle d pos (c / 2)) else cos (angle d pos (c / 2)).
Proof.
  intros Hinit Hd.
  assert (Hev : Nat.even d = true).
  { destruct (Nat.even d) eqn:E; [reflexivity|].
    rewrite (init_odd_raises d L E) in Hinit; [discriminate|].
    destruct d as [|[|[|d]]]; try lia. discriminate E. }
  split; [exact Hev|].
  destruct (init_even d L ltac:(lia) Hev) as (self' & Hinit' & _ & Hdata).
  rewrite Hinit in Hinit'. injection Hinit' as <-. exact Hdata.
Qed.

Lemma pair_columns (i : nat) :
  Nat.even (2 * i) = true /\ (2 * i) / 2 = i /\
  Nat.even (2 * i + 1) = false /\ (2 * i + 1) / 2 = i.
Proof.
  repeat split.
  - rewrite Nat.even_mul. reflexivity.
  - rewrite (Nat.mul_comm 2 i). apply Nat.div_mul. lia.
  - rewrite Nat.even_add, Nat.even_mul. reflexivity.
  - symmetry. apply (Nat.div_unique (2 * i + 1) 2 i 1); lia.
Qed.



(** X14: each sine/cosine pair of the table is a point of the unit circle; the
    row of position 0 is 0, 1, 0, 1, ...; and the first pair of every row is
    the sine and the cosine of the position itself. *)
Theorem table_pairs (d L : nat) (self : t) :
  init d L = Ok self ->
  (forall pos i, pos < L -> 2 * i + 1 < d ->
     (table_entry self pos (2 * i) ^ 2 + table_entry self pos (2 * i + 1) ^ 2 = 1)%R) /\
  (forall i, 0 < L -> 2 * i + 1 < d ->
     table_entry self 0 (2 * i) = 0%R /\ table_entry self 0 (2 * i + 1) = 1%R) /\
  (forall pos, pos < L -> 1 < d ->
     table_entry self pos 0 = sin (INR pos) /\
     table_entry self pos 1 = cos (INR pos)).
Proof.
  intros Hinit.
  assert (Hpair : forall pos i, pos < L -> 2 * i + 1 < d ->
            table_entry self pos (2 * i) = sin (angle d pos i) /\
            table_entry self pos (2 * i + 1) = cos (angle d pos i)).
  { intros pos i Hpos Hi. unfold table_entry.
    destruct (table_data d L self Hinit ltac:(lia)) as [_ Hdata].
    destruct (pair_columns i) as (E1 & E2 & E3 & E4).
    rewrite (Hdata pos (2 * i)), (Hdata pos (2 * i + 1)) by lia.
    rewrite E1, E2, E3, E4. split; reflexivity. }
  split; [|split].
  - intros pos i Hpos Hi. destruct (Hpair pos i Hpos Hi) as [-> ->].
    pose proof (sin2_cos2 (angle d pos i)) as Hsc. unfold Rsqr in Hsc.
    simpl pow. lra.
  - intros i HL Hi. destruct (Hpair 0 i HL Hi) as [-> ->].
    unfold angle. cbn [INR]. rewrite Rmult_0_l, sin_0, cos_0. split; reflexivity.
  - intros pos Hpos Hd. destruct (Hpair pos 0 Hpos ltac:(lia)) as [H0 H1].
    cbn [Nat.mul Nat.add] in H0, H1. rewrite H0, H1.
    unfold angle. cbn [Nat.mul INR]. rewrite Rmult_0_l, exp_0, Rmult_1_r.
    split; reflexivity.
Qed.

Lemma table_pairs_witness :
  exists self, init 4 3 = Ok self /\
    (table_entry self 2 2 ^ 2 + table_entry self 2 3 ^ 2 = 1)%R /\
    table_entry self 0 2 = 0%R /\ table_entry self 0 3 = 1%R /\
    table_entry self 2 0 = sin (INR 2).
Proof.
  assert (Hrun : is_ok (init 4 3) = true) by (vm_compute; reflexivity).
  destruct (init 4 3) as [self|e] eqn:E; [|discriminate Hrun].
  destruct (table_pairs 4 3 self E) as (Hcircle & Hrow0 & Hcol).
  exists self. split; [reflexivity|].
  split; [apply (Hcircle 2 1); lia|].
  destruct (Hrow0 1 ltac:(lia) ltac:(lia)) as [H0 H1].
  split; [exact H0|]. split; [exact H1|].
  apply (Hcol 2); lia.
Defined.

(** X15: inputs that are not [B, T, d_model]: an input with fewer than two axes
    has no [x.size(1)]; a three-axis input of another width raises a shape
    error, unless that width is 1, in which case the single feature is
    broadcast: the output has the full width [d_model], each entry being the
    input's feature plus the table entry. *)
Theorem input_width_handling (d L : nat) (self : t) (x : tensor) :
  init d L = Ok self -> 2 <= d ->
  (length (shape x) < 2 -> forward self x = Err IndexError) /\
  (forall B T D', shape x = [B; T; D'] -> D' <> d -> D' <> 1 ->
     forward self x = Err RuntimeError) /\
  (forall B T, shape x = [B; T; 1] -> T <= L ->
     exists y, forward self x = Ok y /\ shape y = [B; T; d] /\
       forall b t j, b < B -> t < T -> j < d ->
         data y [b; t; j] = Rplus (data x [b; t; 0]) (table_entry self t j)).
Proof.
  intros Hinit Hd. pose proof (init_shape d L self Hinit) as Hpe.
  split; [|split].
  - intros Hlen. unfold forward, shape_at.
    destruct (shape x) as [|a [|b l]]; cbn in Hlen; try reflexivity. lia.
  - intros B T D' Hx Hne H1. unfold forward, shape_at, slice_dim1_to. rewrite Hx, Hpe.
    cbn [nth_error bind]. unfold add, zip_with, broadcast_shapes.
    cbn [shape data]. rewrite Hx. cbn [rev app broadcast_rev].
    unfold broadcast_dim at 1.
    rewrite (proj2 (Nat.eqb_neq D' d) Hne), (proj2 (Nat.eqb_neq D' 1) H1).
    rewrite (proj2 (Nat.eqb_neq d 1)) by lia. reflexivity.
  - intros B T Hx HT. unfold forward, shape_at, slice_dim1_to. rewrite Hx, Hpe.
    cbn [nth_error bind]. unfold add, zip_with, broadcast_shapes.
    cbn [shape data]. rewrite Hx. cbn [rev app broadcast_rev].
    rewrite Nat.min_l by exact HT.
    assert (E1 : broadcast_dim 1 d = Some d).
    { unfold broadcast_dim. rewrite (proj2 (Nat.eqb_neq 1 d)) by lia. reflexivity. }
    assert (E2 : broadcast_dim T T = Some T)
      by (unfold broadcast_dim; now rewrite Nat.eqb_refl).
    assert (E3 : broadcast_dim B 1 = Some B).
    { unfold broadcast_dim. destruct (Nat.eqb_spec B 1) as [->|]; reflexivity. }
    rewrite E1, E2, E3. cbn [rev app].
    eexists; split; [reflexivity|]. split; [reflexivity|].
    intros b t j Hb Ht Hj. cbn.
    rewrite (AttentionBatched.clamp_index B b Hb), !(AttentionBatched.clamp_index T t Ht),
      !(AttentionBatched.clamp_index d j Hj).
    reflexivity.
Qed.

Lemma input_width_handling_witness :
  exists self, init 4 3 = Ok self /\
    forward self (zeros [4]) = Err IndexError /\
    forward self (zeros [2; 3; 5]) = Err RuntimeError /\
    exists y, forward self (zeros [2; 3; 1]) = Ok y /\ shape y = [2; 3; 4].
Proof.
  assert (Hrun : is_ok (init 4 3) = true) by (vm_compute; reflexivity).
  destruct (init 4 3) as [self|e] eqn:E; [|discriminate Hrun].
  exists self. split; [reflexivity|]. split; [|split].
  - apply (proj1 (input_width_handling 4 3 self (zeros [4]) E ltac:(lia))). cbn. lia.
  - apply (proj1 (proj2 (input_width_handling 4 3 self (zeros [2; 3; 5]) E ltac:(lia)))
             2 3 5 eq_refl); lia.
  - destruct (proj2 (proj2 (input_width_handling 4 3 self (zeros [2; 3; 1]) E ltac:(lia)))
                2 3 eq_refl ltac:(lia)) as (y & Hy & Hs & _).
    exists y. split; assumption.
Defined.

End PositionalEncodingExtras.

(** ** The sequence-reversal dataset *)

Module ReverseDatasetExtras.
Import ReverseDataset.

(** X16: an item exists exactly for the indices below [len]: the input and its
    labels are both sequences of [seq_len] entries, the input being row
    [idx] of the draws and the labels the same row read backwards, so every
    label is a drawn category; an index from [len] on raises [IndexError]. *)
Theorem getitem_reverses (nc sl sz : nat) (draws : nat -> nat -> nat)
    (self : t) (idx : nat) :
  init nc sl sz draws = Ok self ->
  len self = sz /\
  (idx < len self ->
     exists inp labels,
       getitem self idx = Ok (inp, labels) /\
       ishape inp = [sl] /\ ishape labels = [sl] /\
       forall j, j < sl ->
         idata inp [j] = draws idx j /\
         idata labels [j] = idata inp [sl - 1 - j] /\
         idata labels [j] = draws idx (sl - 1 - j)) /\
  (len self <= idx -> getitem self idx = Err IndexError).
Proof.
  unfold init. destruct (nc =? 0); [discriminate|].
  intros [= <-]. unfold len, getitem, select0, flip0; cbn [size data ishape idata].
  split; [reflexivity|]. split.
  - intros Hidx. rewrite (proj2 (Nat.ltb_lt idx sz) Hidx). cbn [bind ishape idata].
    eexists; eexists. split; [reflexivity|]. split; [reflexivity|]. split; [reflexivity|].
    intros j Hj. cbn [idata]. repeat split.
  - intros Hidx. rewrite (proj2 (Nat.ltb_ge idx sz) Hidx). reflexivity.
Qed.

Lemma getitem_reverses_witness :
  init 10 16 1000 MoreSamples.sample_draws = Ok MoreSamples.sample_dataset /\
  (exists inp labels,
     getitem MoreSamples.sample_dataset 7 = Ok (inp, labels) /\
     idata labels [0] = idata inp [15]) /\
  getitem MoreSamples.sample_dataset 1000 = Err IndexError.
Proof.
  split; [reflexivity|].
  destruct (getitem_reverses 10 16 1000 MoreSamples.sample_draws MoreSamples.sample_dataset
              7 eq_refl) as (_ & Hin & _).
  destruct (getitem_reverses 10 16 1000 MoreSamples.sample_draws MoreSamples.sample_dataset
              1000 eq_refl) as (_ & _ & Hout).
  split.
  - destruct (Hin ltac:(cbn; lia)) as (inp & labels & Hg & _ & _ & Hj).
    exists inp, labels. split; [exact Hg|]. apply (Hj 0). lia.
  - apply Hout. cbn. lia.
Defined.

(** X17: reversal is its own inverse on a dataset item: flipping the labels gives
    back the input, entry by entry, and the labels hold the same categories
    as the input (entry [j] of one is entry [seq_len - 1 - j] of the other,
    in both directions). *)
Theorem labels_flip_back (self : t) (idx : nat) (inp labels : itensor) :
  getitem self idx = Ok (inp, labels) ->
  exists n rest back,
    ishape inp = n :: rest /\ ishape labels = n :: rest /\
    flip0 labels = Ok back /\ ishape back = n :: rest /\
    forall j tl, j < n ->
      idata back (j :: tl) = idata inp (j :: tl) /\
      idata inp (j :: tl) = idata labels ((n - 1 - j) :: tl).
Proof.
  unfold getitem. destruct (select0 (data self) idx) as [a|] eqn:Ea; [|discriminate].
  cbn [bind]. unfold flip0 at 1.
  destruct (ishape a) as [|n rest] eqn:Es; [discriminate|].
  cbn [bind]. intros [= <- <-].
  exists n, rest. unfold flip0. cbn [ishape idata].
  eexists. split; [exact Es|]. split; [reflexivity|]. split; [reflexivity|].
  split; [reflexivity|].
  intros j tl Hj. cbn [idata].
  replace (n - 1 - (n - 1 - j)) with j by lia. split; reflexivity.
Qed.

Lemma labels_flip_back_witness :
  exists inp labels back,
    getitem MoreSamples.sample_dataset 7 = Ok (inp, labels) /\
    flip0 labels = Ok back /\
    ishape back = [16] /\
    idata back [3] = idata inp [3].
Proof.
  assert (Hrun : is_ok (getitem MoreSamples.sample_dataset 7) = true)
    by (vm_compute; reflexivity).
  assert (Hshape : match getitem MoreSamples.sample_dataset 7 with
                   | Ok (inp, _) => ishape inp
                   | Err _ => []
                   end = [16]) by (vm_compute; reflexivity).
  destruct (getitem MoreSamples.sample_dataset 7) as [[inp labels]|e] eqn:E;
    [|discriminate Hrun].
  destruct (labels_flip_back MoreSamples.sample_dataset 7 inp labels E)
    as (n & rest & back & Hi & _ & Hb & Hsb & Hj).
  rewrite Hshape in Hi. injection Hi as <- <-.
  exists inp, labels, back. split; [reflexivity|]. split; [exact Hb|].
  split; [exact Hsb|]. apply (Hj 3 []). lia.
Defined.

End ReverseDatasetExtras.

(** ** The mask through the whole stack *)

Module MaskExtras.

Lemma forward_layers_mask_irrelevant (md : mode) (ls : list EncoderBlock.t)
    (mask : option tensor) :
  forall x n, TransformerEncoder.forward_layers md ls x mask n
              = TransformerEncoder.forward_layers md ls x None n.
Proof.
  induction ls as [|l ls IH]; intros x n; [reflexivity|].
  cbn [TransformerEncoder.forward_layers]. unfold bindM.
  rewrite (EncoderBlockFacts.block_forward_mask_irrelevant md l x mask).
  destruct (EncoderBlock.forward md l x None n) as [[x1 n1]|e]; [apply IH | reflexivity].
Qed.

Lemma attention_maps_loop_mask_irrelevant (md : mode) (ls : list EncoderBlock.t)
    (mask : option tensor) :
  forall x n acc, TransformerEncoder.attention_maps_loop md ls x mask acc n
                  = TransformerEncoder.attention_maps_loop md ls x None acc n.
Proof.
  induction ls as [|l ls IH]; intros x n acc; [reflexivity|].
  cbn [TransformerEncoder.attention_maps_loop]. unfold bindM.
  rewrite (MultiheadAttentionFacts.forward_attention_mask_irrelevant _ x mask).
  destruct (lift _ n) as [[r n0]|e]; [|reflexivity].
  destruct (EncoderBlock.forward md l x None n0) as [[x1 n1]|e]; [apply IH | reflexivity].
Qed.

(** X18: no pass reads its mask: multi-head attention, a block, the stack, its
    attention maps and the predictor return, for every mask, exactly what
    they return without one (result or exception), so positions meant to be
    excluded (padding) take part in the attention like any other. *)
Theorem mask_never_read (md : mode) (x : tensor) (mask : option tensor) (n : nat) :
  (forall attn,
     MultiheadAttention.forward_attention attn x mask
       = MultiheadAttention.forward_attention attn x None) /\
  (forall block,
     EncoderBlock.forward md block x mask n = EncoderBlock.forward md block x None n) /\
  (forall enc,
     TransformerEncoder.forward md enc x mask n = TransformerEncoder.forward md enc x None n /\
     TransformerEncoder.get_attention_maps md enc x mask n
       = TransformerEncoder.get_attention_maps md enc x None n) /\
  (forall predictor add_positional_encoding,
     TransformerPredictor.forward md predictor x mask add_positional_encoding n
       = TransformerPredictor.forward md predictor x None add_positional_encoding n).
Proof.
  split; [reflexivity|]. split; [reflexivity|]. split.
  - intros enc. split.
    + apply forward_layers_mask_irrelevant.
    + apply attention_maps_loop_mask_irrelevant.
  - intros predictor add_pe. unfold TransformerPredictor.forward, bindM.
    destruct (sequential_forward md _ x n) as [[x1 n1]|e]; [|reflexivity].
    destruct add_pe.
    + destruct (lift _ n1) as [[x2 n2]|e]; [|reflexivity].
      unfold TransformerEncoder.forward. rewrite forward_layers_mask_irrelevant.
      reflexivity.
    + unfold ret, TransformerEncoder.forward. rewrite forward_layers_mask_irrelevant.
      reflexivity.
Qed.

End MaskExtras.

(** ** The predictor *)

Module TransformerPredictorExtras.
Import TransformerPredictor MoreSamples.

Lemma predictor_configured_spec (self : t) (I D C H : nat) :
  predictor_configured self I D C H = true ->
  (exists p l, input_net self = [DropoutL p; LinearL l] /\
               in_features l = I /\ out_features l = D) /\
  shape (PositionalEncoding.pe (positional_encoding self)) = [1; default_max_len; D] /\
  all_configured (TransformerEncoder.layers (transformer self)) D H (2 * D) = true /\
  (exists l1 ln p l2,
     output_net self = [LinearL l1; LayerNormL ln; ReLUL; DropoutL p; LinearL l2] /\
     in_features l1 = D /\ out_features l1 = D /\ normalized_shape ln = D /\
     in_features l2 = D /\ out_features l2 = C).
Proof.
  unfold predictor_configured. rewrite !andb_true_iff. intros [[[Hin Hpe] Hall] Hout].
  split; [|split; [|split; [exact Hall|]]].
  - destruct (input_net self) as [|[|p| |] [|[l| | |] [|]]]; try discriminate Hin.
    rewrite andb_true_iff, !Nat.eqb_eq in Hin. exists p, l. tauto.
  - destruct (shape _) as [|one [|L [|d [|]]]]; try discriminate Hpe.
    rewrite !andb_true_iff, !Nat.eqb_eq in Hpe. destruct Hpe as [[-> ->] ->]. reflexivity.
  - destruct (output_net self)
      as [|[l1| | |] [|[| | |ln] [|[| | |] [|[|p| |] [|[l2| | |] [|]]]]]];
      try discriminate Hout.
    rewrite !andb_true_iff, !Nat.eqb_eq in Hout. exists l1, ln, p, l2. tauto.
Qed.

(** The input net: dropout, then the projection to the model width. *)
Lemma input_net_shape (md : mode) (p : R) (l : Linear) (x : tensor)
    (batch : list nat) (n : nat) :
  shape x = batch ++ [in_features l] ->
  exists y n', sequential_forward md [DropoutL p; LinearL l] x n = Ok (y, n') /\
               shape y = batch ++ [out_features l].
Proof.
  intros Hx. cbn [sequential_forward layer_forward].
  destruct (EncoderBlockFacts.dropout_ok md p x n) as (x1 & n1 & Hd & Hs1).
  rewrite (EncoderBlockFacts.bindM_ok _ _ n n1 x1 Hd).
  destruct (linear_forward_ok l x1 batch (in_features l)) as (y & Hy & Hsy);
    [congruence | reflexivity |].
  rewrite (EncoderBlockFacts.bindM_ok _ _ n1 n1 y (EncoderBlockFacts.lift_ok _ _ _ Hy)).
  exists y, n1. split; [reflexivity | exact Hsy].
Qed.

(** The output net: projection, layer norm, ReLU, dropout, classifier. *)
Lemma output_net_shape (md : mode) (l1 l2 : Linear) (ln : LayerNorm) (p : R)
    (x : tensor) (batch : list nat) (n : nat) :
  shape x = batch ++ [in_features l1] ->
  out_features l1 = normalized_shape ln -> out_features l1 = in_features l2 ->
  exists y n',
    sequential_forward md [LinearL l1; LayerNormL ln; ReLUL; DropoutL p; LinearL l2] x n
      = Ok (y, n') /\
    shape y = batch ++ [out_features l2].
Proof.
  intros Hx Hln H12. cbn [sequential_forward layer_forward].
  destruct (linear_forward_ok l1 x batch _ Hx eq_refl) as (h & Hh & Hsh).
  rewrite (EncoderBlockFacts.bindM_ok _ _ n n h (EncoderBlockFacts.lift_ok _ _ _ Hh)).
  destruct (layer_norm_forward_ok ln h batch (out_features l1) Hsh Hln) as (h1 & Hh1 & Hs1).
  rewrite (EncoderBlockFacts.bindM_ok _ _ n n h1 (EncoderBlockFacts.lift_ok _ _ _ Hh1)).
  rewrite (EncoderBlockFacts.bindM_ok _ _ n n (relu h1) eq_refl).
  destruct (EncoderBlockFacts.dropout_ok md p (relu h1) n) as (h2 & n2 & Hd & Hs2).
  rewrite (EncoderBlockFacts.bindM_ok _ _ n n2 h2 Hd).
  destruct (linear_forward_ok l2 h2 batch (out_features l1)) as (y & Hy & Hsy).
  { rewrite Hs2. cbn [relu map_tensor shape]. exact Hs1. }
  { exact H12. }
  rewrite (EncoderBlockFacts.bindM_ok _ _ n2 n2 y (EncoderBlockFacts.lift_ok _ _ _ Hy)).
  exists y, n2. split; [reflexivity | exact Hsy].
Qed.

(** The encoder followed by the output net, on a sequence of model width. *)
Lemma encoder_and_output_shape (md : mode) (self : t) (x : tensor) (mask : option tensor)
    (I D C H B T n : nat) :
  predictor_configured self I D C H = true -> shape x = [B; T; D] ->
  exists y n',
    bindM (TransformerEncoder.forward md (transformer self) x mask)
      (fun x => bindM (sequential_forward md (output_net self) x) (fun x => ret x)) n
      = Ok (y, n') /\
    shape y = [B; T; C].
Proof.
  intros Hc Hx.
  destruct (predictor_configured_spec self I D C H Hc)
    as (_ & _ & Hall & (l1 & ln & p & l2 & Hout & Hi1 & Ho1 & Hn & Hi2 & Ho2)).
  destruct (TransformerEncoderExtras.stack_shapes md mask D H (2 * D) B T
              (TransformerEncoder.layers (transformer self)) x n [] Hall Hx)
    as (x1 & n1 & _ & Hf & Hs1 & _).
  unfold TransformerEncoder.forward.
  rewrite (EncoderBlockFacts.bindM_ok _ _ n n1 x1 Hf), Hout.
  destruct (output_net_shape md l1 l2 ln p x1 [B; T] n1) as (y & n2 & Hy & Hsy);
    [rewrite Hi1; exact Hs1 | congruence | congruence |].
  rewrite (EncoderBlockFacts.bindM_ok _ _ n1 n2 y Hy).
  exists y, n2. split; [reflexivity|]. rewrite Hsy, Ho2. reflexivity.
Qed.

(** X19: a configured predictor maps features of shape [B, T, input_dim] to
    logits of shape [B, T, num_classes]: with the positional encoding for
    every sequence length up to 5000, without it for every sequence length;
    a longer sequence with the positional encoding raises a shape error. *)
Theorem forward_logits_shape (md : mode) (self : t) (x : tensor) (mask : option tensor)
    (I D C H B T n : nat) :
  predictor_configured self I D C H = true -> shape x = [B; T; I] ->
  (T <= 5000 ->
     exists y n', forward md self x mask true n = Ok (y, n') /\ shape y = [B; T; C]) /\
  (exists y n', forward md self x mask false n = Ok (y, n') /\ shape y = [B; T; C]) /\
  (5000 < T -> forward md self x mask true n = Err RuntimeError).
Proof.
  intros Hc Hx.
  destruct (predictor_configured_spec self I D C H Hc)
    as ((p & l & Hin & Hli & Hlo) & Hpe & _ & _).
  destruct (input_net_shape md p l x [B; T] n) as (x1 & n1 & Hx1 & Hs1);
    [rewrite Hli; exact Hx|].
  rewrite Hlo in Hs1. cbn [app] in Hs1.
  pose proof (PositionalEncodingFacts.forward_broadcast (positional_encoding self) x1
                B T default_max_len D Hpe Hs1) as Hadd.
  unfold forward. rewrite Hin.
  rewrite !(EncoderBlockFacts.bindM_ok _ _ n n1 x1 Hx1).
  split; [|split].
  - intros HT. rewrite Hadd. unfold default_max_len.
    rewrite Nat.min_l by exact HT. unfold broadcast_dim. rewrite Nat.eqb_refl.
    match goal with
    | |- context [lift (Ok ?t)] =>
        rewrite (EncoderBlockFacts.bindM_ok _ _ n1 n1 t eq_refl);
        apply (encoder_and_output_shape md self t mask I D C H B T n1 Hc eq_refl)
    end.
  - rewrite (EncoderBlockFacts.bindM_ok _ _ n1 n1 x1 eq_refl).
    apply (encoder_and_output_shape md self x1 mask I D C H B T n1 Hc Hs1).
  - intros HT. rewrite Hadd. unfold default_max_len.
    rewrite Nat.min_r by lia. unfold broadcast_dim.
    rewrite (proj2 (Nat.eqb_neq T 5000)) by lia.
    rewrite (proj2 (Nat.eqb_neq T 1)) by lia.
    reflexivity.
Qed.

Lemma init_layers_configured (D H ff : nat) (p : R) (pss : list EncoderBlock.params) :
  forall ls, TransformerEncoder.init_layers D H ff p pss = Ok ls ->
             length ls = length pss /\ all_configured ls D H ff = true.
Proof.
  induction pss as [|ps pss IH]; intros ls Hls.
  - cbn in Hls. injection Hls as <-. split; reflexivity.
  - cbn [TransformerEncoder.init_layers] in Hls.
    destruct (EncoderBlock.init D H ff p ps) as [b|] eqn:Eb; [|discriminate].
    cbn [bind] in Hls.
    destruct (TransformerEncoder.init_layers D H ff p pss) as [bs|]; [|discriminate].
    cbn [bind] in Hls. injection Hls as <-.
    destruct (IH bs eq_refl) as [Hlen Hall].
    split; [cbn; now rewrite Hlen|].
    cbn [all_configured forallb].
    destruct (EncoderBlockFacts.block_init_configured D H ff p ps b Eb) as (-> & _).
    exact Hall.
Qed.

(** What the constructor returns is configured, with [num_layers] blocks. *)
Lemma init_configured (I D C H N : nat) (p pin : R) (ps : params) (self : t) :
  init I D C H N p pin ps = Ok self ->
  predictor_configured self I D C H = true /\
  length (TransformerEncoder.layers (transformer self)) = N.
Proof.
  unfold init. destruct (check_dropout pin); [|discriminate]. cbn [bind].
  destruct (PositionalEncoding.init D default_max_len) as [enc|] eqn:Epe; [|discriminate].
  cbn [bind]. unfold TransformerEncoder.init.
  destruct (TransformerEncoder.init_layers D H (2 * D) p (map (blocks ps) (seq 0 N)))
    as [ls|] eqn:Els; [|discriminate].
  cbn [bind]. destruct (check_dropout p); [|discriminate]. cbn [bind].
  intros [= <-].
  destruct (init_layers_configured D H (2 * D) p _ ls Els) as [Hlen Hall].
  split.
  - unfold predictor_configured.
    cbn [input_net positional_encoding transformer output_net TransformerEncoder.layers
         in_features out_features normalized_shape EncoderBlock.new_layer_norm].
    rewrite (PositionalEncodingFacts.init_shape D default_max_len enc Epe), Hall.
    rewrite !Nat.eqb_refl. reflexivity.
  - cbn [transformer TransformerEncoder.layers]. now rewrite Hlen, length_map, length_seq.
Qed.

(** X20: construction checks, in this order: the input dropout rate
    ([ValueError]); the model width, which the positional encoding refuses
    when it is 0 ([ZeroDivisionError]) or odd and at least 3 (shape error),
    whatever the head count; then, if there is at least one layer, the head
    count against the model width.  With valid rates, an even model width of
    at least 2 and a dividing head count the predictor is built, with
    [num_layers] blocks. *)
Theorem predictor_init_outcome (I D C H N : nat) (p pin : R) (ps : params) :
  (~ (0 <= pin <= 1)%R -> init I D C H N p pin ps = Err ValueError) /\
  ((0 <= pin <= 1)%R -> D = 0 -> init I D C H N p pin ps = Err ZeroDivisionError) /\
  ((0 <= pin <= 1)%R -> Nat.even D = false -> 3 <= D ->
     init I D C H N p pin ps = Err RuntimeError) /\
  ((0 <= pin <= 1)%R -> Nat.even D = true -> 2 <= D -> 0 < N ->
     H = 0 \/ D mod H <> 0 ->
     init I D C H N p pin ps = Err (if H =? 0 then ZeroDivisionError else AssertionError)) /\
  ((0 <= pin <= 1)%R -> Nat.even D = true -> 2 <= D ->
     H <> 0 -> D mod H = 0 -> (0 <= p <= 1)%R ->
     exists self, init I D C H N p pin ps = Ok self /\
                  predictor_configured self I D C H = true /\
                  length (TransformerEncoder.layers (transformer self)) = N).
Proof.
  split; [|split; [|split; [|split]]].
  - intros Hpin. unfold init. rewrite (EncoderBlockExtras.check_dropout_err pin Hpin).
    reflexivity.
  - intros Hpin ->. unfold init. rewrite (EncoderBlockExtras.check_dropout_ok pin Hpin).
    cbn [bind]. rewrite PositionalEncodingFacts.init_zero_width. reflexivity.
  - intros Hpin Hodd HD. unfold init.
    rewrite (EncoderBlockExtras.check_dropout_ok pin Hpin). cbn [bind].
    rewrite (PositionalEncodingFacts.init_odd_raises D default_max_len Hodd HD).
    reflexivity.
  - intros Hpin Hev HD HN Hbad. unfold init.
    rewrite (EncoderBlockExtras.check_dropout_ok pin Hpin). cbn [bind].
    destruct (PositionalEncodingFacts.init_even D default_max_len ltac:(lia) Hev)
      as (enc & -> & _). cbn [bind].
    destruct N as [|N]; [lia|].
    unfold TransformerEncoder.init. cbn [seq map TransformerEncoder.init_layers].
    unfold EncoderBlock.init.
    rewrite (EncoderBlockExtras.attention_init_err D D H _ _ Hbad). reflexivity.
  - intros Hpin Hev HD H0 Hm Hp.
    assert (Hinit : exists self, init I D C H N p pin ps = Ok self).
    { unfold init. rewrite (EncoderBlockExtras.check_dropout_ok pin Hpin). cbn [bind].
      destruct (PositionalEncodingFacts.init_even D default_max_len ltac:(lia) Hev)
        as (enc & -> & _). cbn [bind].
      unfold TransformerEncoder.init.
      destruct (TransformerEncoderExtras.init_layers_ok D H (2 * D) p
                  (map (blocks ps) (seq 0 N)) H0 Hm ltac:(lia) Hp) as (ls & -> & _).
      cbn [bind]. rewrite (EncoderBlockExtras.check_dropout_ok p Hp). cbn [bind].
      eexists. reflexivity. }
    destruct Hinit as (self & Hinit). exists self. split; [exact Hinit|].
    apply (init_configured I D C H N p pin ps self Hinit).
Qed.

Lemma predictor_init_outcome_witness :
  init 10 8 10 4 1 0 2 one_predictor_params = Err ValueError /\
  init 10 0 10 4 1 0 0 one_predictor_params = Err ZeroDivisionError /\
  init 10 9 10 3 1 0 0 one_predictor_params = Err RuntimeError /\
  init 10 8 10 3 1 0 0 one_predictor_params = Err AssertionError /\
  exists self, init 10 8 10 4 1 0 0 one_predictor_params = Ok self /\
               predictor_configured self 10 8 10 4 = true.
Proof.
  split; [|split; [|split; [|split]]].
  - apply (proj1 (predictor_init_outcome 10 8 10 4 1 0 2 one_predictor_params)). lra.
  - apply (proj1 (proj2 (predictor_init_outcome 10 0 10 4 1 0 0 one_predictor_params)));
      [lra | reflexivity].
  - apply (proj1 (proj2 (proj2 (predictor_init_outcome 10 9 10 3 1 0 0 one_predictor_params))));
      [lra | reflexivity | lia].
  - apply (proj1 (proj2 (proj2 (proj2 (predictor_init_outcome 10 8 10 3 1 0 0 one_predictor_params)))));
      [lra | reflexivity | lia | lia |].
    right. cbn. discriminate.
  - destruct (proj2 (proj2 (proj2 (proj2
                (predictor_init_outcome 10 8 10 4 1 0 0 one_predictor_params)))))
      as (self & Hi & Hc & _); [lra | reflexivity | lia | lia | reflexivity | lra |].
    exists self. split; assumption.
Defined.

Lemma forward_logits_shape_witness :
  (exists y n', forward Eval sample_predictor (zeros [2; 16; 10]) None true 0 = Ok (y, n') /\
                shape y = [2; 16; 10]) /\
  (exists y n', forward Eval sample_predictor (zeros [2; 16; 10]) None false 0 = Ok (y, n') /\
                shape y = [2; 16; 10]) /\
  forward Eval sample_predictor (zeros [2; S 5000; 10]) None true 0 = Err RuntimeError.
Proof.
  assert (Hc : predictor_configured sample_predictor 10 8 10 4 = true)
    by (vm_compute; reflexivity).
  destruct (forward_logits_shape Eval sample_predictor (zeros [2; 16; 10]) None
              10 8 10 4 2 16 0 Hc eq_refl) as (Hwith & Hwithout & _).
  split; [apply Hwith; lia | split; [exact Hwithout|]].
  apply (proj2 (proj2 (forward_logits_shape Eval sample_predictor (zeros [2; S 5000; 10])
                         None 10 8 10 4 2 (S 5000) 0 Hc eq_refl))).
  apply Nat.lt_succ_diag_r.
Defined.

End TransformerPredictorExtras.
